(** * InfraBondX ledger core: investment, escrow release and secondary market

    A shallow embedding of the routes of [backend/app.py] over the tables
    of [backend/models.py] and of the seeding of [backend/seed.py], the
    properties of the ledger that the specification states about them, and
    the invariants the routes keep.

    Conventions of the embedding.
    - The database is a record of tables; a table is the list of its rows
      in primary-key order. [Model.query.get(k)] is the row whose [id] is
      [k], [filter_by(...).first()] the first row that matches, a mutated
      ORM object is written back in place, [db.session.add] appends a row
      under a fresh [id].
    - A route is a function from its parsed request and the database to a
      response and the database after the request. A route that returns
      before [db.session.commit()], or that raises an exception before it,
      leaves the database as its last commit left it; an uncaught exception
      is answered with status 500.
    - Python [int] is [Z]; Python [float] is IEEE 754 binary64, in the
      representation of the specification the Standard Library states its
      primitive floats against ([SpecFloat]).
    - An Integer column holds a signed 64-bit integer: the driver raises
      [OverflowError] on any other [int] it is given to store ([int64]).
      The rows of a table hold what was stored; the keys of rows, the keys
      a request names to look a row up and the user id of a bearer token
      are such values.
    - A Float column stores NaN as NULL, which reads back as [None]: a NaN
      in a Float column of a row stands for that NULL, and arithmetic or
      comparison on it raises [TypeError] ([is_null]).
    - The status and type columns hold the strings the routes compare
      them with and write to them; they are enumerations here.
    - [get_auth_user()], [generate_tx_hash()] and the parsing of the JSON
      body ([int(...)], [.strip()], [.upper()]) are done by the caller:
      their results are arguments of the route. The [created_at] columns,
      filled by the clock, are not part of the model. *)

From Stdlib Require Import ZArith List String Bool Lia.
From Stdlib Require Import SpecFloat.
From Stdlib Require Import Sorted Permutation.
Import ListNotations.

Open Scope Z_scope.

(** ** Python numbers *)

Module Py.

Definition prec : Z := 53.
Definition emax : Z := 1024.

(** A binary64 value. *)
Definition float : Type := spec_float.

(** [float(z)]: the conversion Python applies to an [int] operand of a
    mixed [int]/[float] operation, rounding to nearest, ties to even.
    (Beyond the binary64 range Python raises [OverflowError]; such
    integers do not fit an Integer column.) *)
Definition of_int (z : Z) : float := binary_normalize prec emax z 0 false.

Definition mul (x y : float) : float := SFmul prec emax x y.
Definition add (x y : float) : float := SFadd prec emax x y.
Definition div (x y : float) : float := SFdiv prec emax x y.
Definition leb (x y : float) : bool := SFleb x y.

(** An [int] as an exact, not yet rounded, significand. *)
Definition exact (z : Z) : float :=
  match z with
  | Z0 => S754_zero false
  | Zpos m => S754_finite false m 0
  | Zneg m => S754_finite true m 0
  end.

(** [n / d] on two [int]s: the quotient of the exact integers, rounded
    once; [None] is [ZeroDivisionError]. (A quotient beyond the binary64
    range, where Python raises [OverflowError], is an infinity here, and
    [to_int] fails on it.) *)
Definition int_truediv (n d : Z) : option float :=
  if d =? 0 then None else Some (SFdiv prec emax (exact n) (exact d)).

(** [x / d] with a [float] and an [int]; [None] is [ZeroDivisionError]. *)
Definition truediv (x : float) (d : Z) : option float :=
  if d =? 0 then None else Some (div x (of_int d)).

(** [int(x)]: truncation toward zero; [None] is the [OverflowError] or
    [ValueError] raised on an infinity or a NaN. *)
Definition to_int (x : float) : option Z :=
  match x with
  | S754_zero _ => Some 0
  | S754_finite s m e =>
      Some (cond_Zopp s
              (match e with
               | Z0 => Zpos m
               | Zpos _ => Zpos m * 2 ^ e
               | Zneg k => Zpos m / 2 ^ Zpos k
               end))
  | S754_infinity _ | S754_nan => None
  end.

End Py.

(** ** Tables ([models.py]) *)

Inductive project_status := PENDING | ACTIVE | FROZEN.
Inductive milestone_status := MS_PENDING | COMPLETED.
Inductive listing_status := LS_ACTIVE | SOLD.
Inductive tx_type := MINT | TRANSFER.
Inductive tx_status := SUCCESS.

Definition project_status_eqb (a b : project_status) : bool :=
  match a, b with
  | PENDING, PENDING | ACTIVE, ACTIVE | FROZEN, FROZEN => true
  | _, _ => false
  end.

Definition milestone_status_eqb (a b : milestone_status) : bool :=
  match a, b with
  | MS_PENDING, MS_PENDING | COMPLETED, COMPLETED => true
  | _, _ => false
  end.

Definition listing_status_eqb (a b : listing_status) : bool :=
  match a, b with
  | LS_ACTIVE, LS_ACTIVE | SOLD, SOLD => true
  | _, _ => false
  end.

Module User.
Record t := mk
  { id : Z; name : string; email : string; password_hash : string;
    role : string }.
End User.

Module Project.
Record t := mk
  { id : Z;
    issuer_id : option Z;
    title : string;
    category : string;
    location : string;
    description : string;
    funding_target : Z;
    funding_raised : Z;
    token_price : Z;
    roi_percent : Py.float;
    tenure_months : Z;
    risk_level : string;
    risk_score : Z;
    status : project_status }.

Definition set_funding_raised (v : Z) (p : t) : t :=
  mk (id p) (issuer_id p) (title p) (category p) (location p)
     (description p) (funding_target p) v (token_price p) (roi_percent p)
     (tenure_months p) (risk_level p) (risk_score p) (status p).

Definition set_status (v : project_status) (p : t) : t :=
  mk (id p) (issuer_id p) (title p) (category p) (location p)
     (description p) (funding_target p) (funding_raised p) (token_price p)
     (roi_percent p) (tenure_months p) (risk_level p) (risk_score p) v.
End Project.

Module Milestone.
Record t := mk
  { id : Z;
    project_id : Z;
    title : string;
    escrow_release_percent : Z;
    status : milestone_status;
    proof_url : string }.

Definition complete (url : string) (m : t) : t :=
  mk (id m) (project_id m) (title m) (escrow_release_percent m)
     COMPLETED url.
End Milestone.

Module Escrow.
Record t := mk
  { id : Z; project_id : Z; total_locked : Z; total_released : Z }.

Definition set_total_locked (v : Z) (e : t) : t :=
  mk (id e) (project_id e) v (total_released e).

Definition set_total_released (v : Z) (e : t) : t :=
  mk (id e) (project_id e) (total_locked e) v.
End Escrow.

Module TokenHolding.
Record t := mk
  { id : Z; user_id : Z; project_id : Z; token_count : Z;
    avg_buy_price : Py.float }.

Definition set_token_count (v : Z) (h : t) : t :=
  mk (id h) (user_id h) (project_id h) v (avg_buy_price h).

Definition set_avg_buy_price (v : Py.float) (h : t) : t :=
  mk (id h) (user_id h) (project_id h) (token_count h) v.
End TokenHolding.

Module Transaction.
Record t := mk
  { id : Z;
    tx_hash : string;
    user_id : Z;
    project_id : Z;
    type : tx_type;
    amount : Z;
    token_count : Z;
    status : tx_status }.
End Transaction.

Module MarketplaceListing.
Record t := mk
  { id : Z;
    seller_id : Z;
    project_id : Z;
    token_count : Z;
    price_per_token : Z;
    status : listing_status }.

Definition set_status (v : listing_status) (l : t) : t :=
  mk (id l) (seller_id l) (project_id l) (token_count l)
     (price_per_token l) v.
End MarketplaceListing.

(** The database. *)
Record db := mkdb
  { users : list User.t;
    projects : list Project.t;
    milestones : list Milestone.t;
    escrows : list Escrow.t;
    holdings : list TokenHolding.t;
    transactions : list Transaction.t;
    listings : list MarketplaceListing.t }.

Definition set_projects (v : list Project.t) (s : db) : db :=
  mkdb (users s) v (milestones s) (escrows s) (holdings s)
       (transactions s) (listings s).

Definition set_milestones (v : list Milestone.t) (s : db) : db :=
  mkdb (users s) (projects s) v (escrows s) (holdings s)
       (transactions s) (listings s).

Definition set_escrows (v : list Escrow.t) (s : db) : db :=
  mkdb (users s) (projects s) (milestones s) v (holdings s)
       (transactions s) (listings s).

Definition set_holdings (v : list TokenHolding.t) (s : db) : db :=
  mkdb (users s) (projects s) (milestones s) (escrows s) v
       (transactions s) (listings s).

Definition set_transactions (v : list Transaction.t) (s : db) : db :=
  mkdb (users s) (projects s) (milestones s) (escrows s) (holdings s)
       v (listings s).

Definition set_listings (v : list MarketplaceListing.t) (s : db) : db :=
  mkdb (users s) (projects s) (milestones s) (escrows s) (holdings s)
       (transactions s) v.

(** ** Queries and writes *)

Section Table.
Context {A : Type}.

(** [filter_by(...).first()] *)
Definition first (p : A -> bool) (rows : list A) : option A := find p rows.

(** [Model.query.get(k)] *)
Definition get (key : A -> Z) (k : Z) (rows : list A) : option A :=
  first (fun r => key r =? k) rows.

(** Writing back the object that [first p] returned, after [f] was
    applied to it. *)
Fixpoint update_first (p : A -> bool) (f : A -> A) (rows : list A)
  : list A :=
  match rows with
  | [] => []
  | r :: rest =>
      if p r then f r :: rest else r :: update_first p f rest
  end.

(** The primary key an inserted row receives: one more than the largest
    in use. *)
Definition next_id (key : A -> Z) (rows : list A) : Z :=
  1 + fold_right Z.max 0 (map key rows).
End Table.

(** ** The database engine *)

(** What an Integer column can hold. *)
Definition int64 (z : Z) : bool := (- 2 ^ 63 <=? z) && (z <? 2 ^ 63).

(** What a Float column gives back as [None]. *)
Definition is_null (x : Py.float) : bool :=
  match x with
  | S754_nan => true
  | _ => false
  end.

(** ** Requests and responses *)

(** What [get_auth_user()] returns for a valid bearer token. *)
Record auth_user := mkauth { user_id : Z; role : string }.

(** A row of the active-listings view. *)
Record listing_view := mkview
  { v_id : Z;
    v_project_id : Z;
    v_project_title : string;
    v_seller_name : string;
    v_token_count : Z;
    v_price_per_token : Z;
    v_status : listing_status }.

(** The JSON body of a response with status 200. *)
Inductive body :=
  | Invested (tx_hash : string) (tokens_issued : Z)
  | ListingCreated (listing_id : Z)
  | Listings (rows : list listing_view)
  | Purchased (tx_hash : string)
  | ProjectCreated (project_id : Z) (status : project_status)
  | AlreadyCompleted
  | Released (released_amount : Z) (proof_url : string)
  | StatusUpdated (status : project_status).

(** A response: status 200 with its body, or an error status with its
    message. *)
Inductive response :=
  | Ok (b : body)
  | Err (code : Z) (msg : string).

(** The response to an uncaught Python exception. *)
Definition internal_error : response := Err 500 "Internal Server Error".

Definition is_ok (r : response) : bool :=
  match r with Ok _ => true | Err _ _ => false end.

Definition holding_of (uid pid : Z) (h : TokenHolding.t) : bool :=
  (TokenHolding.user_id h =? uid) && (TokenHolding.project_id h =? pid).

Definition escrow_of (pid : Z) (e : Escrow.t) : bool :=
  Escrow.project_id e =? pid.

(** ** POST /api/investor/invest *)

(** The queries for the escrow and the holding flush the pending updates
    and [db.session.commit()] flushes the rest: the route writes the new
    [funding_raised], the new [total_locked], the new [token_count] and
    the transaction's [amount] and [token_count]. If one of them does not
    fit its column the request ends in [OverflowError] with nothing
    committed. *)
Definition invest (auth : option auth_user) (project_id amount : Z)
    (tx_hash : string) (s : db) : response * db :=
  match auth with
  | None => (Err 401 "Unauthorized", s)
  | Some au =>
  if negb (role au =? "INVESTOR")%string then (Err 403 "Forbidden", s) else
  match get Project.id project_id (projects s) with
  | None => (Err 404 "Not Found", s)
  | Some p =>
  if negb (project_status_eqb (Project.status p) ACTIVE)
  then (Err 400 "Project is not available for investment", s) else
  (* ZeroDivisionError *)
  if Project.token_price p =? 0 then (internal_error, s) else
  let tokens := amount / Project.token_price p in
  if tokens <=? 0 then (Err 400 "Amount too low", s) else
  let pid := Project.id p in
  (* project funding *)
  let raised := Project.funding_raised p + amount in
  let s1 :=
    set_projects
      (update_first (fun r => Project.id r =? project_id)
         (Project.set_funding_raised raised) (projects s)) s in
  (* escrow *)
  let '(locked, s2) :=
    match first (escrow_of pid) (escrows s1) with
    | None =>
        let locked := 0 + amount in
        (locked,
         set_escrows
           (escrows s1 ++
            [Escrow.mk (next_id Escrow.id (escrows s1)) pid locked 0])
           s1)
    | Some e =>
        let locked := Escrow.total_locked e + amount in
        (locked,
         set_escrows
           (update_first (escrow_of pid) (Escrow.set_total_locked locked)
              (escrows s1)) s1)
    end in
  (* holding *)
  let held :=
    match first (holding_of (user_id au) pid) (holdings s2) with
    | None =>
        (* a new object, whose fields are still the [int]s 0 and 0 *)
        let old_total := 0 * 0 in
        let new_total := old_total + tokens * Project.token_price p in
        let count := 0 + tokens in
        match Py.int_truediv new_total count with
        | None => None
        | Some avg =>
            Some (count,
                  holdings s2 ++
                  [TokenHolding.mk (next_id TokenHolding.id (holdings s2))
                     (user_id au) pid count avg])
        end
    | Some h =>
        (* TypeError on an average that is NULL *)
        if is_null (TokenHolding.avg_buy_price h) then None else
        let old_total :=
          Py.mul (Py.of_int (TokenHolding.token_count h))
                 (TokenHolding.avg_buy_price h) in
        let new_total :=
          Py.add old_total (Py.of_int (tokens * Project.token_price p)) in
        let count := TokenHolding.token_count h + tokens in
        (* ZeroDivisionError on an empty holding *)
        match Py.truediv new_total count with
        | None => None
        | Some avg =>
            Some (count,
                  update_first (holding_of (user_id au) pid)
                    (fun r => TokenHolding.set_avg_buy_price avg
                                (TokenHolding.set_token_count count r))
                    (holdings s2))
        end
    end in
  match held with
  | None => (internal_error, s)
  | Some (count, hs) =>
      let s3 := set_holdings hs s2 in
      (* tx *)
      let tx :=
        Transaction.mk (next_id Transaction.id (transactions s3)) tx_hash
          (user_id au) pid MINT amount tokens SUCCESS in
      (* db.session.commit() *)
      if int64 raised && int64 locked && int64 count
         && int64 amount && int64 tokens
      then (Ok (Invested tx_hash tokens),
            set_transactions (transactions s3 ++ [tx]) s3)
      else (internal_error, s)
  end
  end
  end.

(** ** POST /api/marketplace/list *)

Definition list_tokens_for_sale (auth : option auth_user)
    (project_id token_count price_per_token : Z) (s : db) : response * db :=
  match auth with
  | None => (Err 401 "Unauthorized", s)
  | Some au =>
  if (token_count <=? 0) || (price_per_token <=? 0)
  then (Err 400 "Invalid listing inputs", s) else
  match first (holding_of (user_id au) project_id) (holdings s) with
  | None => (Err 400 "Not enough tokens", s)
  | Some holding =>
  if TokenHolding.token_count holding <? token_count
  then (Err 400 "Not enough tokens", s) else
  let listing :=
    MarketplaceListing.mk (next_id MarketplaceListing.id (listings s))
      (user_id au) project_id token_count price_per_token LS_ACTIVE in
  (* db.session.commit(): OverflowError on a value beyond the column *)
  if int64 project_id && int64 token_count && int64 price_per_token
  then (Ok (ListingCreated (MarketplaceListing.id listing)),
        set_listings (listings s ++ [listing]) s)
  else (internal_error, s)
  end
  end.

(** ** GET /api/marketplace/listings *)

Definition marketplace_listings (s : db) : response :=
  Ok (Listings
    (flat_map
       (fun l =>
          match get Project.id (MarketplaceListing.project_id l) (projects s),
                get User.id (MarketplaceListing.seller_id l) (users s) with
          | Some p, Some seller =>
              if negb (project_status_eqb (Project.status p) ACTIVE) then []
              else [mkview (MarketplaceListing.id l) (Project.id p)
                      (Project.title p) (User.name seller)
                      (MarketplaceListing.token_count l)
                      (MarketplaceListing.price_per_token l)
                      (MarketplaceListing.status l)]
          | _, _ => []
          end)
       (filter
          (fun l => listing_status_eqb (MarketplaceListing.status l) LS_ACTIVE)
          (listings s)))).

(** ** POST /api/marketplace/buy *)

(** The buyer's [avg_buy_price] is assigned the [int]
    [listing.price_per_token]; the Float column stores it as
    [float(price_per_token)]. The route writes the two new token counts
    and the transaction's [amount]; if one of them does not fit its column
    the request ends in [OverflowError] with nothing committed. *)
Definition buy_listing (auth : option auth_user) (listing_id : Z)
    (tx_hash : string) (s : db) : response * db :=
  match auth with
  | None => (Err 401 "Unauthorized", s)
  | Some au =>
  match get MarketplaceListing.id listing_id (listings s) with
  | None => (Err 404 "Not Found", s)
  | Some listing =>
  if negb (listing_status_eqb (MarketplaceListing.status listing) LS_ACTIVE)
  then (Err 400 "Listing not available", s) else
  let buyer_id := user_id au in
  if buyer_id =? MarketplaceListing.seller_id listing
  then (Err 400 "Cannot buy your own listing", s) else
  match get Project.id (MarketplaceListing.project_id listing) (projects s) with
  | None => (Err 404 "Project not found", s)
  | Some p =>
  if negb (project_status_eqb (Project.status p) ACTIVE)
  then (Err 400 "Project not active", s) else
  let pid := Project.id p in
  let seller := MarketplaceListing.seller_id listing in
  let n := MarketplaceListing.token_count listing in
  let q := MarketplaceListing.price_per_token listing in
  match first (holding_of seller pid) (holdings s) with
  | None => (Err 400 "Seller has insufficient tokens", s)
  | Some seller_h =>
  if TokenHolding.token_count seller_h <? n
  then (Err 400 "Seller has insufficient tokens", s) else
  let sold := TokenHolding.token_count seller_h - n in
  let hs1 :=
    update_first (holding_of seller pid) (TokenHolding.set_token_count sold)
      (holdings s) in
  let '(bought, hs2) :=
    match first (holding_of buyer_id pid) hs1 with
    | None =>
        let bought := 0 + n in
        (bought,
         hs1 ++ [TokenHolding.mk (next_id TokenHolding.id hs1) buyer_id pid
                   bought (Py.of_int q)])
    | Some buyer_h =>
        let bought := TokenHolding.token_count buyer_h + n in
        (bought,
         update_first (holding_of buyer_id pid)
           (fun r => TokenHolding.set_avg_buy_price (Py.of_int q)
                       (TokenHolding.set_token_count bought r))
           hs1)
    end in
  let ls :=
    update_first (fun r => MarketplaceListing.id r =? listing_id)
      (MarketplaceListing.set_status SOLD) (listings s) in
  let tx :=
    Transaction.mk (next_id Transaction.id (transactions s)) tx_hash
      buyer_id pid TRANSFER (n * q) n SUCCESS in
  (* db.session.commit() *)
  if int64 sold && int64 bought && int64 (n * q)
  then (Ok (Purchased tx_hash),
        set_transactions (transactions s ++ [tx])
          (set_listings ls (set_holdings hs2 s)))
  else (internal_error, s)
  end
  end
  end
  end.

(** ** POST /api/issuer/projects *)

(** The milestones a project is created with when the request names none. *)
Definition default_ms : list (string * Z) :=
  [("Tender Approved", 20); ("Construction Started", 20);
   ("25% Completion Proof", 20); ("50% Completion Proof", 20);
   ("Audit & Completion Report", 20)]%string.

Definition add_milestone (pid : Z) (rows : list Milestone.t)
    (m : string * Z) : list Milestone.t :=
  rows ++ [Milestone.mk (next_id Milestone.id rows) pid (fst m) (snd m)
             MS_PENDING ""].

(** The route commits twice: the project row first, then its escrow and
    its milestones. [ms] is the list of the body's milestones as the loop
    reads them, title stripped and percent converted. An exception after
    the first commit (here the [OverflowError] of a percent that does not
    fit its column; in the code also an entry that cannot be read) leaves
    the project committed, without escrow and without milestones. *)
Definition issuer_create_project (auth : option auth_user)
    (title category location description : string)
    (funding_target token_price : Z) (roi_percent : Py.float)
    (tenure_months : Z) (ms : list (string * Z)) (s : db) : response * db :=
  match auth with
  | None => (Err 401 "Unauthorized", s)
  | Some au =>
  if negb (role au =? "ISSUER")%string then (Err 403 "Forbidden", s) else
  if (title =? "")%string || (location =? "")%string
     || (description =? "")%string
  then (Err 400 "Missing fields", s) else
  if (funding_target <=? 0) || (token_price <=? 0)
  then (Err 400 "Invalid funding_target/token_price", s) else
  (* simple risk scoring *)
  let risk_score :=
    if Py.leb (Py.of_int 13) roi_percent then 70
    else if Py.leb roi_percent (Py.of_int 10) then 35
    else 45 in
  let project :=
    Project.mk (next_id Project.id (projects s)) (Some (user_id au))
      title category location description funding_target 0 token_price
      roi_percent tenure_months "MEDIUM" risk_score PENDING in
  (* db.session.commit() *)
  if negb (int64 funding_target && int64 token_price && int64 tenure_months)
  then (internal_error, s) else
  let s1 := set_projects (projects s ++ [project]) s in
  let pid := Project.id project in
  (* escrow *)
  let escrow := Escrow.mk (next_id Escrow.id (escrows s1)) pid 0 0 in
  (* milestones *)
  let given :=
    match ms with
    | [] => default_ms
    | _ :: _ =>
        filter (fun m => negb (fst m =? "")%string && (0 <? snd m)) ms
    end in
  let rows := fold_left (add_milestone pid) given (milestones s1) in
  (* db.session.commit() *)
  if forallb (fun m => int64 (snd m)) given
  then (Ok (ProjectCreated pid (Project.status project)),
        set_milestones rows (set_escrows (escrows s1 ++ [escrow]) s1))
  else (internal_error, s1)
  end.

(** ** POST /api/issuer/milestones/<milestone_id>/submit *)

(** The route writes the escrow's two new totals; if one of them does not
    fit its column the request ends in [OverflowError] with nothing
    committed. *)
Definition issuer_submit_milestone_proof (auth : option auth_user)
    (milestone_id : Z) (proof_url : string) (s : db) : response * db :=
  match auth with
  | None => (Err 401 "Unauthorized", s)
  | Some au =>
  if negb (role au =? "ISSUER")%string then (Err 403 "Forbidden", s) else
  match get Milestone.id milestone_id (milestones s) with
  | None => (Err 404 "Not Found", s)
  | Some milestone =>
  match get Project.id (Milestone.project_id milestone) (projects s) with
  | None => (Err 404 "Project not found", s)
  | Some project =>
  if negb (match Project.issuer_id project with
           | Some i => i =? user_id au
           | None => false
           end)
  then (Err 403 "Forbidden", s) else
  if (proof_url =? "")%string then (Err 400 "Proof file not uploaded", s) else
  match Milestone.status milestone with
  | COMPLETED => (Ok AlreadyCompleted, s)
  | MS_PENDING =>
  let pid := Project.id project in
  let s1 :=
    set_milestones
      (update_first (fun r => Milestone.id r =? milestone_id)
         (Milestone.complete proof_url) (milestones s)) s in
  let '(escrow, rows) :=
    match first (escrow_of pid) (escrows s1) with
    | None =>
        let e := Escrow.mk (next_id Escrow.id (escrows s1)) pid 0 0 in
        (e, escrows s1 ++ [e])
    | Some e => (e, escrows s1)
    end in
  match
    match Py.int_truediv
            (Escrow.total_locked escrow
             * Milestone.escrow_release_percent milestone) 100 with
    | Some x => Py.to_int x
    | None => None
    end
  with
  | None => (internal_error, s) (* OverflowError *)
  | Some amount =>
  let release_amount :=
    if amount >? Escrow.total_locked escrow
    then Escrow.total_locked escrow else amount in
  let locked := Escrow.total_locked escrow - release_amount in
  let released := Escrow.total_released escrow + release_amount in
  let rows' :=
    update_first (escrow_of pid)
      (fun r => Escrow.set_total_released released
                  (Escrow.set_total_locked locked r))
      rows in
  (* db.session.commit() *)
  if int64 locked && int64 released
  then (Ok (Released release_amount proof_url), set_escrows rows' s1)
  else (internal_error, s)
  end
  end
  end
  end
  end.

(** ** POST /api/admin/projects/<project_id>/status *)

Definition parse_status (status : string) : option project_status :=
  if (status =? "ACTIVE")%string then Some ACTIVE
  else if (status =? "FROZEN")%string then Some FROZEN
  else if (status =? "PENDING")%string then Some PENDING
  else None.

Definition admin_update_project_status (auth : option auth_user)
    (project_id : Z) (status : string) (s : db) : response * db :=
  match auth with
  | None => (Err 401 "Unauthorized", s)
  | Some au =>
  if negb (role au =? "ADMIN")%string then (Err 403 "Forbidden", s) else
  match parse_status status with
  | None => (Err 400 "Invalid status", s)
  | Some st =>
  match get Project.id project_id (projects s) with
  | None => (Err 404 "Not Found", s)
  | Some _ =>
      (Ok (StatusUpdated st),
       set_projects
         (update_first (fun r => Project.id r =? project_id)
            (Project.set_status st) (projects s)) s)
  end
  end
  end.

(** ** The ledger as a transition system *)

(** A request to one of the routes that write to the database. *)
Inductive request :=
  | Invest (auth : option auth_user) (project_id amount : Z)
      (tx_hash : string)
  | ListTokens (auth : option auth_user)
      (project_id token_count price_per_token : Z)
  | Buy (auth : option auth_user) (listing_id : Z) (tx_hash : string)
  | CreateProject (auth : option auth_user)
      (title category location description : string)
      (funding_target token_price : Z) (roi_percent : Py.float)
      (tenure_months : Z) (ms : list (string * Z))
  | SubmitProof (auth : option auth_user) (milestone_id : Z)
      (proof_url : string)
  | SetStatus (auth : option auth_user) (project_id : Z) (status : string).

Definition handle (r : request) (s : db) : response * db :=
  match r with
  | Invest a p amt h => invest a p amt h s
  | ListTokens a p n q => list_tokens_for_sale a p n q s
  | Buy a l h => buy_listing a l h s
  | CreateProject a t c l d ft tp roi ten ms =>
      issuer_create_project a t c l d ft tp roi ten ms s
  | SubmitProof a m url => issuer_submit_milestone_proof a m url s
  | SetStatus a p st => admin_update_project_status a p st s
  end.

(** The database after a sequence of requests. *)
Definition run (rs : list request) (s : db) : db :=
  fold_left (fun s r => snd (handle r s)) rs s.

(** The states the routes can reach from [s0]. *)
Inductive reachable (s0 : db) : db -> Prop :=
  | reach_init : reachable s0 s0
  | reach_step s r : reachable s0 s -> reachable s0 (snd (handle r s)).

(** * Vocabulary of the properties *)

(** [rows'] is [rows] with the one row [r] replaced by [r']; every other
    row, and the order, is kept. *)
Definition modifies {A : Type} (rows : list A) (r r' : A) (rows' : list A)
  : Prop :=
  exists pre post, rows = pre ++ r :: post /\ rows' = pre ++ r' :: post.

(** ** Well-formed databases

    The data model's constraints on the rows the ledger computes with:
    every project has a positive token price, no holding has a negative
    token count, and every listing offers a positive number of tokens. *)
Definition positive_prices (s : db) : Prop :=
  Forall (fun p => 0 < Project.token_price p) (projects s).

Definition sound_market (s : db) : Prop :=
  Forall (fun h => 0 <= TokenHolding.token_count h) (holdings s) /\
  Forall (fun l => 0 < MarketplaceListing.token_count l) (listings s).

Definition wf (s : db) : Prop := positive_prices s /\ sound_market s.

(** The token count a query for the holding of [uid] in [pid] finds, zero
    when there is no such row. *)
Definition tokens_held (uid pid : Z) (s : db) : Z :=
  match first (holding_of uid pid) (holdings s) with
  | Some h => TokenHolding.token_count h
  | None => 0
  end.

(** The rows of the active-listings view. *)
Definition view_rows (s : db) : list listing_view :=
  match marketplace_listings s with
  | Ok (Listings rows) => rows
  | _ => []
  end.

(** ** Binary64 values of integers *)


(** A significand with no pending rounding information. *)
Definition exact_rec (m : Z) : shr_record := Build_shr_record m false false.

(** The binary64 value of an integer below [2 ^ 53]: its digits, shifted
    to fill the 53-bit significand. *)
Definition normal (z : Z) : Py.float :=
  S754_finite false (Z.to_pos (z * 2 ^ (53 - Zdigits2 z))) (Zdigits2 z - 53).

(** ** Sample databases

    [s0]: one active project at token price 100 with 1000 locked in escrow
    and a pending 20% milestone; user 3 holds 30 tokens of it and has listed
    50 (listing 1, accepted while the holding was larger) and 10 (listing
    2); listing 3 is already sold. *)
Module Sample.
Open Scope string_scope.

Definition road : Project.t :=
  Project.mk 1 (Some 2) "Raipur Smart Road Phase-2" "Road"
    "Raipur, Chhattisgarh" "Upgrading 12km road" 5000000 1250000 100
    (Py.of_int 12) 24 "MEDIUM" 58 ACTIVE.

Definition bridge : Project.t :=
  Project.mk 2 (Some 2) "Bilaspur Bridge" "Bridge" "Bilaspur"
    "Strengthening" 8000000 0 100 (Py.of_int 12) 36 "LOW" 42 PENDING.

Definition s0 : db :=
  mkdb
    [User.mk 1 "Admin" "admin@infrabondx.com" "#" "ADMIN";
     User.mk 2 "Raipur Smart Infra Dept" "issuer@infrabondx.com" "#"
       "ISSUER";
     User.mk 3 "Mandeep Kumar" "investor@infrabondx.com" "#" "INVESTOR";
     User.mk 4 "Second Investor" "second@infrabondx.com" "#" "INVESTOR"]
    [road; bridge]
    [Milestone.mk 1 1 "Tender Approved" 20 MS_PENDING "";
     Milestone.mk 2 1 "Construction Started" 20 COMPLETED "/uploads/a.pdf"]
    [Escrow.mk 1 1 1000 0]
    [TokenHolding.mk 1 3 1 30 (Py.of_int 100);
     TokenHolding.mk 2 4 1 5 (Py.of_int 90)]
    []
    [MarketplaceListing.mk 1 3 1 50 10 LS_ACTIVE;
     MarketplaceListing.mk 2 3 1 10 120 LS_ACTIVE;
     MarketplaceListing.mk 3 3 1 5 80 SOLD].

Definition admin := Some (mkauth 1 "ADMIN").
Definition issuer := Some (mkauth 2 "ISSUER").
Definition investor := Some (mkauth 3 "INVESTOR").
Definition second := Some (mkauth 4 "INVESTOR").
Definition newcomer := Some (mkauth 5 "INVESTOR").

(** A market in which user 3 holds 50 tokens and nothing is listed yet,
    and the same market after user 3 has listed 50 tokens at 10 and 20
    tokens at 120, and user 4 has bought the 20. *)
Definition market0 : db :=
  mkdb (users s0) (projects s0) (milestones s0) (escrows s0)
    [TokenHolding.mk 1 3 1 50 (Py.of_int 100)] [] [].

Definition market1 : db :=
  run [ListTokens investor 1 50 10; ListTokens investor 1 20 120;
       Buy second 2 "0xb0"] market0.

(** The sample database after the admin has frozen project 1. *)
Definition frozen : db := run [SetStatus admin 1 "FROZEN"] s0.
End Sample.

(** An escrow of 2^53 + 1 locked units under a pending 100% milestone. *)
Definition large_escrow : db :=
  mkdb (users Sample.s0) (projects Sample.s0)
    [Milestone.mk 1 1 "Audit & Completion Report" 100 MS_PENDING ""]
    [Escrow.mk 1 1 (2 ^ 53 + 1) 0] [] [] [].

(** An escrow that has released 2^63 - 1 units and locks 100 more, under a
    pending 20% milestone. *)
Definition spent_escrow : db :=
  mkdb (users Sample.s0) (projects Sample.s0)
    [Milestone.mk 1 1 "Tender Approved" 20 MS_PENDING ""]
    [Escrow.mk 1 1 100 (2 ^ 63 - 1)] [] [] [].

(** A market with one active project at token price 1 and no holdings. *)
Definition unit_price : db :=
  mkdb (users Sample.s0)
    [Project.mk 1 (Some 2) "Raipur Smart Road Phase-2" "Road"
       "Raipur, Chhattisgarh" "Upgrading 12km road" 5000000 0 1
       (Py.of_int 12) 24 "MEDIUM" 58 ACTIVE]
    [] [Escrow.mk 1 1 0 0] [] [] [].

(** ** Routes that only read

    A route that only reads answers with the JSON body of a 200, or with an
    error status and its message. The body is a record of the values the
    route copies from the rows, under the names of its JSON keys. *)

Inductive reply (A : Type) :=
  | Json (a : A)
  | Refused (code : Z) (msg : string).

Arguments Json {A} a.
Arguments Refused {A} code msg.

(** The binary64 value [m * 2 ^ e]. *)
Definition binary64 (m : positive) (e : Z) : Py.float := S754_finite false m e.

(** [order_by(key.asc())]: the rows by ascending [key], rows of equal key
    in the order they had (primary keys have no ties). *)
Fixpoint insert_by {A : Type} (key : A -> Z) (r : A) (rows : list A)
  : list A :=
  match rows with
  | [] => [r]
  | x :: rest =>
      if key r <=? key x then r :: x :: rest else x :: insert_by key r rest
  end.

Definition order_by_asc {A : Type} (key : A -> Z) (rows : list A) : list A :=
  fold_right (insert_by key) [] rows.

(** [order_by(key.desc())] *)
Definition order_by_desc {A : Type} (key : A -> Z) (rows : list A) : list A :=
  rev (order_by_asc key rows).

(** The string a status column holds. *)
Definition project_status_name (st : project_status) : string :=
  match st with
  | PENDING => "PENDING"
  | ACTIVE => "ACTIVE"
  | FROZEN => "FROZEN"
  end.

(** *** GET /api/projects and GET /api/projects/<project_id> *)

Record project_card := mkcard
  { c_id : Z;
    c_title : string;
    c_category : string;
    c_location : string;
    c_description : string;
    c_funding_target : Z;
    c_funding_raised : Z;
    c_token_price : Z;
    c_roi_percent : Py.float;
    c_tenure_months : Z;
    c_risk_level : string;
    c_risk_score : Z;
    c_status : project_status }.

Definition card_of (p : Project.t) : project_card :=
  mkcard (Project.id p) (Project.title p) (Project.category p)
    (Project.location p) (Project.description p) (Project.funding_target p)
    (Project.funding_raised p) (Project.token_price p)
    (Project.roi_percent p) (Project.tenure_months p) (Project.risk_level p)
    (Project.risk_score p) (Project.status p).

Definition list_projects (s : db) : list project_card :=
  map card_of
    (filter (fun p => project_status_eqb (Project.status p) ACTIVE)
       (projects s)).

Definition project_details (project_id : Z) (s : db) : reply project_card :=
  match get Project.id project_id (projects s) with
  | None => Refused 404 "Not Found"
  | Some p =>
      if project_status_eqb (Project.status p) FROZEN
      then Refused 403 "Project unavailable"
      else Json (card_of p)
  end.

(** *** GET /api/projects/<project_id>/milestones *)

Record milestone_view := mkmilestone_view
  { m_id : Z;
    m_title : string;
    m_escrow_release_percent : Z;
    m_status : milestone_status;
    m_proof_url : string }.

Definition milestone_view_of (m : Milestone.t) : milestone_view :=
  mkmilestone_view (Milestone.id m) (Milestone.title m)
    (Milestone.escrow_release_percent m) (Milestone.status m)
    (Milestone.proof_url m).

(** [Milestone.query.filter_by(project_id=...).order_by(Milestone.id.asc())] *)
Definition milestones_of (project_id : Z) (s : db) : list Milestone.t :=
  order_by_asc Milestone.id
    (filter (fun m => Milestone.project_id m =? project_id) (milestones s)).

Definition project_milestones (project_id : Z) (s : db)
  : list milestone_view :=
  map milestone_view_of (milestones_of project_id s).

(** *** GET /api/projects/<project_id>/transparency *)

Record escrow_view := mkescrow_view { locked : Z; released : Z }.

Definition transparency (project_id : Z) (s : db) : escrow_view :=
  match first (escrow_of project_id) (escrows s) with
  | None => mkescrow_view 0 0
  | Some escrow =>
      mkescrow_view (Escrow.total_locked escrow) (Escrow.total_released escrow)
  end.

(** *** GET /api/investor/portfolio *)

Record portfolio_row := mkportfolio_row
  { pf_project_id : Z;
    pf_project_title : string;
    pf_tokens : Z;
    pf_avg_buy_price : Py.float;
    pf_token_price : Z;
    pf_roi_percent : Py.float;
    pf_tenure_months : Z }.

Definition portfolio (auth : option auth_user) (s : db)
  : reply (list portfolio_row) :=
  match auth with
  | None => Refused 401 "Unauthorized"
  | Some au =>
      Json
        (flat_map
           (fun h =>
              match get Project.id (TokenHolding.project_id h) (projects s) with
              | None => []
              | Some p =>
                  [mkportfolio_row (Project.id p) (Project.title p)
                     (TokenHolding.token_count h)
                     (TokenHolding.avg_buy_price h) (Project.token_price p)
                     (Project.roi_percent p) (Project.tenure_months p)]
              end)
           (filter (fun h => TokenHolding.user_id h =? user_id au)
              (holdings s)))
  end.

(** *** GET /api/issuer/projects *)

Record issuer_row := mkissuer_row
  { i_id : Z;
    i_title : string;
    i_location : string;
    i_funding_raised : Z;
    i_funding_target : Z;
    i_token_price : Z;
    i_roi_percent : Py.float;
    i_tenure_months : Z;
    i_risk_score : Z;
    i_status : project_status }.

Definition issuer_row_of (p : Project.t) : issuer_row :=
  mkissuer_row (Project.id p) (Project.title p) (Project.location p)
    (Project.funding_raised p) (Project.funding_target p)
    (Project.token_price p) (Project.roi_percent p) (Project.tenure_months p)
    (Project.risk_score p) (Project.status p).

Definition issued_by (uid : Z) (p : Project.t) : bool :=
  match Project.issuer_id p with
  | Some i => i =? uid
  | None => false
  end.

Definition issuer_projects (auth : option auth_user) (s : db)
  : reply (list issuer_row) :=
  match auth with
  | None => Refused 401 "Unauthorized"
  | Some au =>
      if negb (role au =? "ISSUER")%string then Refused 403 "Forbidden" else
      Json (map issuer_row_of
              (order_by_desc Project.id
                 (filter (issued_by (user_id au)) (projects s))))
  end.

(** *** GET /api/admin/projects

    [status] is the query parameter after [.upper().strip()], the empty
    string when it is absent. *)

Record admin_row := mkadmin_row
  { a_id : Z;
    a_title : string;
    a_location : string;
    a_category : string;
    a_funding_target : Z;
    a_funding_raised : Z;
    a_roi_percent : Py.float;
    a_tenure_months : Z;
    a_risk_score : Z;
    a_status : project_status }.

Definition admin_row_of (p : Project.t) : admin_row :=
  mkadmin_row (Project.id p) (Project.title p) (Project.location p)
    (Project.category p) (Project.funding_target p)
    (Project.funding_raised p) (Project.roi_percent p)
    (Project.tenure_months p) (Project.risk_score p) (Project.status p).

Definition admin_list_projects (auth : option auth_user) (status : string)
    (s : db) : reply (list admin_row) :=
  match auth with
  | None => Refused 401 "Unauthorized"
  | Some au =>
      if negb (role au =? "ADMIN")%string then Refused 403 "Forbidden" else
      let q :=
        if (status =? "")%string then projects s
        else filter
               (fun p =>
                  (project_status_name (Project.status p) =? status)%string)
               (projects s) in
      Json (map admin_row_of (order_by_desc Project.id q))
  end.

(** *** GET /api/admin/projects/<project_id>/details

    The ["project"] object of the body holds every column of the row; it
    is the row here. *)

Definition admin_project_details (auth : option auth_user) (project_id : Z)
    (s : db) : reply (Project.t * list milestone_view) :=
  match auth with
  | None => Refused 401 "Unauthorized"
  | Some au =>
      if negb (role au =? "ADMIN")%string then Refused 403 "Forbidden" else
      match get Project.id project_id (projects s) with
      | None => Refused 404 "Not Found"
      | Some p =>
          Json (p, map milestone_view_of (milestones_of (Project.id p) s))
      end
  end.

(** *** GET /api/admin/fraud-alerts *)

Inductive alert_type := HIGH_ROI_ALERT | FUNDING_SPIKE.

Record alert := mkalert
  { al_type : alert_type;
    al_project_id : Z;
    al_project_title : string;
    al_message : string;
    al_severity : string }.

(** The literal [0.95]: the binary64 value nearest to it,
    [0x1.e666666666666p-1]. *)
Definition lit_0_95 : Py.float := binary64 8556839292003942 (-53).

(** [p.funding_target > 0 and
     (p.funding_raised / p.funding_target) > 0.95]; [None] is the
    [OverflowError] that [/] raises on two [int]s whose quotient is beyond
    the binary64 range. *)
Definition funding_spike (p : Project.t) : option bool :=
  if Project.funding_target p >? 0 then
    match Py.int_truediv (Project.funding_raised p) (Project.funding_target p)
    with
    | None | Some (S754_infinity _) => None
    | Some ratio => Some (SFltb lit_0_95 ratio)
    end
  else Some false.

Definition high_roi_alert (p : Project.t) : alert :=
  mkalert HIGH_ROI_ALERT (Project.id p) (Project.title p)
    "Unusually high ROI detected (possible risk)" "HIGH".

Definition funding_spike_alert (p : Project.t) : alert :=
  mkalert FUNDING_SPIKE (Project.id p) (Project.title p)
    "Project nearing full funding rapidly" "MEDIUM".

(** The alerts of one project. [p.roi_percent >= 14] compares a [float]
    with an [int] that binary64 represents exactly, and raises [TypeError]
    on a [roi_percent] that is NULL. *)
Definition alerts_of (p : Project.t) : option (list alert) :=
  if is_null (Project.roi_percent p) then None else
  let high :=
    if Py.leb (Py.of_int 14) (Project.roi_percent p)
    then [high_roi_alert p] else [] in
  match funding_spike p with
  | None => None
  | Some spike => Some (high ++ if spike then [funding_spike_alert p] else [])
  end.

(** The loop over [Project.query.all()]; an exception in one round ends
    the request. *)
Fixpoint collect_alerts (ps : list Project.t) : option (list alert) :=
  match ps with
  | [] => Some []
  | p :: rest =>
      match alerts_of p, collect_alerts rest with
      | Some a, Some more => Some (a ++ more)
      | _, _ => None
      end
  end.

Definition admin_fraud_alerts (auth : option auth_user) (s : db)
  : reply (list alert) :=
  match auth with
  | None => Refused 401 "Unauthorized"
  | Some au =>
      if negb (role au =? "ADMIN")%string then Refused 403 "Forbidden" else
      match collect_alerts (projects s) with
      | None => Refused 500 "Internal Server Error"
      | Some alerts => Json alerts
      end
  end.

(** ** Seeding ([seed.py])

    [seed_data] fills a database that has no user yet: three users, twelve
    projects of the issuer, and for every project an escrow that locks what
    the project has raised and five milestones of 20%, the first two
    completed. The password hashes, salted at random by
    [generate_password_hash], are arguments. A [roi_percent] literal is the
    binary64 value nearest to it. The seeded milestones are given no
    [proof_url]; the column is the empty string here, as for a milestone a
    project is created with (no route tests the [proof_url] of a row). *)

(** The columns a seeded project is given besides its keys. *)
Record seed_project := mkseed
  { sp_title : string;
    sp_category : string;
    sp_location : string;
    sp_description : string;
    sp_funding_target : Z;
    sp_funding_raised : Z;
    sp_token_price : Z;
    sp_roi_percent : Py.float;
    sp_tenure_months : Z;
    sp_risk_level : string;
    sp_risk_score : Z;
    sp_status : project_status }.

Definition seed_projects : list seed_project :=
  [ (* ACTIVE *)
    mkseed "Raipur Smart Road Phase-2" "Road" "Raipur, Chhattisgarh"
      "Upgrading 12km road with smart streetlights, drainage and safety upgrades."
      5000000 1250000 100 (* 11.5 *) (binary64 6473924464345088 (-49)) 24
      "MEDIUM" 58 ACTIVE;
    mkseed "Bilaspur Bridge Strengthening Program" "Bridge"
      "Bilaspur, Chhattisgarh"
      "Structural strengthening of an old bridge and monitoring improvements."
      8000000 2800000 100 (* 12.8 *) (binary64 7205759403792794 (-49)) 36
      "LOW" 42 ACTIVE;
    (* ACTIVE - Other states *)
    mkseed "Mumbai Coastal Drainage Upgrade" "Drainage" "Mumbai, Maharashtra"
      "Stormwater drainage modernization for monsoon resilience."
      15000000 7200000 100 (* 12.2 *) (binary64 6867989431740006 (-49)) 30
      "MEDIUM" 55 ACTIVE;
    mkseed "Bengaluru Smart Streetlight Network" "Energy"
      "Bengaluru, Karnataka"
      "LED smart streetlights with remote monitoring and energy analytics."
      9000000 4100000 100 (* 11.2 *) (binary64 6305039478318694 (-49)) 24
      "LOW" 40 ACTIVE;
    mkseed "Ahmedabad EV Charging Corridors" "Transport" "Ahmedabad, Gujarat"
      "Deployment of EV charging points across city corridors and highways."
      12000000 5900000 100 (* 13.2 *) (binary64 7430939385161318 (-49)) 36
      "MEDIUM" 60 ACTIVE;
    mkseed "Hyderabad Water Pipeline Rehabilitation" "Water"
      "Hyderabad, Telangana"
      "Pipeline leak reduction + sensor monitoring for urban water supply."
      11000000 3500000 100 (* 11.0 *) (binary64 6192449487634432 (-49)) 30
      "LOW" 44 ACTIVE;
    mkseed "Jaipur Heritage Zone Road Resurfacing" "Road" "Jaipur, Rajasthan"
      "Resurfacing + pedestrian safety upgrades in heritage zones."
      6000000 2400000 100 (* 10.8 *) (binary64 6079859496950170 (-49)) 24
      "LOW" 38 ACTIVE;
    mkseed "Kolkata Riverfront Safety Barriers" "Safety" "Kolkata, West Bengal"
      "Safety barrier installations and lighting along riverfront stretches."
      7000000 3200000 100 (* 12.0 *) (binary64 6755399441055744 (-49)) 24
      "MEDIUM" 50 ACTIVE;
    (* PENDING (admin approval demo) *)
    mkseed "Lucknow Smart Traffic Signal System" "Smart City"
      "Lucknow, Uttar Pradesh"
      "Adaptive traffic signals with AI-based congestion control."
      9500000 0 100 (* 12.5 *) (binary64 7036874417766400 (-49)) 30
      "MEDIUM" 52 PENDING;
    mkseed "Chennai Flood-Resilient Underpass Upgrade" "Drainage"
      "Chennai, Tamil Nadu"
      "Underpass drainage strengthening and water pump automation."
      13000000 0 100 (* 14.2 *) (binary64 7993889338582630 (-49)) 36
      "HIGH" 70 PENDING;
    mkseed "Indore Smart Waste Processing Plant" "Waste Management"
      "Indore, Madhya Pradesh"
      "Waste-to-energy processing and automated segregation facilities."
      14000000 0 100 (* 12.9 *) (binary64 7262054399134925 (-49)) 36
      "MEDIUM" 57 PENDING;
    mkseed "Bhopal Lake Water Quality Sensors" "Water"
      "Bhopal, Madhya Pradesh"
      "Real-time lake water quality sensors + dashboard monitoring."
      4000000 0 100 (* 10.5 *) (binary64 5910974510923776 (-49)) 18
      "LOW" 33 PENDING ]%string.

(** The five milestones of a seeded project. *)
Definition seed_milestones : list (string * Z * milestone_status) :=
  [("Tender Approved", 20, COMPLETED);
   ("Construction Started", 20, COMPLETED);
   ("25% Completion Proof", 20, MS_PENDING);
   ("50% Completion Proof", 20, MS_PENDING);
   ("Audit & Completion Report", 20, MS_PENDING)]%string.

(** [db.session.add_all(new)] and the commit: the rows that [new] becomes,
    each under the next primary key of the table [rows]. *)
Fixpoint add_all {A B : Type} (key : A -> Z) (row : Z -> B -> A)
    (rows : list A) (new : list B) : list A :=
  match new with
  | [] => []
  | b :: rest =>
      let r := row (next_id key rows) b in
      r :: add_all key row (rows ++ [r]) rest
  end.

Definition seed_data (admin_hash issuer_hash investor_hash : string) (s : db)
  : db :=
  match first (fun _ => true) (users s) with
  | Some _ => s
  | None =>
      (* users *)
      let us :=
        add_all User.id
          (fun id u =>
             let '(name, email, password_hash, role) := u in
             User.mk id name email password_hash role)
          (users s)
          [("Admin", "admin@infrabondx.com", admin_hash, "ADMIN");
           ("Raipur Smart Infra Dept", "issuer@infrabondx.com", issuer_hash,
            "ISSUER");
           ("Mandeep Kumar", "investor@infrabondx.com", investor_hash,
            "INVESTOR")]%string in
      let issuer_id := option_map User.id (nth_error us 1) in
      (* projects *)
      let ps :=
        add_all Project.id
          (fun id p =>
             Project.mk id issuer_id (sp_title p) (sp_category p)
               (sp_location p) (sp_description p) (sp_funding_target p)
               (sp_funding_raised p) (sp_token_price p) (sp_roi_percent p)
               (sp_tenure_months p) (sp_risk_level p) (sp_risk_score p)
               (sp_status p))
          (projects s) seed_projects in
      (* escrow + milestones *)
      let es :=
        add_all Escrow.id
          (fun id p => Escrow.mk id (Project.id p) (Project.funding_raised p) 0)
          (escrows s) ps in
      let ms :=
        add_all Milestone.id
          (fun id m =>
             let '(project_id, (title, percent, status)) := m in
             Milestone.mk id project_id title percent status "")
          (milestones s)
          (flat_map (fun p => map (pair (Project.id p)) seed_milestones) ps) in
      mkdb (users s ++ us) (projects s ++ ps) (milestones s ++ ms)
        (escrows s ++ es) (holdings s) (transactions s) (listings s)
  end.

(** The database [db.create_all()] makes. *)
Definition empty_db : db := mkdb [] [] [] [] [] [] [].

(** * Vocabulary, continued *)

(** ** Escrow accounting *)

(** [release_amount] of lines 684-686: [int((L * pct) / 100)], lowered to
    [L] when it exceeds it; [None] when the conversion raises. *)
Definition release_of (L pct : Z) : option Z :=
  match Py.int_truediv (L * pct) 100 with
  | None => None
  | Some x =>
      match Py.to_int x with
      | None => None
      | Some amount => Some (if amount >? L then L else amount)
      end
  end.

(** [pid] is the key of a project. *)
Definition in_catalog (pid : Z) (s : db) : Prop :=
  exists p, get Project.id pid (projects s) = Some p.

(** Every escrow belongs to a project of the catalog. *)
Definition escrows_of_projects (s : db) : Prop :=
  Forall (fun e => in_catalog (Escrow.project_id e) s) (escrows s).

(** What the escrow of a project holds and has released adds up to what the
    project has raised. *)
Definition balanced (s : db) : Prop :=
  escrows_of_projects s /\
  forall pid p,
    get Project.id pid (projects s) = Some p ->
    locked (transparency pid s) + released (transparency pid s) =
    Project.funding_raised p.

(** No escrow total and no release percent is negative, and token prices
    are positive. *)
Definition solvent (s : db) : Prop :=
  positive_prices s /\
  Forall (fun e => 0 <= Escrow.total_locked e /\ 0 <= Escrow.total_released e)
    (escrows s) /\
  Forall (fun m => 0 <= Milestone.escrow_release_percent m) (milestones s).

(** ** What the columns can hold *)

(** An investment of [amount] by user [uid] in project [p] can be stored:
    the five integers the route writes fit their columns, and the average
    of the holding it adds to, if there is one, is not NULL. *)
Definition investable (uid amount : Z) (p : Project.t) (s : db) : Prop :=
  let pid := Project.id p in
  let tokens := amount / Project.token_price p in
  int64 (Project.funding_raised p + amount) = true /\
  int64 (locked (transparency pid s) + amount) = true /\
  int64 (tokens_held uid pid s + tokens) = true /\
  int64 amount = true /\ int64 tokens = true /\
  forall h,
    first (holding_of uid pid) (holdings s) = Some h ->
    is_null (TokenHolding.avg_buy_price h) = false.

(** ** Token and cash accounting *)

Definition sum (l : list Z) : Z := fold_right Z.add 0 l.

(** The tokens of project [pid] that are held, over all holders. *)
Definition supply (pid : Z) (s : db) : Z :=
  sum (map TokenHolding.token_count
         (filter (fun h => TokenHolding.project_id h =? pid) (holdings s))).

Definition is_mint (pid : Z) (t : Transaction.t) : bool :=
  match Transaction.type t with
  | MINT => Transaction.project_id t =? pid
  | TRANSFER => false
  end.

(** The tokens of project [pid] that MINT transactions have issued, and what
    was paid for them. *)
Definition minted (pid : Z) (s : db) : Z :=
  sum (map Transaction.token_count (filter (is_mint pid) (transactions s))).

Definition paid (pid : Z) (s : db) : Z :=
  sum (map Transaction.amount (filter (is_mint pid) (transactions s))).

(** What project [pid] has raised, zero when there is no such project. *)
Definition raised (pid : Z) (s : db) : Z :=
  match get Project.id pid (projects s) with
  | Some p => Project.funding_raised p
  | None => 0
  end.

(** The holder and project of a holding. *)
Definition holder (h : TokenHolding.t) : Z * Z :=
  (TokenHolding.user_id h, TokenHolding.project_id h).

(** The rows of a portfolio. *)
Definition portfolio_rows (au : auth_user) (s : db) : list portfolio_row :=
  match portfolio (Some au) s with
  | Json rows => rows
  | Refused _ _ => []
  end.

(** ** A day of the seeded ledger

    The seeded database, and the requests of a day on it: the investor
    buys into project 1, the issuer proves its third milestone and proposes
    a project, the admin approves it, the investor buys into it, lists a
    token of project 1 and the issuer buys it. *)
Module Demo.
Open Scope string_scope.

Definition seeded : db := seed_data "#1" "#2" "#3" empty_db.

Definition admin : auth_user := mkauth 1 "ADMIN".
Definition issuer : auth_user := mkauth 2 "ISSUER".
Definition investor : auth_user := mkauth 3 "INVESTOR".

Definition proposal : request :=
  CreateProject (Some issuer) "Nagpur Metro Feeder Lanes" "Road"
    "Nagpur, Maharashtra" "Feeder lanes to the metro stations." 3000000 50
    (Py.of_int 12) 24 [].

Definition day : list request :=
  [Invest (Some investor) 1 250 "0xa1";
   SubmitProof (Some issuer) 3 "/uploads/p3.pdf";
   proposal;
   SetStatus (Some admin) 13 "ACTIVE";
   Invest (Some investor) 13 120 "0xa2";
   ListTokens (Some investor) 1 1 120;
   Buy (Some issuer) 1 "0xb1"].

Definition evening : db := run day seeded.
End Demo.

(** * Properties *)

(** ** Tables *)

Section TableFacts.
Context {A : Type}.
Implicit Types (p q : A -> bool) (f : A -> A) (rows : list A).

Lemma first_some p rows r : first p rows = Some r -> In r rows /\ p r = true.
Proof. apply find_some. Qed.

Lemma first_app p rows more :
  first p (rows ++ more) =
  match first p rows with Some r => Some r | None => first p more end.
Proof.
  induction rows as [|x rows IH]; simpl; [reflexivity|].
  destruct (p x); [reflexivity|exact IH].
Qed.

Lemma update_first_none p f rows :
  first p rows = None -> update_first p f rows = rows.
Proof.
  induction rows as [|x rows IH]; simpl; [reflexivity|].
  destruct (p x); [discriminate|]. intros H. now rewrite IH.
Qed.

Lemma update_first_modifies p f rows r :
  first p rows = Some r -> modifies rows r (f r) (update_first p f rows).
Proof.
  induction rows as [|x rows IH]; simpl; [discriminate|].
  destruct (p x) eqn:E.
  - intros [= ->]. exists [], rows. split; reflexivity.
  - intros H. destruct (IH H) as (pre & post & -> & ->).
    exists (x :: pre), post. split; reflexivity.
Qed.

(** Reading back the row that was written. *)
Lemma first_update_first p f rows r :
  first p rows = Some r -> p (f r) = true ->
  first p (update_first p f rows) = Some (f r).
Proof.
  induction rows as [|x rows IH]; simpl; [discriminate|].
  destruct (p x) eqn:E.
  - intros [= ->] Hf. simpl. now rewrite Hf.
  - intros H Hf. simpl. rewrite E. now apply IH.
Qed.

(** A query that selects neither the old nor the new row does not see
    the write. *)
Lemma first_update_first_other p q f rows r :
  first p rows = Some r -> q r = false -> q (f r) = false ->
  first q (update_first p f rows) = first q rows.
Proof.
  induction rows as [|x rows IH]; simpl; [discriminate|].
  destruct (p x) eqn:E.
  - intros [= ->] H1 H2. simpl. now rewrite H1, H2.
  - intros H H1 H2. simpl. destruct (q x); [reflexivity|]. now apply IH.
Qed.

(** A property of all rows survives a write that re-establishes it. *)
Lemma Forall_update_first (P : A -> Prop) p f rows :
  Forall P rows -> (forall r, In r rows -> p r = true -> P (f r)) ->
  Forall P (update_first p f rows).
Proof.
  induction rows as [|x rows IH]; simpl; intros H Hf; [constructor|].
  inversion H as [|? ? Hx Hr]; subst.
  destruct (p x) eqn:E.
  - constructor; [apply Hf; auto|exact Hr].
  - constructor; [exact Hx|]. apply IH; [exact Hr|]. intros; apply Hf; auto.
Qed.

End TableFacts.

Lemma get_key {A : Type} (key : A -> Z) k rows r :
  get key k rows = Some r -> key r = k.
Proof.
  intros H. apply first_some in H. destruct H as [_ H]. now apply Z.eqb_eq.
Qed.

Lemma project_status_eqb_eq a b : project_status_eqb a b = true <-> a = b.
Proof. destruct a, b; simpl; split; congruence. Qed.

Lemma listing_status_eqb_eq a b : listing_status_eqb a b = true <-> a = b.
Proof. destruct a, b; simpl; split; congruence. Qed.

Lemma holding_of_true u p h :
  holding_of u p h = true <->
  TokenHolding.user_id h = u /\ TokenHolding.project_id h = p.
Proof.
  unfold holding_of. rewrite andb_true_iff, !Z.eqb_eq. tauto.
Qed.

(** Case analysis along the branches of a route, in the order the route
    takes them; branches that answer differently from [H] are closed. *)
Ltac branch H :=
  match type of H with
  | (if ?c then _ else _) = _ =>
      let E := fresh "E" in destruct c eqn:E; try discriminate H
  | (match ?c with _ => _ end) = _ =>
      let E := fresh "E" in destruct c eqn:E; try discriminate H
  | (let '(_, _) := ?c in _) = _ =>
      let E := fresh "E" in destruct c eqn:E; try discriminate H
  end.

Ltac branches H := cbv zeta in H; repeat branch H.

(** Projections of a database that a route has written to. *)
Tactic Notation "db_simpl" "in" hyp(H) :=
  cbn [users projects milestones escrows holdings transactions listings
       set_projects set_milestones set_escrows set_holdings
       set_transactions set_listings] in H.
Tactic Notation "db_simpl" :=
  cbn [users projects milestones escrows holdings transactions listings
       set_projects set_milestones set_escrows set_holdings
       set_transactions set_listings].

(** ** Binary64 division of integers

    [int(n / 100)] is [n // 100] as long as [n] is below [2 ^ 53]: the
    quotient is rounded to 53 significant bits, and then a neighbour of
    the exact quotient is truncated at a bit above the remainder. *)

Lemma int64_spec z : int64 z = true <-> - 2 ^ 63 <= z < 2 ^ 63.
Proof.
  unfold int64. rewrite andb_true_iff, Z.leb_le, Z.ltb_lt. reflexivity.
Qed.

Lemma digits2_pos_size p : digits2_pos p = Pos.size p.
Proof. induction p; simpl; congruence. Qed.

Lemma Zdigits2_log2 m : 0 < m -> Zdigits2 m = Z.log2 m + 1.
Proof.
  destruct m as [|p|p]; try lia. intros _. unfold Zdigits2.
  rewrite digits2_pos_size. destruct p; simpl; lia.
Qed.

Lemma Zdigits2_unique m d :
  1 <= d -> 2 ^ (d - 1) <= m < 2 ^ d -> Zdigits2 m = d.
Proof.
  intros Hd H. assert (0 < m) by (pose proof (Z.pow_pos_nonneg 2 (d - 1)); lia).
  rewrite Zdigits2_log2 by assumption.
  rewrite (Z.log2_unique m (d - 1)); try lia.
  replace (Z.succ (d - 1)) with d by lia. exact H.
Qed.

Lemma fexp_normal x : -1021 <= x -> fexp Py.prec Py.emax x = x - 53.
Proof. intros H. unfold fexp, emin, Py.prec, Py.emax. lia. Qed.

Lemma shr_fexp_0 m e l :
  Zdigits2 m = 53 -> -1074 <= e ->
  shr_fexp Py.prec Py.emax m e l = (shr_record_of_loc m l, e).
Proof.
  intros Hd He. unfold shr_fexp. rewrite Hd, fexp_normal by lia.
  replace (53 + e - 53 - e) with 0 by lia. reflexivity.
Qed.

Lemma shr_fexp_1 m e l :
  Zdigits2 m = 54 -> -1074 <= e ->
  shr_fexp Py.prec Py.emax m e l = (shr_1 (shr_record_of_loc m l), e + 1).
Proof.
  intros Hd He. unfold shr_fexp. rewrite Hd, fexp_normal by lia.
  replace (54 + e - 53 - e) with 1 by lia. reflexivity.
Qed.

Lemma to_int_neg_exp m e :
  e < 0 -> Py.to_int (S754_finite false m e) = Some (Z.pos m / 2 ^ (- e)).
Proof. destruct e; try lia. intros _. reflexivity. Qed.

Lemma shr_m_of_loc m l : shr_m (shr_record_of_loc m l) = m.
Proof. destruct l as [|[]]; reflexivity. Qed.

Lemma loc_of_shr_of_loc m l : loc_of_shr_record (shr_record_of_loc m l) = l.
Proof. destruct l as [|[]]; reflexivity. Qed.

(** A 53-digit significand with no pending rounding is final. *)
Lemma round_aux_final m e :
  Zdigits2 (Z.pos m) = 53 -> -1074 <= e <= 971 ->
  (let '(mrs, e') := shr_fexp Py.prec Py.emax (Z.pos m) e loc_Exact in
   match shr_m mrs with
   | Z0 => S754_zero false
   | Zpos m' =>
       if e' <=? Py.emax - Py.prec then S754_finite false m' e'
       else S754_infinity false
   | Zneg _ => S754_nan
   end) = S754_finite false m e.
Proof.
  intros Hd He. rewrite shr_fexp_0 by (auto; lia). cbn [shr_m shr_record_of_loc].
  unfold Py.emax, Py.prec.
  destruct (e <=? 1024 - 53) eqn:E; [reflexivity|]. apply Z.leb_gt in E. lia.
Qed.

Lemma round_aux_step q e loc mrs e1 M :
  shr_fexp Py.prec Py.emax q e loc = (mrs, e1) ->
  round_nearest_even (shr_m mrs) (loc_of_shr_record mrs) = Z.pos M ->
  Zdigits2 (Z.pos M) = 53 -> -1074 <= e1 <= 971 ->
  binary_round_aux Py.prec Py.emax false q e loc = S754_finite false M e1.
Proof.
  intros Hs Hr Hd He. unfold binary_round_aux. rewrite Hs, Hr.
  now apply round_aux_final.
Qed.

Lemma round_nearest_even_cases m l :
  round_nearest_even m l = m \/ round_nearest_even m l = m + 1.
Proof. destruct l as [|[]]; simpl; auto. destruct (Z.even m); auto. Qed.

Lemma pow2_neg_succ e : e <= -1 -> 2 ^ (- e) = 2 * 2 ^ (- (e + 1)).
Proof.
  intros H. replace (- e) with (Z.succ (- (e + 1))) by lia.
  apply Z.pow_succ_r. lia.
Qed.

Lemma round_aux_to_int q e loc :
  2 ^ 52 <= q < 2 ^ 54 - 2 -> -1000 <= e <= -2 ->
  exists W,
    Py.to_int (binary_round_aux Py.prec Py.emax false q e loc)
      = Some (W / 2 ^ (- e)) /\
    (W = q \/ W = q + 1 \/ (W = q - 1 /\ Z.odd q = true)).
Proof.
  intros Hq He.
  destruct (Z.lt_ge_cases q (2 ^ 53)) as [Hlt|Hge].
  - (* 53 digits: nothing to shift *)
    assert (Hd : Zdigits2 q = 53) by (apply Zdigits2_unique; lia).
    pose proof (shr_fexp_0 q e loc Hd ltac:(lia)) as Hs.
    destruct (round_nearest_even_cases q loc) as [Hr|Hr].
    + destruct q as [|M|M]; try lia. exists (Z.pos M).
      rewrite <- (shr_m_of_loc (Z.pos M) loc) in Hr at 1.
      rewrite <- (loc_of_shr_of_loc (Z.pos M) loc) in Hr at 2.
      rewrite (round_aux_step _ _ _ _ _ M Hs Hr Hd) by lia.
      rewrite to_int_neg_exp by lia. auto.
    + destruct (Z.eq_dec (q + 1) (2 ^ 53)) as [Hc|Hc].
      * (* the round-up carries into a 54th digit *)
        exists (q + 1). split; [|auto].
        unfold binary_round_aux.
        rewrite Hs, shr_m_of_loc, loc_of_shr_of_loc, Hr, Hc.
        rewrite (shr_fexp_1 (2 ^ 53) e loc_Exact eq_refl) by lia.
        cbn [shr_m shr_1 shr_record_of_loc Z.pow Z.pow_pos Pos.iter Z.mul
             Pos.mul orb].
        unfold Py.emax, Py.prec.
        destruct (e + 1 <=? 1024 - 53) eqn:E; [|apply Z.leb_gt in E; lia].
        rewrite to_int_neg_exp by lia.
        f_equal. rewrite (pow2_neg_succ e) by lia.
        change 9007199254740992 with (2 * 4503599627370496).
        rewrite Z.div_mul_cancel_l by lia. reflexivity.
      * assert (Hd' : Zdigits2 (q + 1) = 53) by (apply Zdigits2_unique; lia).
        rewrite <- (shr_m_of_loc q loc) in Hr at 1.
        rewrite <- (loc_of_shr_of_loc q loc) in Hr at 2.
        destruct (q + 1) as [|M|M] eqn:EM; try lia. exists (Z.pos M).
        rewrite (round_aux_step _ _ _ _ _ M Hs Hr Hd') by lia.
        rewrite to_int_neg_exp by lia. auto.
  - (* 54 digits: one bit is shifted out *)
    assert (Hd : Zdigits2 q = 54) by (apply Zdigits2_unique; lia).
    pose proof (shr_fexp_1 q e loc Hd ltac:(lia)) as Hs.
    assert (Hdiv : forall M, q - 1 <= 2 * Z.pos M <= q + 1 ->
              Zdigits2 (Z.pos M) = 53 /\
              Z.pos M / 2 ^ (- (e + 1)) = (2 * Z.pos M) / 2 ^ (- e)).
    { intros M HM. split; [apply Zdigits2_unique; lia|].
      rewrite (pow2_neg_succ e) by lia.
      rewrite Z.div_mul_cancel_l; lia. }
    destruct q as [|p|p]; try lia.
    destruct p as [p|p|]; try lia.
    + (* odd: the shifted-out bit is set *)
      assert (HM : exists M, round_nearest_even
                     (shr_m (shr_1 (shr_record_of_loc (Z.pos p~1) loc)))
                     (loc_of_shr_record
                        (shr_1 (shr_record_of_loc (Z.pos p~1) loc)))
                   = Z.pos M /\ (M = p \/ Z.pos M = Z.pos p + 1)).
      { assert (Hup : exists M, Z.pos p + 1 = Z.pos M /\
                                  (M = p \/ Z.pos M = Z.pos p + 1))
          by (exists (p + 1)%positive; split; [reflexivity|right; lia]).
        assert (Hdn : exists M, Z.pos p = Z.pos M /\
                                  (M = p \/ Z.pos M = Z.pos p + 1))
          by (exists p; auto).
        destruct loc as [|[]];
          cbn [shr_record_of_loc shr_1 shr_m loc_of_shr_record orb
               round_nearest_even];
          try destruct (Z.even (Z.pos p)); assumption. }
      destruct HM as (M & HM & HMp).
      destruct (Hdiv M ltac:(lia)) as [HdM HdivM].
      exists (2 * Z.pos M).
      rewrite (round_aux_step _ _ _ _ _ M Hs HM HdM) by lia.
      rewrite to_int_neg_exp by lia. split; [now rewrite HdivM|].
      destruct HMp as [->|HMp]; [right; right|right; left]; try lia.
      split; [lia|reflexivity].
    + (* even: nothing is lost *)
      assert (HM : round_nearest_even
                     (shr_m (shr_1 (shr_record_of_loc (Z.pos p~0) loc)))
                     (loc_of_shr_record
                        (shr_1 (shr_record_of_loc (Z.pos p~0) loc)))
                   = Z.pos p).
      { destruct loc as [|[]]; reflexivity. }
      destruct (Hdiv p ltac:(lia)) as [HdM HdivM].
      exists (2 * Z.pos p).
      rewrite (round_aux_step _ _ _ _ _ p Hs HM HdM) by lia.
      rewrite to_int_neg_exp by lia. split; [now rewrite HdivM|].
      left. lia.
Qed.

Lemma Zdigits2_spec m :
  0 < m -> 1 <= Zdigits2 m /\ 2 ^ (Zdigits2 m - 1) <= m < 2 ^ Zdigits2 m.
Proof.
  intros H. rewrite Zdigits2_log2 by assumption.
  pose proof (Z.log2_nonneg m). pose proof (Z.log2_spec m H) as Hs.
  replace (Z.log2 m + 1 - 1) with (Z.log2 m) by lia.
  replace (Z.log2 m + 1) with (Z.succ (Z.log2 m)) by lia. split; [lia|exact Hs].
Qed.

Lemma Zdigits2_le m d : 0 < m -> 0 <= d -> m < 2 ^ d -> Zdigits2 m <= d.
Proof.
  intros H Hd Hlt. rewrite Zdigits2_log2 by assumption.
  apply Z.log2_lt_pow2 in Hlt; lia.
Qed.

(** Truncating a neighbour of [q] at bit [s], when [q] is the quotient of
    [n * 2 ^ s] by 100 and [2 ^ s] exceeds 100. *)
Lemma quotient_neighbour_floor n s q r W :
  7 <= s -> n * 2 ^ s = 100 * q + r -> 0 <= r < 100 ->
  (W = q \/ W = q + 1 \/ (W = q - 1 /\ Z.odd q = true)) ->
  W / 2 ^ s = n / 100.
Proof.
  intros Hs Hqr Hr HW.
  assert (HT : 128 <= 2 ^ s).
  { change 128 with (2 ^ 7). apply Z.pow_le_mono_r; lia. }
  assert (Heven : exists T', 2 ^ s = 2 * T').
  { exists (2 ^ (s - 1)). rewrite <- Z.pow_succ_r by lia. f_equal. lia. }
  set (T := 2 ^ s) in *.
  pose proof (Z.div_mod n 100 ltac:(lia)) as Hn.
  pose proof (Z.mod_pos_bound n 100 ltac:(lia)) as Hnr.
  symmetry. apply Z.div_unique with (r := W - T * (n / 100)).
  2: lia.
  left. destruct Heven as [T' HT'].
  destruct HW as [->|[->|[-> Hodd]]].
  - nia.
  - nia.
  - apply Z.odd_spec in Hodd. destruct Hodd as [k Hk]. nia.
Qed.

Lemma int_truediv_100_floor n :
  0 <= n < 2 ^ 53 ->
  exists x, Py.int_truediv n 100 = Some x /\ Py.to_int x = Some (n / 100).
Proof.
  intros Hn. unfold Py.int_truediv. change (100 =? 0) with false. cbv iota.
  eexists. split; [reflexivity|].
  destruct n as [|p|p]; [reflexivity| |lia].
  destruct (Zdigits2_spec (Z.pos p) ltac:(lia)) as [Hd1 Hd].
  pose proof (Zdigits2_le (Z.pos p) 53 ltac:(lia) ltac:(lia) (proj2 Hn)) as Hd53.
  cbn [Py.exact SFdiv xorb]. unfold SFdiv_core_binary.
  change (Zdigits2 100) with 7.
  set (d := Zdigits2 (Z.pos p)) in *.
  replace (Z.min (fexp Py.prec Py.emax (d + 0 - (7 + 0))) (0 - 0))
    with (d - 60) by (unfold fexp, emin, Py.prec, Py.emax; lia).
  replace (0 - 0 - (d - 60)) with (60 - d) by lia.
  destruct (60 - d) as [|s|s] eqn:Es; try lia. rewrite <- Es.
  rewrite Z.shiftl_mul_pow2 by lia.
  pose proof (Z.div_eucl_eq (Z.pos p * 2 ^ (60 - d)) 100 ltac:(lia)) as Hqr.
  pose proof (Z.mod_pos_bound (Z.pos p * 2 ^ (60 - d)) 100 ltac:(lia)) as Hr.
  unfold Z.modulo in Hr.
  destruct (Z.div_eucl (Z.pos p * 2 ^ (60 - d)) 100) as [q r].
  assert (Hpow : 2 ^ (d - 1) * 2 ^ (60 - d) = 2 ^ 59).
  { rewrite <- Z.pow_add_r by lia. f_equal. lia. }
  assert (Hpow' : 2 ^ d = 2 * 2 ^ (d - 1)).
  { rewrite <- Z.pow_succ_r by lia. f_equal. lia. }
  assert (HT : 0 < 2 ^ (60 - d)) by (apply Z.pow_pos_nonneg; lia).
  assert (Hq : 2 ^ 52 <= q < 2 ^ 54 - 2).
  { change (2 ^ 59) with 576460752303423488 in Hpow.
    change (2 ^ 52) with 4503599627370496.
    change (2 ^ 54 - 2) with 18014398509481982. nia. }
  destruct (round_aux_to_int q (d - 60) (new_location 100 r) Hq ltac:(lia))
    as (W & -> & HW).
  f_equal. replace (- (d - 60)) with (60 - d) by lia.
  apply (quotient_neighbour_floor (Z.pos p) (60 - d) q r W); auto; lia.
Qed.

(** ** Binary64 arithmetic on integers below 2^53

    Integers below [2 ^ 53] are binary64 values, and their products, sums
    and exact quotients are computed without rounding as long as the
    result stays below [2 ^ 53]. *)

Lemma iter_shr_exact n : forall m,
  iter_pos shr_1 n (exact_rec (Z.pos (m * 2 ^ n))) = exact_rec (Z.pos m).
Proof.
  induction n as [n IH|n IH|]; intros m; cbn [iter_pos].
  - replace (m * 2 ^ n~1)%positive with (2 * (m * 2 ^ n * 2 ^ n))%positive.
    + change (shr_1 (exact_rec (Z.pos (2 * (m * 2 ^ n * 2 ^ n)))))
        with (exact_rec (Z.pos (m * 2 ^ n * 2 ^ n))).
      now rewrite !IH.
    + apply Pos2Z.inj.
      rewrite !Pos2Z.inj_mul, !Pos2Z.inj_pow, (Pos2Z.inj_xI n).
      replace (2 * Z.pos n + 1) with (Z.pos n + Z.pos n + 1) by lia.
      rewrite !Z.pow_add_r, Z.pow_1_r by lia. ring.
  - replace (m * 2 ^ n~0)%positive with (m * 2 ^ n * 2 ^ n)%positive.
    + now rewrite !IH.
    + apply Pos2Z.inj.
      rewrite !Pos2Z.inj_mul, !Pos2Z.inj_pow, (Pos2Z.inj_xO n).
      replace (2 * Z.pos n) with (Z.pos n + Z.pos n) by lia.
      rewrite !Z.pow_add_r by lia. ring.
  - rewrite Pos.pow_1_r, Pos.mul_comm. reflexivity.
Qed.

Lemma shr_exact z k sh e :
  0 < z -> 0 <= sh <= k ->
  shr (exact_rec (z * 2 ^ k)) e sh = (exact_rec (z * 2 ^ (k - sh)), e + sh).
Proof.
  intros Hz Hsh. destruct sh as [|n|n]; try lia.
  - now rewrite Z.sub_0_r, Z.add_0_r.
  - unfold shr. f_equal.
    assert (Hm : 0 < z * 2 ^ (k - Z.pos n))
      by (apply Z.mul_pos_pos; [lia|apply Z.pow_pos_nonneg; lia]).
    destruct (z * 2 ^ (k - Z.pos n)) as [|m|m] eqn:Em; try lia.
    rewrite <- (iter_shr_exact n m). f_equal. f_equal.
    rewrite Pos2Z.inj_mul, Pos2Z.inj_pow, <- Em, <- Z.mul_assoc,
      <- Z.pow_add_r by lia.
    f_equal. f_equal. lia.
Qed.

Lemma Zdigits2_shift z k :
  0 < z -> 0 <= k -> Zdigits2 (z * 2 ^ k) = Zdigits2 z + k.
Proof.
  intros Hz Hk. destruct (Zdigits2_spec z Hz) as [Hd [Hlo Hhi]].
  apply Zdigits2_unique; [lia|].
  replace (Zdigits2 z + k - 1) with (Zdigits2 z - 1 + k) by lia.
  rewrite !Z.pow_add_r by lia.
  assert (0 < 2 ^ k) by (apply Z.pow_pos_nonneg; lia). nia.
Qed.

Lemma round_aux_exact z k e :
  0 < z < 2 ^ 53 -> 53 - Zdigits2 z <= k ->
  -1074 <= e -> e + Zdigits2 z + k - 53 <= 971 ->
  binary_round_aux Py.prec Py.emax false (z * 2 ^ k) e loc_Exact =
  S754_finite false (Z.to_pos (z * 2 ^ (53 - Zdigits2 z)))
    (e + Zdigits2 z + k - 53).
Proof.
  intros Hz Hk He He'.
  destruct (Zdigits2_spec z ltac:(lia)) as [Hd1 _].
  pose proof (Zdigits2_le z 53 ltac:(lia) ltac:(lia) (proj2 Hz)) as Hd53.
  set (d := Zdigits2 z) in *.
  assert (Hs : shr_fexp Py.prec Py.emax (z * 2 ^ k) e loc_Exact =
               (exact_rec (z * 2 ^ (53 - d)), e + (d + k - 53))).
  { unfold shr_fexp. rewrite Zdigits2_shift by lia. fold d.
    rewrite fexp_normal by lia.
    replace (d + k + e - 53 - e) with (d + k - 53) by lia.
    change (shr_record_of_loc (z * 2 ^ k) loc_Exact)
      with (exact_rec (z * 2 ^ k)).
    rewrite shr_exact by lia.
    replace (k - (d + k - 53)) with (53 - d) by lia. reflexivity. }
  assert (HM : 0 < z * 2 ^ (53 - d))
    by (apply Z.mul_pos_pos; [lia|apply Z.pow_pos_nonneg; lia]).
  assert (HdM : Zdigits2 (z * 2 ^ (53 - d)) = 53).
  { rewrite Zdigits2_shift by lia. fold d. lia. }
  destruct (z * 2 ^ (53 - d)) as [|M|M] eqn:EM; try lia.
  replace (e + d + k - 53) with (e + (d + k - 53)) by lia.
  apply (round_aux_step _ _ _ _ _ M Hs); [reflexivity|exact HdM|lia].
Qed.

Lemma shift_pos_pow2 p n : Z.pos (Pos.iter xO p n) = Z.pos p * 2 ^ Z.pos n.
Proof.
  change (Pos.iter xO p n) with (Zpower.shift_pos n p).
  rewrite Zpower.shift_pos_correct. unfold Z.pow. lia.
Qed.

Lemma of_int_normal z : 0 < z < 2 ^ 53 -> Py.of_int z = normal z.
Proof.
  intros Hz. destruct (Zdigits2_spec z ltac:(lia)) as [Hd1 _].
  pose proof (Zdigits2_le z 53 ltac:(lia) ltac:(lia) (proj2 Hz)) as Hd53.
  destruct z as [|p|p]; try lia.
  unfold Py.of_int, binary_normalize, binary_round, normal.
  change (Z.pos (digits2_pos p)) with (Zdigits2 (Z.pos p)).
  rewrite Z.add_0_r, fexp_normal by lia.
  unfold shl_align. rewrite Z.sub_0_r.
  destruct (Zdigits2 (Z.pos p) - 53) as [|n|n] eqn:En; try lia.
  - (* already 53 digits *)
    pose proof (round_aux_exact (Z.pos p) 0 0 Hz ltac:(lia) ltac:(lia)
                  ltac:(lia)) as H.
    rewrite Z.pow_0_r, Z.mul_1_r in H. rewrite H. f_equal. lia.
  - pose proof (round_aux_exact (Z.pos p) (53 - Zdigits2 (Z.pos p))
                  (Zdigits2 (Z.pos p) - 53) Hz ltac:(lia) ltac:(lia)
                  ltac:(lia)) as H.
    rewrite shift_pos_pow2.
    replace (Z.pos n) with (53 - Zdigits2 (Z.pos p)) by lia.
    rewrite <- En, H. f_equal. lia.
Qed.


Lemma Zdigits2_mono x y : 0 < x <= y -> Zdigits2 x <= Zdigits2 y.
Proof.
  intros H. rewrite !Zdigits2_log2 by lia.
  pose proof (Z.log2_le_mono x y ltac:(lia)). lia.
Qed.

Lemma normal_significand z :
  0 < z < 2 ^ 53 ->
  Z.pos (Z.to_pos (z * 2 ^ (53 - Zdigits2 z))) = z * 2 ^ (53 - Zdigits2 z).
Proof.
  intros Hz.
  pose proof (Zdigits2_le z 53 ltac:(lia) ltac:(lia) (proj2 Hz)).
  apply Z2Pos.id. apply Z.mul_pos_pos; [lia|apply Z.pow_pos_nonneg; lia].
Qed.

(** Products, sums and exact quotients of integers stay exact below
    [2 ^ 53]. *)
Lemma mul_exact a b :
  0 < a -> 0 < b -> a * b < 2 ^ 53 ->
  Py.mul (Py.of_int a) (Py.of_int b) = Py.of_int (a * b).
Proof.
  intros Ha Hb Hab.
  assert (Ha' : a < 2 ^ 53) by nia. assert (Hb' : b < 2 ^ 53) by nia.
  rewrite !of_int_normal by lia.
  pose proof (Zdigits2_le a 53 ltac:(lia) ltac:(lia) Ha') as Hda.
  pose proof (Zdigits2_le b 53 ltac:(lia) ltac:(lia) Hb') as Hdb.
  destruct (Zdigits2_spec a Ha) as [Hda1 _].
  destruct (Zdigits2_spec b Hb) as [Hdb1 _].
  pose proof (Zdigits2_mono a (a * b) ltac:(nia)) as Hmono.
  pose proof (Zdigits2_le (a * b) 53 ltac:(nia) ltac:(lia) Hab) as Hdab.
  unfold normal at 1 2. unfold Py.mul, SFmul. cbn [xorb].
  rewrite Pos2Z.inj_mul, !normal_significand by lia.
  replace (a * 2 ^ (53 - Zdigits2 a) * (b * 2 ^ (53 - Zdigits2 b)))
    with (a * b * 2 ^ (106 - Zdigits2 a - Zdigits2 b)).
  2:{ replace (106 - Zdigits2 a - Zdigits2 b)
        with (53 - Zdigits2 a + (53 - Zdigits2 b)) by lia.
      rewrite Z.pow_add_r by lia. ring. }
  rewrite round_aux_exact by (try nia; lia).
  unfold normal. f_equal. lia.
Qed.

Lemma shl_align_fst m e ez :
  ez <= e -> Z.pos (fst (shl_align m e ez)) = Z.pos m * 2 ^ (e - ez).
Proof.
  intros H. unfold shl_align.
  destruct (ez - e) as [|n|n] eqn:En; try lia; cbn [fst].
  - replace (e - ez) with 0 by lia. lia.
  - rewrite shift_pos_pow2. f_equal. f_equal. lia.
Qed.

Lemma add_exact a b :
  0 < a -> 0 < b -> a + b < 2 ^ 53 ->
  Py.add (Py.of_int a) (Py.of_int b) = Py.of_int (a + b).
Proof.
  intros Ha Hb Hab.
  rewrite !of_int_normal by lia.
  pose proof (Zdigits2_le a 53 ltac:(lia) ltac:(lia) ltac:(lia)) as Hda.
  pose proof (Zdigits2_le b 53 ltac:(lia) ltac:(lia) ltac:(lia)) as Hdb.
  destruct (Zdigits2_spec a Ha) as [Hda1 _].
  destruct (Zdigits2_spec b Hb) as [Hdb1 _].
  pose proof (Zdigits2_mono a (a + b) ltac:(lia)) as Hma.
  pose proof (Zdigits2_mono b (a + b) ltac:(lia)) as Hmb.
  pose proof (Zdigits2_le (a + b) 53 ltac:(lia) ltac:(lia) Hab) as Hdab.
  unfold normal at 1 2. unfold Py.add, SFadd. cbn [cond_Zopp].
  set (ez := Z.min (Zdigits2 a - 53) (Zdigits2 b - 53)).
  rewrite !shl_align_fst, !normal_significand by lia.
  replace (a * 2 ^ (53 - Zdigits2 a) * 2 ^ (Zdigits2 a - 53 - ez)
           + b * 2 ^ (53 - Zdigits2 b) * 2 ^ (Zdigits2 b - 53 - ez))
    with ((a + b) * 2 ^ (- ez)).
  2:{ rewrite <- !Z.mul_assoc, <- !Z.pow_add_r by lia.
      replace (53 - Zdigits2 a + (Zdigits2 a - 53 - ez)) with (- ez) by lia.
      replace (53 - Zdigits2 b + (Zdigits2 b - 53 - ez)) with (- ez) by lia.
      ring. }
  assert (HS : 0 < (a + b) * 2 ^ (- ez))
    by (apply Z.mul_pos_pos; [lia|apply Z.pow_pos_nonneg; lia]).
  pose proof (Zdigits2_shift (a + b) (- ez) ltac:(lia) ltac:(lia)) as HdS.
  pose proof (round_aux_exact (a + b) (- ez) ez ltac:(lia) ltac:(lia)
                ltac:(lia) ltac:(lia)) as HR.
  destruct ((a + b) * 2 ^ (- ez)) as [|S|S] eqn:ES; try lia.
  unfold binary_normalize, binary_round.
  change (Z.pos (digits2_pos S)) with (Zdigits2 (Z.pos S)).
  rewrite HdS, fexp_normal by lia. unfold shl_align.
  destruct (Zdigits2 (a + b) + - ez + ez - 53 - ez) as [|n|n] eqn:En;
    try lia; rewrite HR; unfold normal; f_equal; lia.
Qed.

Lemma int_truediv_exact t p :
  0 < t -> 0 < p -> t * p < 2 ^ 53 ->
  Py.int_truediv (t * p) t = Some (Py.of_int p).
Proof.
  intros Ht Hp Htp.
  assert (Hp' : p < 2 ^ 53) by nia. assert (Ht' : t < 2 ^ 53) by nia.
  rewrite of_int_normal by lia.
  destruct (Zdigits2_spec t Ht) as [Hdt1 [Htlo Hthi]].
  destruct (Zdigits2_spec p Hp) as [Hdp1 [Hplo Hphi]].
  pose proof (Zdigits2_le p 53 ltac:(lia) ltac:(lia) Hp') as Hdp.
  pose proof (Zdigits2_mono t (t * p) ltac:(nia)) as Hmono.
  pose proof (Zdigits2_le (t * p) 53 ltac:(nia) ltac:(lia) Htp) as Hdtp.
  assert (Hsum : Zdigits2 (t * p) <= Zdigits2 t + Zdigits2 p).
  { apply Zdigits2_le; [nia|lia|]. rewrite Z.pow_add_r by lia.
    apply Z.mul_lt_mono_nonneg; lia. }
  unfold Py.int_truediv.
  destruct (t =? 0) eqn:E; [apply Z.eqb_eq in E; lia|]. f_equal.
  assert (Hpos : 0 < t * p) by nia.
  destruct (t * p) as [|tp|tp] eqn:Etp; try lia.
  destruct t as [|t'|t'] eqn:Et; try lia.
  cbn [Py.exact SFdiv xorb]. unfold SFdiv_core_binary.
  rewrite <- Et, <- Etp in *.
  set (d1 := Zdigits2 (t * p)) in *. set (d2 := Zdigits2 t) in *.
  replace (Z.min (fexp Py.prec Py.emax (d1 + 0 - (d2 + 0))) (0 - 0))
    with (d1 - d2 - 53) by (unfold fexp, emin, Py.prec, Py.emax; lia).
  replace (0 - 0 - (d1 - d2 - 53)) with (53 + d2 - d1) by lia.
  destruct (53 + d2 - d1) as [|s|s] eqn:Es; try lia. rewrite <- Es.
  rewrite Z.shiftl_mul_pow2 by lia.
  assert (HT : 0 < 2 ^ (53 + d2 - d1)) by (apply Z.pow_pos_nonneg; lia).
  pose proof (Z.div_eucl_eq (t * p * 2 ^ (53 + d2 - d1)) t ltac:(lia)) as Hqr.
  pose proof (Z.mod_pos_bound (t * p * 2 ^ (53 + d2 - d1)) t ltac:(lia)) as Hr.
  unfold Z.modulo in Hr.
  destruct (Z.div_eucl (t * p * 2 ^ (53 + d2 - d1)) t) as [q r].
  assert (Hq0 : r = 0 /\ q = p * 2 ^ (53 + d2 - d1)).
  { set (X := p * 2 ^ (53 + d2 - d1)) in *.
    assert (Hx : t * (X - q) = r) by (subst X; lia).
    assert (X - q = 0) by nia. lia. }
  destruct Hq0 as [-> ->].
  assert (Hloc : new_location t 0 = loc_Exact).
  { unfold new_location, new_location_even, new_location_odd.
    destruct (Z.even t); reflexivity. }
  rewrite Hloc, round_aux_exact by lia.
  unfold normal.
  replace (d1 - d2 - 53 + Zdigits2 p + (53 + d2 - d1) - 53)
    with (Zdigits2 p - 53) by lia.
  reflexivity.
Qed.

(** ** Investment *)

Section Invest.
Variables (au : auth_user) (project_id amount : Z) (tx_hash : string).
Variables (s s' : db) (b : body) (p : Project.t).
Hypothesis Hrun : invest (Some au) project_id amount tx_hash s = (Ok b, s').
Hypothesis Hp : get Project.id project_id (projects s) = Some p.

Let tokens := amount / Project.token_price p.

Lemma invest_ok_guards :
  role au = "INVESTOR"%string /\ Project.status p = ACTIVE /\
  Project.token_price p <> 0 /\ 0 < tokens /\ b = Invested tx_hash tokens.
Proof.
  unfold invest in Hrun. rewrite Hp in Hrun. branches Hrun.
  all: injection Hrun as <- <-.
  all: apply negb_false_iff in E, E0.
  all: apply String.eqb_eq in E; apply project_status_eqb_eq in E0.
  all: apply Z.eqb_neq in E1; apply Z.leb_gt in E2.
  all: repeat split; auto.
Qed.

(** The tables after a successful investment. *)
Lemma invest_ok_tables :
  users s' = users s /\ milestones s' = milestones s /\
  listings s' = listings s /\
  projects s' =
    update_first (fun r => Project.id r =? project_id)
      (Project.set_funding_raised (Project.funding_raised p + amount))
      (projects s) /\
  escrows s' =
    match first (escrow_of (Project.id p)) (escrows s) with
    | None =>
        escrows s ++
        [Escrow.mk (next_id Escrow.id (escrows s)) (Project.id p) amount 0]
    | Some e =>
        update_first (escrow_of (Project.id p))
          (Escrow.set_total_locked (Escrow.total_locked e + amount))
          (escrows s)
    end /\
  match first (holding_of (user_id au) (Project.id p)) (holdings s) with
  | None =>
      exists avg,
        Py.int_truediv (tokens * Project.token_price p) tokens = Some avg /\
        holdings s' =
          holdings s ++
          [TokenHolding.mk (next_id TokenHolding.id (holdings s))
             (user_id au) (Project.id p) tokens avg]
  | Some h =>
      exists avg,
        Py.truediv
          (Py.add
             (Py.mul (Py.of_int (TokenHolding.token_count h))
                (TokenHolding.avg_buy_price h))
             (Py.of_int (tokens * Project.token_price p)))
          (TokenHolding.token_count h + tokens) = Some avg /\
        holdings s' =
          update_first (holding_of (user_id au) (Project.id p))
            (fun r => TokenHolding.set_avg_buy_price avg
                        (TokenHolding.set_token_count
                           (TokenHolding.token_count h + tokens) r))
            (holdings s)
  end /\
  transactions s' =
    transactions s ++
    [Transaction.mk (next_id Transaction.id (transactions s)) tx_hash
       (user_id au) (Project.id p) MINT amount tokens SUCCESS].
Proof.
  unfold invest in Hrun. rewrite Hp in Hrun. cbv zeta in Hrun.
  do 4 branch Hrun. db_simpl in Hrun.
  destruct (first (escrow_of (Project.id p)) (escrows s)) as [e|] eqn:Ee;
    db_simpl in Hrun;
    (destruct (first (holding_of (user_id au) (Project.id p)) (holdings s))
      as [h|] eqn:Eh; cbn [Z.mul Z.add] in Hrun);
    try (destruct (is_null (TokenHolding.avg_buy_price h)) eqn:En;
         [discriminate Hrun|]);
    match type of Hrun with
    | context [Py.truediv ?x ?d] => destruct (Py.truediv x d) eqn:Ea
    | context [Py.int_truediv ?x ?d] => destruct (Py.int_truediv x d) eqn:Ea
    end; try discriminate Hrun;
    match type of Hrun with
    | (if ?c then _ else _) = _ => destruct c eqn:Ec; [|discriminate Hrun]
    end; injection Hrun as <- <-; db_simpl.
  all: repeat split; try reflexivity; eexists; split; eauto.
Qed.

(** What a successful investment has written fits the columns, and the
    average it has read was not NULL. *)
Lemma invest_ok_stored :
  int64 (Project.funding_raised p + amount) = true /\
  int64 (match first (escrow_of (Project.id p)) (escrows s) with
         | None => amount
         | Some e => Escrow.total_locked e + amount
         end) = true /\
  int64 (match first (holding_of (user_id au) (Project.id p)) (holdings s)
         with
         | None => tokens
         | Some h => TokenHolding.token_count h + tokens
         end) = true /\
  int64 amount = true /\ int64 tokens = true /\
  (forall h,
     first (holding_of (user_id au) (Project.id p)) (holdings s) = Some h ->
     is_null (TokenHolding.avg_buy_price h) = false).
Proof.
  unfold invest in Hrun. rewrite Hp in Hrun. cbv zeta in Hrun.
  do 4 branch Hrun. db_simpl in Hrun.
  destruct (first (escrow_of (Project.id p)) (escrows s)) as [e|] eqn:Ee;
    db_simpl in Hrun;
    (destruct (first (holding_of (user_id au) (Project.id p)) (holdings s))
      as [h|] eqn:Eh; cbn [Z.mul Z.add] in Hrun);
    try (destruct (is_null (TokenHolding.avg_buy_price h)) eqn:En;
         [discriminate Hrun|]);
    match type of Hrun with
    | context [Py.truediv ?x ?d] => destruct (Py.truediv x d) eqn:Ea
    | context [Py.int_truediv ?x ?d] => destruct (Py.int_truediv x d) eqn:Ea
    end; try discriminate Hrun;
    match type of Hrun with
    | (if ?c then _ else _) = _ => destruct c eqn:Ec; [|discriminate Hrun]
    end; clear Hrun.
  all: do 4 (apply andb_prop in Ec; destruct Ec as [Ec ?]).
  all: repeat split; auto; intros h' Hh'; congruence.
Qed.
End Invest.



(** ** Accepting and rejecting an investment *)

Lemma tokens_held_nonneg uid pid s :
  Forall (fun h => 0 <= TokenHolding.token_count h) (holdings s) ->
  0 <= tokens_held uid pid s.
Proof.
  intros H. unfold tokens_held.
  destruct (first (holding_of uid pid) (holdings s)) as [h|] eqn:E; [|lia].
  rewrite Forall_forall in H. exact (H h (proj1 (first_some _ _ _ E))).
Qed.

(** Past the checks of the request, an investment is committed when it can
    be stored, and ends in an exception, with nothing written, when it
    cannot. *)
Lemma invest_accepts (au : auth_user) (project_id amount : Z)
    (tx_hash : string) (s : db) (p : Project.t) :
  role au = "INVESTOR"%string ->
  get Project.id project_id (projects s) = Some p ->
  Project.status p = ACTIVE ->
  0 < amount / Project.token_price p ->
  0 <= tokens_held (user_id au) (Project.id p) s ->
  (investable (user_id au) amount p s ->
   exists s',
     invest (Some au) project_id amount tx_hash s =
     (Ok (Invested tx_hash (amount / Project.token_price p)), s')) /\
  (~ investable (user_id au) amount p s ->
   invest (Some au) project_id amount tx_hash s = (internal_error, s)).
Proof.
  intros Hrole Hp Hst Ht Hh. unfold invest. rewrite Hp, Hrole, Hst.
  cbv zeta. rewrite String.eqb_refl. cbn [negb project_status_eqb].
  assert (Hnz : Project.token_price p <> 0).
  { intros E. rewrite E, Z.div_0_r in Ht. lia. }
  apply Z.eqb_neq in Hnz. rewrite Hnz.
  assert (Hle : (amount / Project.token_price p <=? 0) = false)
    by now apply Z.leb_gt.
  rewrite Hle. db_simpl.
  unfold investable, transparency, tokens_held. cbv zeta.
  unfold tokens_held in Hh. revert Hh.
  destruct (first (escrow_of (Project.id p)) (escrows s)); db_simpl.
  all: destruct (first (holding_of (user_id au) (Project.id p)) (holdings s))
         as [h|] eqn:Eh; intros Hh.
  all: cbn [locked Z.add Z.mul].
  all: try (destruct (is_null (TokenHolding.avg_buy_price h)) eqn:En;
            [split; [intros (_ & _ & _ & _ & _ & Hn);
                     specialize (Hn h eq_refl); congruence
                    |reflexivity]|]).
  all: unfold Py.truediv, Py.int_truediv.
  all: match goal with
       | |- context [?d =? 0] =>
           let E := fresh in
           assert (E : (d =? 0) = false) by (apply Z.eqb_neq; lia);
           rewrite E
       end.
  all: match goal with
       | |- context [if ?c then _ else _] => destruct c eqn:Ec
       end.
  all: split;
         [intros (H1 & H2 & H3 & H4 & H5 & _)
         |intros Hno].
  all: try (eexists; reflexivity).
  all: try reflexivity.
  all: try (rewrite ?H1, ?H2, ?H3, ?H4, ?H5 in Ec; discriminate Ec).
  all: exfalso; apply Hno.
  all: do 4 (apply andb_prop in Ec; destruct Ec as [Ec ?]).
  all: repeat split; auto; intros h' Hh'; congruence.
Qed.

Lemma wf_token_price s k p :
  wf s -> get Project.id k (projects s) = Some p -> 0 < Project.token_price p.
Proof.
  intros (H & _) Hp. apply first_some in Hp. destruct Hp as [Hin _].
  unfold positive_prices in H. rewrite Forall_forall in H. now apply H.
Qed.

(** C5. On an active project of a well-formed database, an investor's
    request with [amount >= token_price] is for
    [amount // token_price >= 1] tokens; it succeeds and issues them when
    what it writes fits the 64-bit Integer columns and the investor's
    average, if any, is not NULL, and is answered 500 with the database
    left as it was when not. A request with [amount < token_price] is
    answered 400 "Amount too low" and the database is left as it was. *)
Theorem invest_threshold (au : auth_user) (project_id amount : Z)
    (tx_hash : string) (s : db) (p : Project.t) :
  wf s ->
  role au = "INVESTOR"%string ->
  get Project.id project_id (projects s) = Some p ->
  Project.status p = ACTIVE ->
  (Project.token_price p <= amount ->
   1 <= amount / Project.token_price p /\
   (investable (user_id au) amount p s ->
    exists s',
      invest (Some au) project_id amount tx_hash s =
      (Ok (Invested tx_hash (amount / Project.token_price p)), s')) /\
   (~ investable (user_id au) amount p s ->
    invest (Some au) project_id amount tx_hash s =
    (Err 500 "Internal Server Error", s))) /\
  (amount < Project.token_price p ->
   invest (Some au) project_id amount tx_hash s =
   (Err 400 "Amount too low", s)).
Proof.
  intros Hwf Hrole Hp Hst.
  pose proof (wf_token_price _ _ _ Hwf Hp) as Hpos.
  split.
  - intros Hge.
    assert (Ht : 1 <= amount / Project.token_price p)
      by (apply Z.div_le_lower_bound; lia).
    split; [exact Ht|].
    apply invest_accepts; auto; [lia|].
    apply tokens_held_nonneg, (proj1 (proj2 Hwf)).
  - intros Hlt.
    assert (Ht : amount / Project.token_price p < 1)
      by (apply Z.div_lt_upper_bound; lia).
    unfold invest. rewrite Hp, Hrole, Hst. cbv zeta.
    rewrite String.eqb_refl. cbn [negb project_status_eqb].
    assert (Hnz : (Project.token_price p =? 0) = false)
      by (apply Z.eqb_neq; lia).
    assert (Hle : (amount / Project.token_price p <=? 0) = true)
      by (apply Z.leb_le; lia).
    now rewrite Hnz, Hle.
Qed.

Lemma invest_threshold_witness :
  (1 <= 250 / 100 /\
   exists s',
     invest Sample.investor 1 250 "0xa1" Sample.s0 =
     (Ok (Invested "0xa1" (250 / 100)), s')) /\
  invest Sample.investor 1 99 "0xa2" Sample.s0 =
  (Err 400 "Amount too low", Sample.s0).
Proof.
  assert (Hwf : wf Sample.s0).
  { repeat split; repeat constructor; simpl; lia. }
  split.
  - destruct (invest_threshold (mkauth 3 "INVESTOR") 1 250 "0xa1" Sample.s0
                Sample.road Hwf eq_refl eq_refl eq_refl) as [H _].
    destruct (H ltac:(simpl; lia)) as (Ht & Hok & _).
    split; [exact Ht|]. apply Hok.
    repeat split; try reflexivity.
    intros h Hh. injection Hh as <-. reflexivity.
  - apply (invest_threshold (mkauth 3 "INVESTOR") 1 99 "0xa2" Sample.s0
             Sample.road Hwf eq_refl eq_refl eq_refl).
    simpl; lia.
Defined.

(** An investment of 2^63 in the sample project, whose token price is 100:
    the amount is not below the price, and the request is answered 500
    with nothing written. *)
Lemma invest_threshold_counterexample :
  wf Sample.s0 /\
  get Project.id 1 (projects Sample.s0) = Some Sample.road /\
  Project.status Sample.road = ACTIVE /\
  Project.token_price Sample.road <= 2 ^ 63 /\
  invest Sample.investor 1 (2 ^ 63) "0xa0" Sample.s0 =
  (Err 500 "Internal Server Error", Sample.s0).
Proof.
  split; [repeat split; repeat constructor; simpl; lia|].
  split; [reflexivity|]. split; [reflexivity|].
  split; [vm_compute; discriminate|]. vm_compute. reflexivity.
Qed.

(** ** Secondary market *)

Section Buy.
Variables (au : auth_user) (listing_id : Z) (tx_hash : string).
Variables (s s' : db) (b : body) (l : MarketplaceListing.t).
Hypothesis Hrun : buy_listing (Some au) listing_id tx_hash s = (Ok b, s').
Hypothesis Hl : get MarketplaceListing.id listing_id (listings s) = Some l.

Let seller := MarketplaceListing.seller_id l.
Let pid := MarketplaceListing.project_id l.
Let n := MarketplaceListing.token_count l.
Let q := MarketplaceListing.price_per_token l.

(** What a purchase that succeeded went through, and the tables after it. *)
Lemma buy_ok_tables :
  MarketplaceListing.status l = LS_ACTIVE /\ user_id au <> seller /\
  (exists p, get Project.id pid (projects s) = Some p /\
             Project.status p = ACTIVE) /\
  b = Purchased tx_hash /\
  (exists seller_h,
     first (holding_of seller pid) (holdings s) = Some seller_h /\
     n <= TokenHolding.token_count seller_h /\
     let hs1 :=
       update_first (holding_of seller pid)
         (TokenHolding.set_token_count (TokenHolding.token_count seller_h - n))
         (holdings s) in
     holdings s' =
       match first (holding_of (user_id au) pid) hs1 with
       | None =>
           hs1 ++ [TokenHolding.mk (next_id TokenHolding.id hs1) (user_id au)
                     pid n (Py.of_int q)]
       | Some buyer_h =>
           update_first (holding_of (user_id au) pid)
             (fun r => TokenHolding.set_avg_buy_price (Py.of_int q)
                         (TokenHolding.set_token_count
                            (TokenHolding.token_count buyer_h + n) r))
             hs1
       end) /\
  listings s' =
    update_first (fun r => MarketplaceListing.id r =? listing_id)
      (MarketplaceListing.set_status SOLD) (listings s) /\
  transactions s' =
    transactions s ++
    [Transaction.mk (next_id Transaction.id (transactions s)) tx_hash
       (user_id au) pid TRANSFER (n * q) n SUCCESS] /\
  users s' = users s /\ projects s' = projects s /\
  milestones s' = milestones s /\ escrows s' = escrows s.
Proof.
  unfold buy_listing in Hrun. rewrite Hl in Hrun. cbv zeta in Hrun.
  do 6 branch Hrun.
  apply negb_false_iff, listing_status_eqb_eq in E.
  apply Z.eqb_neq in E0.
  apply negb_false_iff, project_status_eqb_eq in E2.
  apply Z.ltb_ge in E4.
  pose proof (get_key _ _ _ _ E1) as Hpid. rewrite Hpid in *.
  assert (Hb :
    b = Purchased tx_hash /\
    s' =
    set_transactions
      (transactions s ++
       [Transaction.mk (next_id Transaction.id (transactions s)) tx_hash
          (user_id au) pid TRANSFER (n * q) n SUCCESS])
      (set_listings
         (update_first (fun r => MarketplaceListing.id r =? listing_id)
            (MarketplaceListing.set_status SOLD) (listings s))
         (set_holdings
            (let hs1 :=
               update_first (holding_of seller pid)
                 (TokenHolding.set_token_count
                    (TokenHolding.token_count t0 - n)) (holdings s) in
             match first (holding_of (user_id au) pid) hs1 with
             | None =>
                 hs1 ++
                 [TokenHolding.mk (next_id TokenHolding.id hs1) (user_id au)
                    pid n (Py.of_int q)]
             | Some buyer_h =>
                 update_first (holding_of (user_id au) pid)
                   (fun r => TokenHolding.set_avg_buy_price (Py.of_int q)
                               (TokenHolding.set_token_count
                                  (TokenHolding.token_count buyer_h + n) r))
                   hs1
             end) s))).
  { cbv zeta. fold seller pid n q in Hrun.
    destruct (first (holding_of (user_id au) pid)
                (update_first (holding_of seller pid)
                   (TokenHolding.set_token_count
                      (TokenHolding.token_count t0 - n)) (holdings s)));
      cbn [Z.add] in Hrun; branch Hrun; injection Hrun as <- <-;
      split; reflexivity. }
  destruct Hb as [-> ->]. db_simpl.
  split; [exact E|]. split; [exact E0|].
  split; [exists t; split; assumption|]. split; [reflexivity|].
  split; [|repeat (split; [reflexivity|]); reflexivity].
  exists t0. split; [exact E3|]. split; [exact E4|]. reflexivity.
Qed.
End Buy.




(** What [buy_listing] answers when it does not sell: the checks of the
    route in the order it makes them. *)
Lemma buy_listing_rejects (auth : option auth_user) (listing_id : Z)
    (tx_hash : string) (s : db) :
  forall r s', buy_listing auth listing_id tx_hash s = (r, s') ->
  is_ok r = false -> s' = s.
Proof.
  intros r s' H Hr. unfold buy_listing in H. cbv zeta in H.
  repeat branch H; injection H as <- <-; try reflexivity; discriminate Hr.
Qed.

(** C6. A purchase of an active listing of [n] tokens whose seller holds
    fewer than [n] tokens of the project (or none) never succeeds and leaves
    the database as it was, whoever asks; asked by an authenticated user
    other than the seller while the project is active, it is answered 400
    "Seller has insufficient tokens". *)
Theorem buy_listing_insufficient (auth : option auth_user) (listing_id : Z)
    (tx_hash : string) (s : db) (l : MarketplaceListing.t) :
  get MarketplaceListing.id listing_id (listings s) = Some l ->
  MarketplaceListing.status l = LS_ACTIVE ->
  tokens_held (MarketplaceListing.seller_id l)
    (MarketplaceListing.project_id l) s < MarketplaceListing.token_count l ->
  (exists code msg,
     buy_listing auth listing_id tx_hash s = (Err code msg, s)) /\
  (forall au p,
     auth = Some au -> user_id au <> MarketplaceListing.seller_id l ->
     get Project.id (MarketplaceListing.project_id l) (projects s) = Some p ->
     Project.status p = ACTIVE ->
     buy_listing auth listing_id tx_hash s =
     (Err 400 "Seller has insufficient tokens", s)).
Proof.
  intros Hl Hst Hlt. unfold tokens_held in Hlt.
  assert (Hcore : forall au p,
            auth = Some au -> user_id au <> MarketplaceListing.seller_id l ->
            get Project.id (MarketplaceListing.project_id l) (projects s)
              = Some p ->
            Project.status p = ACTIVE ->
            buy_listing auth listing_id tx_hash s =
            (Err 400 "Seller has insufficient tokens", s)).
  { intros au p -> Hne Hp Hact. unfold buy_listing. rewrite Hl, Hst, Hp, Hact.
    cbv zeta. cbn [negb listing_status_eqb project_status_eqb].
    apply Z.eqb_neq in Hne. rewrite Hne.
    rewrite (get_key _ _ _ _ Hp).
    destruct (first _ (holdings s)) as [h|]; [|reflexivity].
    apply Z.ltb_lt in Hlt. now rewrite Hlt. }
  split; [|exact Hcore].
  destruct auth as [au|]; [|now exists 401, "Unauthorized"%string].
  destruct (user_id au =? MarketplaceListing.seller_id l) eqn:Ese.
  { unfold buy_listing. rewrite Hl, Hst. cbv zeta.
    cbn [negb listing_status_eqb]. rewrite Ese. now eexists _, _. }
  destruct (get Project.id (MarketplaceListing.project_id l) (projects s))
    as [p|] eqn:Hp.
  2:{ unfold buy_listing. rewrite Hl, Hst. cbv zeta.
      cbn [negb listing_status_eqb]. rewrite Ese, Hp. now eexists _, _. }
  destruct (project_status_eqb (Project.status p) ACTIVE) eqn:Eact.
  2:{ unfold buy_listing. rewrite Hl, Hst. cbv zeta.
      cbn [negb listing_status_eqb]. rewrite Ese, Hp, Eact.
      now eexists _, _. }
  apply project_status_eqb_eq in Eact. apply Z.eqb_neq in Ese.
  rewrite (Hcore au p eq_refl Ese eq_refl Eact). now eexists _, _.
Qed.

Lemma buy_listing_insufficient_witness :
  fst (list_tokens_for_sale Sample.investor 1 50 10 Sample.market0) =
    Ok (ListingCreated 1) /\
  tokens_held 3 1 Sample.market1 = 30 /\
  buy_listing Sample.second 1 "0xb2" Sample.market1 =
    (Err 400 "Seller has insufficient tokens", Sample.market1).
Proof.
  split; [reflexivity|]. split; [reflexivity|].
  apply (proj2 (buy_listing_insufficient Sample.second 1 "0xb2" Sample.market1
                  (MarketplaceListing.mk 1 3 1 50 10 LS_ACTIVE)
                  eq_refl eq_refl eq_refl)
           (mkauth 4 "INVESTOR") Sample.road eq_refl).
  - discriminate.
  - reflexivity.
  - reflexivity.
Defined.

(** ** What each route writes *)

(** A route that does not answer 200 has not committed anything, but for
    the creation of a project that fails after its first commit: the
    project row is then committed, alone. *)
Lemma handle_rejects (r : request) (s s' : db) (resp : response) :
  handle r s = (resp, s') -> is_ok resp = false ->
  s' = s \/
  exists au title category location description funding_target token_price
         roi_percent tenure_months ms risk_score,
    r = CreateProject (Some au) title category location description
          funding_target token_price roi_percent tenure_months ms /\
    role au = "ISSUER"%string /\ 0 < token_price /\
    s' = set_projects
           (projects s ++
            [Project.mk (next_id Project.id (projects s)) (Some (user_id au))
               title category location description funding_target 0
               token_price roi_percent tenure_months "MEDIUM" risk_score
               PENDING]) s.
Proof.
  intros H Hr. destruct r; cbn [handle] in H.
  - left. unfold invest in H. cbv zeta in H.
    repeat branch H; injection H as <- <-; try reflexivity; discriminate Hr.
  - left. unfold list_tokens_for_sale in H. cbv zeta in H.
    repeat branch H; injection H as <- <-; try reflexivity; discriminate Hr.
  - left. now apply buy_listing_rejects in H.
  - unfold issuer_create_project in H. cbv zeta in H.
    repeat branch H; injection H as <- <-; try (left; reflexivity);
      try discriminate Hr.
    right. apply negb_false_iff, String.eqb_eq in E0.
    apply orb_false_iff in E2. destruct E2 as [_ E2]. apply Z.leb_gt in E2.
    eexists a, _, _, _, _, _, _, _, _, _, _.
    split; [reflexivity|]. split; [exact E0|]. split; [exact E2|].
    reflexivity.
  - left. unfold issuer_submit_milestone_proof in H. cbv zeta in H.
    repeat branch H; injection H as <- <-; try reflexivity; discriminate Hr.
  - left. unfold admin_update_project_status in H. cbv zeta in H.
    repeat branch H; injection H as <- <-; try reflexivity; discriminate Hr.
Qed.

(** The two outcomes of a request that was not answered 200. *)
Ltac rejected H :=
  let Hc := fresh "Hc" in
  let Hcreate := fresh "Hcreate" in
  destruct (handle_rejects _ _ _ _ H eq_refl) as [->|Hc];
  [|destruct Hc
      as (? & ? & ? & ? & ? & ? & ? & ? & ? & ? & ? & Hcreate & ? & ? & ->);
    try discriminate Hcreate].

(** The other routes commit nothing unless they answer 200. *)
Lemma route_rejects (r : request) (s s' : db) (resp : response) :
  handle r s = (resp, s') -> is_ok resp = false ->
  match r with CreateProject _ _ _ _ _ _ _ _ _ _ => False | _ => True end ->
  s' = s.
Proof.
  intros H Hr Hnc.
  destruct (handle_rejects _ _ _ _ H Hr)
    as [->|(? & ? & ? & ? & ? & ? & ? & ? & ? & ? & ? & -> & _)];
    [reflexivity|contradiction].
Qed.

Lemma invest_ok_project auth project_id amount tx_hash s s' b :
  invest auth project_id amount tx_hash s = (Ok b, s') ->
  exists au p, auth = Some au /\
               get Project.id project_id (projects s) = Some p.
Proof.
  intros H. unfold invest in H. destruct auth as [au|]; [|discriminate H].
  destruct (get Project.id project_id (projects s)) as [p|] eqn:Hp.
  - now exists au, p.
  - destruct (negb _); discriminate H.
Qed.

Lemma buy_ok_listing auth listing_id tx_hash s s' b :
  buy_listing auth listing_id tx_hash s = (Ok b, s') ->
  exists au l, auth = Some au /\
               get MarketplaceListing.id listing_id (listings s) = Some l.
Proof.
  intros H. unfold buy_listing in H. destruct auth as [au|]; [|discriminate H].
  destruct (get MarketplaceListing.id listing_id (listings s)) as [l|] eqn:Hl.
  - now exists au, l.
  - discriminate H.
Qed.

Lemma list_ok_tables auth project_id token_count price_per_token s s' b :
  list_tokens_for_sale auth project_id token_count price_per_token s
    = (Ok b, s') ->
  exists au h,
    auth = Some au /\ 0 < token_count /\ 0 < price_per_token /\
    first (holding_of (user_id au) project_id) (holdings s) = Some h /\
    token_count <= TokenHolding.token_count h /\
    b = ListingCreated (next_id MarketplaceListing.id (listings s)) /\
    s' = set_listings
           (listings s ++
            [MarketplaceListing.mk (next_id MarketplaceListing.id (listings s))
               (user_id au) project_id token_count price_per_token LS_ACTIVE])
           s.
Proof.
  intros H. unfold list_tokens_for_sale in H. cbv zeta in H.
  repeat branch H. injection H as <- <-.
  apply orb_false_iff in E0. destruct E0 as [E0 E0'].
  apply Z.leb_gt in E0, E0'. apply Z.ltb_ge in E2.
  eexists _, _. repeat (split; [eassumption || reflexivity|]). reflexivity.
Qed.

Lemma create_ok_tables auth title category location description
    funding_target token_price roi_percent tenure_months ms s s' b :
  issuer_create_project auth title category location description
    funding_target token_price roi_percent tenure_months ms s = (Ok b, s') ->
  exists project rows,
    projects s' = projects s ++ [project] /\
    0 < Project.token_price project /\
    milestones s' = rows /\
    escrows s' =
      escrows s ++
      [Escrow.mk (next_id Escrow.id (escrows s)) (Project.id project) 0 0] /\
    users s' = users s /\ holdings s' = holdings s /\
    transactions s' = transactions s /\ listings s' = listings s.
Proof.
  intros H. unfold issuer_create_project in H. cbv zeta in H.
  do 6 branch H. injection H as <- <-. db_simpl.
  apply orb_false_iff in E2. destruct E2 as [_ E2]. apply Z.leb_gt in E2.
  eexists _, _. split; [reflexivity|]. split; [exact E2|].
  repeat (split; [reflexivity|]). reflexivity.
Qed.

Lemma submit_ok_tables auth milestone_id proof_url s s' b :
  issuer_submit_milestone_proof auth milestone_id proof_url s = (Ok b, s') ->
  users s' = users s /\ projects s' = projects s /\
  holdings s' = holdings s /\ transactions s' = transactions s /\
  listings s' = listings s.
Proof.
  intros H. unfold issuer_submit_milestone_proof in H. cbv zeta in H.
  repeat branch H; injection H as <- <-; db_simpl;
    repeat (split; [reflexivity|]); reflexivity.
Qed.

Lemma status_ok_tables auth project_id status s s' b :
  admin_update_project_status auth project_id status s = (Ok b, s') ->
  exists st,
    projects s' =
      update_first (fun r => Project.id r =? project_id)
        (Project.set_status st) (projects s) /\
    users s' = users s /\ milestones s' = milestones s /\
    escrows s' = escrows s /\ holdings s' = holdings s /\
    transactions s' = transactions s /\ listings s' = listings s.
Proof.
  intros H. unfold admin_update_project_status in H.
  repeat branch H. injection H as <- <-. db_simpl.
  eexists. repeat (split; [reflexivity|]). reflexivity.
Qed.

(** ** The token-count invariant *)

Lemma invest_sound auth project_id amount tx_hash s s' b :
  invest auth project_id amount tx_hash s = (Ok b, s') ->
  sound_market s -> sound_market s'.
Proof.
  intros H (Hh & Hl).
  destruct (invest_ok_project _ _ _ _ _ _ _ H) as (au & p & -> & Hget).
  destruct (invest_ok_guards _ _ _ _ _ _ _ _ H Hget) as (_ & _ & _ & Ht & _).
  destruct (invest_ok_tables _ _ _ _ _ _ _ _ H Hget)
    as (_ & _ & El & _ & _ & Eh & _).
  split; [|now rewrite El].
  destruct (first (holding_of (user_id au) (Project.id p)) (holdings s))
    as [h|] eqn:Efirst; destruct Eh as (avg & _ & ->).
  - apply Forall_update_first; [exact Hh|].
    intros r _ _. cbn.
    apply first_some in Efirst. destruct Efirst as [Hin _].
    rewrite Forall_forall in Hh. specialize (Hh h Hin). cbn in Hh. lia.
  - apply Forall_app. split; [exact Hh|]. constructor; [cbn; lia|constructor].
Qed.

Lemma buy_sound auth listing_id tx_hash s s' b :
  buy_listing auth listing_id tx_hash s = (Ok b, s') ->
  sound_market s -> sound_market s'.
Proof.
  intros H (Hh & Hl).
  destruct (buy_ok_listing _ _ _ _ _ _ H) as (au & l & -> & Hget).
  destruct (buy_ok_tables _ _ _ _ _ _ _ H Hget)
    as (_ & _ & _ & _ & (sh & Hsh & Hle & Eh) & El & _).
  assert (Hn : 0 < MarketplaceListing.token_count l).
  { apply first_some in Hget. destruct Hget as [Hin _].
    rewrite Forall_forall in Hl. exact (Hl l Hin). }
  cbv zeta in Eh.
  set (hs1 := update_first _ _ (holdings s)) in Eh.
  assert (H1 : Forall (fun h => 0 <= TokenHolding.token_count h) hs1).
  { apply Forall_update_first; [exact Hh|]. intros r _ _. cbn. lia. }
  split.
  - rewrite Eh.
    destruct (first _ hs1) as [bh|] eqn:Eb.
    + apply Forall_update_first; [exact H1|].
      intros r _ _. cbn.
      apply first_some in Eb. destruct Eb as [Hin _].
      rewrite Forall_forall in H1. specialize (H1 bh Hin). cbn in H1. lia.
    + apply Forall_app. split; [exact H1|]. constructor; [cbn; lia|constructor].
  - rewrite El. apply Forall_update_first; [exact Hl|].
    intros r Hin _. rewrite Forall_forall in Hl. exact (Hl r Hin).
Qed.

(** Every route keeps holdings non-negative and listed counts positive. *)
Lemma handle_sound (r : request) (s : db) :
  sound_market s -> sound_market (snd (handle r s)).
Proof.
  intros Hs. destruct (handle r s) as [resp s'] eqn:H. cbn [snd].
  destruct resp as [b|code msg]; [|rejected H; exact Hs].
  destruct r; cbn [handle] in H.
  - now apply (invest_sound _ _ _ _ _ _ _ H).
  - destruct Hs as (Hh & Hl).
    destruct (list_ok_tables _ _ _ _ _ _ _ H)
      as (au & h & _ & Hn & _ & _ & _ & _ & ->).
    split; [exact Hh|]. db_simpl.
    apply Forall_app. split; [exact Hl|]. constructor; [exact Hn|constructor].
  - now apply (buy_sound _ _ _ _ _ _ H).
  - destruct (create_ok_tables _ _ _ _ _ _ _ _ _ _ _ _ _ H)
      as (p & rows & _ & _ & _ & _ & _ & Eh & _ & El).
    unfold sound_market. now rewrite Eh, El.
  - destruct (submit_ok_tables _ _ _ _ _ _ H) as (_ & _ & Eh & _ & El).
    unfold sound_market. now rewrite Eh, El.
  - destruct (status_ok_tables _ _ _ _ _ _ H)
      as (st & _ & _ & _ & _ & Eh & _ & El).
    unfold sound_market. now rewrite Eh, El.
Qed.

(** Every route keeps token prices positive. *)
Lemma handle_prices (r : request) (s : db) :
  positive_prices s -> positive_prices (snd (handle r s)).
Proof.
  unfold positive_prices.
  intros Hp. destruct (handle r s) as [resp s'] eqn:H. cbn [snd].
  destruct resp as [b|code msg].
  2:{ rejected H; [exact Hp|]. db_simpl.
      apply Forall_app. split; [exact Hp|].
      constructor; [assumption|constructor]. }
  assert (Hupd : forall q f,
            (forall x, Project.token_price (f x) = Project.token_price x) ->
            Forall (fun p => 0 < Project.token_price p)
              (update_first q f (projects s))).
  { intros q f Hf. apply Forall_update_first; [exact Hp|].
    intros x Hin _. rewrite Hf. rewrite Forall_forall in Hp. exact (Hp x Hin). }
  destruct r; cbn [handle] in H.
  - destruct (invest_ok_project _ _ _ _ _ _ _ H) as (au & p & -> & Hget).
    destruct (invest_ok_tables _ _ _ _ _ _ _ _ H Hget)
      as (_ & _ & _ & -> & _).
    apply Hupd. reflexivity.
  - destruct (list_ok_tables _ _ _ _ _ _ _ H)
      as (au & h & _ & _ & _ & _ & _ & _ & ->). exact Hp.
  - destruct (buy_ok_listing _ _ _ _ _ _ H) as (au & l & -> & Hget).
    destruct (buy_ok_tables _ _ _ _ _ _ _ H Hget)
      as (_ & _ & _ & _ & _ & _ & _ & _ & -> & _). exact Hp.
  - destruct (create_ok_tables _ _ _ _ _ _ _ _ _ _ _ _ _ H)
      as (p & rows & -> & Hpos & _).
    apply Forall_app. split; [exact Hp|].
    constructor; [exact Hpos|constructor].
  - destruct (submit_ok_tables _ _ _ _ _ _ H) as (_ & -> & _). exact Hp.
  - destruct (status_ok_tables _ _ _ _ _ _ H) as (st & -> & _).
    apply Hupd. reflexivity.
Qed.

(** Every route keeps a well-formed database well-formed. *)
Lemma handle_wf (r : request) (s : db) : wf s -> wf (snd (handle r s)).
Proof.
  intros [Hp Hs]. split; [now apply handle_prices|now apply handle_sound].
Qed.

Lemma reachable_sound (s0 s : db) :
  sound_market s0 -> reachable s0 s -> sound_market s.
Proof.
  intros H0 Hr. induction Hr as [|s r _ IH]; [exact H0|].
  now apply handle_sound.
Qed.

Lemma reachable_wf (s0 s : db) : wf s0 -> reachable s0 s -> wf s.
Proof.
  intros H0 Hr. induction Hr as [|s r _ IH]; [exact H0|].
  now apply handle_wf.
Qed.

Lemma run_reachable (rs : list request) (s0 s : db) :
  reachable s0 s -> reachable s0 (run rs s).
Proof.
  revert s. induction rs as [|r rs IH]; intros s Hs; [exact Hs|].
  cbn. apply IH. now constructor.
Qed.

(** C9. In every state the routes reach from a database whose holdings
    have non-negative token counts (and whose listings, if any, offer
    positive counts, as every listing the route creates does), every holding
    has a non-negative token count. The three routes that read or write
    holdings keep it so: an investment that succeeds issues a positive
    number of tokens, listing tokens for sale writes to no holding, and a
    purchase succeeds only if the seller holds at least the listed count. *)
Theorem token_count_nonneg (s0 s : db) :
  Forall (fun h => 0 <= TokenHolding.token_count h) (holdings s0) ->
  Forall (fun l => 0 < MarketplaceListing.token_count l) (listings s0) ->
  reachable s0 s ->
  Forall (fun h => 0 <= TokenHolding.token_count h) (holdings s) /\
  (forall auth pid amount tx b s',
     invest auth pid amount tx s = (Ok b, s') ->
     exists t, b = Invested tx t /\ 0 < t) /\
  (forall auth pid n q,
     holdings (snd (list_tokens_for_sale auth pid n q s)) = holdings s) /\
  (forall auth lid tx b s' l,
     buy_listing auth lid tx s = (Ok b, s') ->
     get MarketplaceListing.id lid (listings s) = Some l ->
     0 < MarketplaceListing.token_count l <=
     tokens_held (MarketplaceListing.seller_id l)
       (MarketplaceListing.project_id l) s).
Proof.
  intros Hh0 Hl0 Hr.
  pose proof (reachable_sound _ _ (conj Hh0 Hl0) Hr) as Hwf.
  split; [apply Hwf|]. split; [|split].
  - intros auth pid amount tx b s' H.
    destruct (invest_ok_project _ _ _ _ _ _ _ H) as (au & p & -> & Hp).
    destruct (invest_ok_guards _ _ _ _ _ _ _ _ H Hp) as (_ & _ & _ & Ht & ->).
    eexists. split; [reflexivity|exact Ht].
  - intros auth pid n q.
    destruct (list_tokens_for_sale auth pid n q s) as [resp s'] eqn:H.
    destruct resp as [b|code msg]; cbn [snd].
    + destruct (list_ok_tables _ _ _ _ _ _ _ H)
        as (au & h & _ & _ & _ & _ & _ & _ & ->). reflexivity.
    + now rewrite (route_rejects (ListTokens auth pid n q) _ _ _ H eq_refl I).
  - intros auth lid tx b s' l H Hl.
    destruct (buy_ok_listing _ _ _ _ _ _ H) as (au & l' & -> & Hl').
    rewrite Hl in Hl'. injection Hl' as <-.
    destruct (buy_ok_tables _ _ _ _ _ _ _ H Hl)
      as (_ & _ & _ & _ & (sh & Hsh & Hle & _) & _).
    unfold tokens_held. rewrite Hsh. split; [|exact Hle].
    destruct Hwf as (_ & Hls). apply first_some in Hl.
    rewrite Forall_forall in Hls. exact (Hls l (proj1 Hl)).
Qed.

Lemma token_count_nonneg_witness :
  Forall (fun h => 0 <= TokenHolding.token_count h)
    (holdings Sample.market1).
Proof.
  apply (token_count_nonneg Sample.market0 Sample.market1).
  - repeat constructor. discriminate.
  - constructor.
  - apply run_reachable. constructor.
Defined.

(** ** Listings are sold once *)

Lemma get_update_first_same {A : Type} (key : A -> Z) k f rows r :
  get key k rows = Some r -> key (f r) = key r ->
  get key k (update_first (fun x => key x =? k) f rows) = Some (f r).
Proof.
  intros H Hk. unfold get. apply first_update_first; [exact H|].
  rewrite Hk. exact (proj2 (first_some _ _ _ H)).
Qed.

Lemma get_update_first_other {A : Type} (key : A -> Z) k k' f rows :
  k <> k' -> (forall r, key (f r) = key r) ->
  get key k (update_first (fun x => key x =? k') f rows) = get key k rows.
Proof.
  intros Hne Hk. unfold get.
  destruct (first (fun x => key x =? k') rows) as [r|] eqn:E.
  - pose proof (proj2 (first_some _ _ _ E)) as Hr. apply Z.eqb_eq in Hr.
    apply (first_update_first_other _ _ _ _ _ E).
    + apply Z.eqb_neq. congruence.
    + rewrite Hk. apply Z.eqb_neq. congruence.
  - now rewrite update_first_none.
Qed.

Lemma get_app_some {A : Type} (key : A -> Z) k rows more r :
  get key k rows = Some r -> get key k (rows ++ more) = Some r.
Proof. intros H. unfold get in *. now rewrite first_app, H. Qed.

(** No route changes a listing that is sold. *)
Lemma handle_keeps_sold (r : request) (s : db) (lid : Z)
    (l : MarketplaceListing.t) :
  get MarketplaceListing.id lid (listings s) = Some l ->
  MarketplaceListing.status l = SOLD ->
  get MarketplaceListing.id lid (listings (snd (handle r s))) = Some l.
Proof.
  intros Hl Hsold. destruct (handle r s) as [resp s'] eqn:H. cbn [snd].
  destruct resp as [b|code msg]; [|rejected H; exact Hl].
  destruct r; cbn [handle] in H.
  - destruct (invest_ok_project _ _ _ _ _ _ _ H) as (au & p & -> & Hp).
    destruct (invest_ok_tables _ _ _ _ _ _ _ _ H Hp) as (_ & _ & -> & _).
    exact Hl.
  - destruct (list_ok_tables _ _ _ _ _ _ _ H)
      as (au & h & _ & _ & _ & _ & _ & _ & ->).
    db_simpl. now apply get_app_some.
  - destruct (buy_ok_listing _ _ _ _ _ _ H) as (au & l' & -> & Hl').
    destruct (buy_ok_tables _ _ _ _ _ _ _ H Hl')
      as (Hact & _ & _ & _ & _ & -> & _).
    destruct (Z.eq_dec lid listing_id) as [->|Hne].
    + rewrite Hl in Hl'. injection Hl' as <-. congruence.
    + rewrite get_update_first_other; auto.
  - destruct (create_ok_tables _ _ _ _ _ _ _ _ _ _ _ _ _ H)
      as (p & rows & _ & _ & _ & _ & _ & _ & _ & ->). exact Hl.
  - destruct (submit_ok_tables _ _ _ _ _ _ H) as (_ & _ & _ & _ & ->).
    exact Hl.
  - destruct (status_ok_tables _ _ _ _ _ _ H)
      as (st & _ & _ & _ & _ & _ & _ & ->). exact Hl.
Qed.

Lemma reachable_keeps_sold (s0 s : db) (lid : Z) (l : MarketplaceListing.t) :
  get MarketplaceListing.id lid (listings s0) = Some l ->
  MarketplaceListing.status l = SOLD ->
  reachable s0 s ->
  get MarketplaceListing.id lid (listings s) = Some l.
Proof.
  intros Hl Hsold Hr. induction Hr as [|s r _ IH]; [exact Hl|].
  now apply handle_keeps_sold.
Qed.

Lemma buy_listing_unavailable (au : auth_user) (lid : Z) (tx : string)
    (s : db) (l : MarketplaceListing.t) :
  get MarketplaceListing.id lid (listings s) = Some l ->
  MarketplaceListing.status l <> LS_ACTIVE ->
  buy_listing (Some au) lid tx s = (Err 400 "Listing not available", s).
Proof.
  intros Hl Hst. unfold buy_listing. rewrite Hl.
  destruct (listing_status_eqb (MarketplaceListing.status l) LS_ACTIVE) eqn:E;
    [|reflexivity].
  now apply listing_status_eqb_eq in E.
Qed.

(** C7. A purchase of a listing that is not ACTIVE is answered 400
    "Listing not available" and changes nothing. A purchase succeeds only
    on an ACTIVE listing and leaves it SOLD. No request to any route
    changes a SOLD listing (there is no route that cancels or reopens one).
    Hence once a purchase of a listing has succeeded, every later purchase
    of it, in any state the routes reach afterwards, is refused. *)
Theorem listing_sold_once :
  (forall au lid tx s l,
     get MarketplaceListing.id lid (listings s) = Some l ->
     MarketplaceListing.status l <> LS_ACTIVE ->
     buy_listing (Some au) lid tx s = (Err 400 "Listing not available", s)) /\
  (forall au lid tx s s' b l,
     buy_listing (Some au) lid tx s = (Ok b, s') ->
     get MarketplaceListing.id lid (listings s) = Some l ->
     MarketplaceListing.status l = LS_ACTIVE /\
     get MarketplaceListing.id lid (listings s') =
       Some (MarketplaceListing.set_status SOLD l)) /\
  (forall r s lid l,
     get MarketplaceListing.id lid (listings s) = Some l ->
     MarketplaceListing.status l = SOLD ->
     get MarketplaceListing.id lid (listings (snd (handle r s))) = Some l) /\
  (forall auth lid tx s s' b,
     buy_listing auth lid tx s = (Ok b, s') ->
     forall s'', reachable s' s'' ->
     forall auth' tx',
       is_ok (fst (buy_listing auth' lid tx' s'')) = false /\
       snd (buy_listing auth' lid tx' s'') = s'').
Proof.
  assert (Hbuy : forall au lid tx s s' b l,
            buy_listing (Some au) lid tx s = (Ok b, s') ->
            get MarketplaceListing.id lid (listings s) = Some l ->
            MarketplaceListing.status l = LS_ACTIVE /\
            get MarketplaceListing.id lid (listings s') =
              Some (MarketplaceListing.set_status SOLD l)).
  { intros au lid tx s s' b l H Hl.
    destruct (buy_ok_tables _ _ _ _ _ _ _ H Hl)
      as (Hact & _ & _ & _ & _ & El & _).
    split; [exact Hact|]. rewrite El. now apply get_update_first_same. }
  split; [exact buy_listing_unavailable|]. split; [exact Hbuy|].
  split; [intros r s lid l; apply handle_keeps_sold|].
  intros auth lid tx s s' b H s'' Hr auth' tx'.
  destruct (buy_ok_listing _ _ _ _ _ _ H) as (au & l & -> & Hl).
  destruct (Hbuy _ _ _ _ _ _ _ H Hl) as [_ Hsold].
  pose proof (reachable_keeps_sold _ _ _ _ Hsold eq_refl Hr) as Hl''.
  destruct auth' as [au'|]; [|split; reflexivity].
  rewrite (buy_listing_unavailable _ _ tx' _ _ Hl''); [|discriminate].
  split; reflexivity.
Qed.

Lemma listing_sold_once_witness :
  let s' := snd (buy_listing Sample.second 2 "0xb1" Sample.s0) in
  let s'' := run [Invest Sample.investor 1 500 "0xa3"] s' in
  buy_listing Sample.newcomer 2 "0xb3" s'' =
    (Err 400 "Listing not available", s'') /\
  is_ok (fst (buy_listing Sample.second 2 "0xb4" s'')) = false.
Proof.
  intros s' s''.
  destruct listing_sold_once as (Hna & Hbuy & _ & Honce).
  assert (Hsold : get MarketplaceListing.id 2 (listings s'') =
                  Some (MarketplaceListing.mk 2 3 1 10 120 SOLD))
    by reflexivity.
  split.
  - apply (Hna (mkauth 5 "INVESTOR") 2 "0xb3"%string s'' _ Hsold).
    discriminate.
  - apply (Honce Sample.second 2 "0xb1"%string Sample.s0 s' (Purchased "0xb1")
             eq_refl s'' (run_reachable _ _ _ (reach_init _))).
Defined.

(** Buying a listing that is already SOLD: the case of the sample
    database's listing 3. *)
Example buy_sold_listing :
  buy_listing Sample.second 3 "0xb4" Sample.s0 =
  (Err 400 "Listing not available", Sample.s0).
Proof. reflexivity. Qed.

(** ** Listing does not look at the project *)

Lemma next_id_gt {A : Type} (key : A -> Z) rows r :
  In r rows -> key r < next_id key rows.
Proof.
  unfold next_id. induction rows as [|x rows IH]; cbn [In map fold_right];
    [tauto|].
  intros [->|H]; [lia|]. specialize (IH H). lia.
Qed.

Lemma get_next_id {A : Type} (key : A -> Z) rows :
  get key (next_id key rows) rows = None.
Proof.
  unfold get, first.
  destruct (find _ rows) as [r|] eqn:E; [|reflexivity].
  apply find_some in E. destruct E as [Hin E]. apply Z.eqb_eq in E.
  pose proof (next_id_gt key rows r Hin). lia.
Qed.

Lemma view_rows_active_project (s : db) (v : listing_view) :
  In v (view_rows s) ->
  exists p, get Project.id (v_project_id v) (projects s) = Some p /\
            Project.status p = ACTIVE.
Proof.
  unfold view_rows, marketplace_listings. intros H.
  apply in_flat_map in H. destruct H as (l & _ & H).
  destruct (get Project.id _ (projects s)) as [p|] eqn:Hp; [|destruct H].
  destruct (get User.id _ (users s)); [|destruct H].
  destruct (project_status_eqb (Project.status p) ACTIVE) eqn:E;
    cbn [negb] in H; [|destruct H].
  destruct H as [<-|[]]. cbn [v_project_id].
  rewrite (get_key _ _ _ _ Hp). exists p. split; [exact Hp|].
  now apply project_status_eqb_eq.
Qed.

(** C10. [list_tokens_for_sale] consults the seller's holding and nothing
    else: whenever the caller holds at least [n > 0] tokens under project
    id [pid] and names a price [q > 0], and [pid], [n] and [q] fit the
    64-bit Integer columns, an ACTIVE listing is created, whatever the
    catalog says about [pid]; when one of them does not fit, the request
    is answered 500 and nothing is written. The project is looked at
    later: a purchase of that listing by another user is answered 404
    "Project not found" when the project is missing and 400 "Project not
    active" when it is not ACTIVE, and the active-listings view only shows
    listings of existing ACTIVE projects. *)
Theorem listing_ignores_project (au : auth_user) (pid n q : Z) (s : db)
    (h : TokenHolding.t) :
  0 < n -> 0 < q ->
  first (holding_of (user_id au) pid) (holdings s) = Some h ->
  n <= TokenHolding.token_count h ->
  let lid := next_id MarketplaceListing.id (listings s) in
  let l := MarketplaceListing.mk lid (user_id au) pid n q LS_ACTIVE in
  let s' := set_listings (listings s ++ [l]) s in
  (- 2 ^ 63 <= pid < 2 ^ 63 -> n < 2 ^ 63 -> q < 2 ^ 63 ->
   list_tokens_for_sale (Some au) pid n q s = (Ok (ListingCreated lid), s') /\
   get MarketplaceListing.id lid (listings s') = Some l /\
   (forall buyer tx,
      user_id buyer <> user_id au ->
      match get Project.id pid (projects s) with
      | None =>
          buy_listing (Some buyer) lid tx s' =
          (Err 404 "Project not found", s')
      | Some p =>
          Project.status p <> ACTIVE ->
          buy_listing (Some buyer) lid tx s' =
          (Err 400 "Project not active", s')
      end) /\
   (forall v, In v (view_rows s') ->
      exists p, get Project.id (v_project_id v) (projects s) = Some p /\
                Project.status p = ACTIVE)) /\
  (~ (- 2 ^ 63 <= pid < 2 ^ 63 /\ n < 2 ^ 63 /\ q < 2 ^ 63) ->
   list_tokens_for_sale (Some au) pid n q s =
   (Err 500 "Internal Server Error", s)).
Proof.
  intros Hn Hq Hh Hle lid l s'.
  assert (Hrun : list_tokens_for_sale (Some au) pid n q s =
                 if int64 pid && int64 n && int64 q
                 then (Ok (ListingCreated lid), s') else (internal_error, s)).
  { unfold list_tokens_for_sale. rewrite Hh.
    apply Z.leb_gt in Hn, Hq. rewrite Hn, Hq. cbn [orb].
    apply Z.ltb_ge in Hle. now rewrite Hle. }
  split.
  2:{ intros Hno. rewrite Hrun.
      destruct (int64 pid && int64 n && int64 q) eqn:E; [|reflexivity].
      exfalso. apply Hno.
      apply andb_prop in E. destruct E as [E Eq].
      apply andb_prop in E. destruct E as [Ep En].
      apply int64_spec in Ep, En, Eq. lia. }
  intros Hpid Hn63 Hq63.
  assert (Hget : get MarketplaceListing.id lid (listings s') = Some l).
  { subst s'. db_simpl. unfold get. rewrite first_app.
    fold (get MarketplaceListing.id lid (listings s)).
    subst lid. rewrite get_next_id. cbn. now rewrite Z.eqb_refl. }
  split; [|split; [exact Hget|split]].
  - rewrite Hrun.
    rewrite (proj2 (int64_spec pid)), (proj2 (int64_spec n)),
      (proj2 (int64_spec q)) by lia.
    reflexivity.
  - intros buyer tx Hne. unfold buy_listing. rewrite Hget.
    apply Z.eqb_neq in Hne. subst l. cbv zeta.
    cbn [MarketplaceListing.status MarketplaceListing.seller_id
         MarketplaceListing.project_id listing_status_eqb negb].
    rewrite Hne. change (projects s') with (projects s).
    destruct (get Project.id pid (projects s)) as [p|]; [|reflexivity].
    intros Hst.
    destruct (project_status_eqb (Project.status p) ACTIVE) eqn:E;
      [|reflexivity].
    now apply project_status_eqb_eq in E.
  - intros v Hv. exact (view_rows_active_project s' v Hv).
Qed.

Lemma listing_ignores_project_witness :
  let s' := snd (list_tokens_for_sale Sample.investor 1 10 50 Sample.frozen) in
  option_map Project.status (get Project.id 1 (projects Sample.frozen)) =
    Some FROZEN /\
  fst (list_tokens_for_sale Sample.investor 1 10 50 Sample.frozen) =
    Ok (ListingCreated 4) /\
  buy_listing Sample.second 4 "0xb5" s' = (Err 400 "Project not active", s').
Proof.
  intros s'.
  destruct (listing_ignores_project (mkauth 3 "INVESTOR") 1 10 50
              Sample.frozen (TokenHolding.mk 1 3 1 30 (Py.of_int 100))
              eq_refl eq_refl eq_refl ltac:(discriminate))
    as (Hok & _).
  destruct (Hok ltac:(lia) ltac:(lia) ltac:(lia)) as (Hlist & _ & Hbuy & _).
  split; [reflexivity|]. split; [exact (f_equal fst Hlist)|].
  specialize (Hbuy (mkauth 4 "INVESTOR") "0xb5"%string ltac:(discriminate)).
  cbv beta iota in Hbuy.
  exact (Hbuy ltac:(discriminate)).
Defined.

(** User 3 holds 50 tokens of project 1 and lists 10 of them at a price of
    2^63: the count is covered and the price is positive, and the request
    is answered 500 with no listing created. *)
Lemma listing_ignores_project_counterexample :
  tokens_held 3 1 Sample.market0 = 50 /\
  0 < 2 ^ 63 /\
  list_tokens_for_sale Sample.investor 1 10 (2 ^ 63) Sample.market0 =
  (Err 500 "Internal Server Error", Sample.market0).
Proof.
  split; [reflexivity|]. split; [reflexivity|]. vm_compute. reflexivity.
Qed.

(** ** Milestone proofs *)

Lemma submit_reaches_milestone (au : auth_user) (mid : Z) (url : string)
    (s : db) (m : Milestone.t) (p : Project.t) :
  role au = "ISSUER"%string ->
  get Milestone.id mid (milestones s) = Some m ->
  get Project.id (Milestone.project_id m) (projects s) = Some p ->
  Project.issuer_id p = Some (user_id au) ->
  url <> ""%string ->
  issuer_submit_milestone_proof (Some au) mid url s =
  match Milestone.status m with
  | COMPLETED => (Ok AlreadyCompleted, s)
  | MS_PENDING =>
      let pid := Project.id p in
      let s1 :=
        set_milestones
          (update_first (fun r => Milestone.id r =? mid)
             (Milestone.complete url) (milestones s)) s in
      let '(escrow, rows) :=
        match first (escrow_of pid) (escrows s) with
        | None =>
            let e := Escrow.mk (next_id Escrow.id (escrows s)) pid 0 0 in
            (e, escrows s ++ [e])
        | Some e => (e, escrows s)
        end in
      match
        match Py.int_truediv
                (Escrow.total_locked escrow
                 * Milestone.escrow_release_percent m) 100 with
        | Some x => Py.to_int x
        | None => None
        end
      with
      | None => (internal_error, s)
      | Some amount =>
          let release_amount :=
            if amount >? Escrow.total_locked escrow
            then Escrow.total_locked escrow else amount in
          if int64 (Escrow.total_locked escrow - release_amount)
             && int64 (Escrow.total_released escrow + release_amount)
          then (Ok (Released release_amount url),
                set_escrows
                  (update_first (escrow_of pid)
                     (fun r =>
                        Escrow.set_total_released
                          (Escrow.total_released escrow + release_amount)
                          (Escrow.set_total_locked
                             (Escrow.total_locked escrow - release_amount)
                             r))
                     rows) s1)
          else (internal_error, s)
      end
  end.
Proof.
  intros Hrole Hm Hp Hown Hurl. unfold issuer_submit_milestone_proof.
  rewrite Hm, Hp, Hrole, Hown, Z.eqb_refl, String.eqb_refl.
  apply String.eqb_neq in Hurl. rewrite Hurl. cbn [negb]. reflexivity.
Qed.

(** C8. A proof submitted by the owning issuer for a milestone that is
    already COMPLETED is answered 200 "Already completed", and the database
    after the request is the database before it: the milestone, its proof
    reference and both escrow totals are what they were. *)
Theorem resubmit_completed (au : auth_user) (mid : Z) (url : string)
    (s : db) (m : Milestone.t) (p : Project.t) :
  role au = "ISSUER"%string ->
  get Milestone.id mid (milestones s) = Some m ->
  Milestone.status m = COMPLETED ->
  get Project.id (Milestone.project_id m) (projects s) = Some p ->
  Project.issuer_id p = Some (user_id au) ->
  url <> ""%string ->
  issuer_submit_milestone_proof (Some au) mid url s = (Ok AlreadyCompleted, s).
Proof.
  intros Hrole Hm Hst Hp Hown Hurl.
  rewrite (submit_reaches_milestone _ _ _ _ _ _ Hrole Hm Hp Hown Hurl).
  now rewrite Hst.
Qed.

Lemma resubmit_completed_witness :
  issuer_submit_milestone_proof Sample.issuer 2 "/uploads/b.pdf" Sample.s0 =
  (Ok AlreadyCompleted, Sample.s0).
Proof.
  apply (resubmit_completed (mkauth 2 "ISSUER") 2 "/uploads/b.pdf" Sample.s0
           (Milestone.mk 2 1 "Construction Started" 20 COMPLETED
              "/uploads/a.pdf")
           Sample.road eq_refl eq_refl eq_refl eq_refl eq_refl).
  discriminate.
Defined.

(** ** Escrow release *)

(** C2, as amended. When the owning issuer's proof completes a PENDING
    milestone of percent [p] on a project whose escrow row has
    [total_locked = L], the amount released is
    [int((L * p) / 100)], the binary64 quotient truncated, lowered to [L]
    if it exceeds [L]; [total_locked] decreases and [total_released]
    increases by exactly that amount, and [total_locked] stays non-negative
    if it was. The percent applies to the [total_locked] found at the time
    of the request. For [L >= 0], [0 <= p <= 100] and [L * p < 2 ^ 53] the
    amount is [floor(L * p / 100)], which needs no lowering, and the
    request succeeds when the two new totals fit the 64-bit Integer
    columns. *)
Theorem escrow_release (au : auth_user) (mid : Z) (url : string) (s : db)
    (m : Milestone.t) (p : Project.t) (e : Escrow.t) :
  role au = "ISSUER"%string ->
  get Milestone.id mid (milestones s) = Some m ->
  Milestone.status m = MS_PENDING ->
  get Project.id (Milestone.project_id m) (projects s) = Some p ->
  Project.issuer_id p = Some (user_id au) ->
  url <> ""%string ->
  first (escrow_of (Project.id p)) (escrows s) = Some e ->
  let L := Escrow.total_locked e in
  let pct := Milestone.escrow_release_percent m in
  (forall b s',
     issuer_submit_milestone_proof (Some au) mid url s = (Ok b, s') ->
     exists x amount,
       Py.int_truediv (L * pct) 100 = Some x /\ Py.to_int x = Some amount /\
       let r := if amount >? L then L else amount in
       b = Released r url /\ r <= L /\ (0 <= L -> 0 <= L - r) /\
       modifies (escrows s) e
         (Escrow.mk (Escrow.id e) (Escrow.project_id e) (L - r)
            (Escrow.total_released e + r))
         (escrows s') /\
       modifies (milestones s) m (Milestone.complete url m) (milestones s')) /\
  (0 <= L -> 0 <= pct <= 100 -> L * pct < 2 ^ 53 ->
   L * pct / 100 <= L /\
   (forall b s',
      issuer_submit_milestone_proof (Some au) mid url s = (Ok b, s') ->
      b = Released (L * pct / 100) url) /\
   (L < 2 ^ 63 ->
    - 2 ^ 63 <= Escrow.total_released e + L * pct / 100 < 2 ^ 63 ->
    exists s',
      issuer_submit_milestone_proof (Some au) mid url s =
      (Ok (Released (L * pct / 100) url), s'))).
Proof.
  intros Hrole Hm Hst Hp Hown Hurl He L pct.
  pose proof (submit_reaches_milestone _ _ _ _ _ _ Hrole Hm Hp Hown Hurl) as H.
  cbv zeta in H. rewrite Hst, He in H. cbv iota beta in H. fold L pct in H.
  split.
  - intros b s' Hrun. rewrite H in Hrun.
    destruct (Py.int_truediv (L * pct) 100) as [x|]; [|discriminate Hrun].
    destruct (Py.to_int x) as [amount|] eqn:Ex; [|discriminate Hrun].
    branch Hrun.
    injection Hrun as <- <-. exists x, amount.
    split; [reflexivity|]. split; [exact Ex|]. cbv zeta. db_simpl.
    split; [reflexivity|].
    assert (Hr : (if amount >? L then L else amount) <= L).
    { destruct (amount >? L) eqn:E'; [lia|].
      rewrite Z.gtb_ltb in E'. apply Z.ltb_ge in E'. exact E'. }
    split; [exact Hr|]. split; [lia|]. split.
    + exact (update_first_modifies _
               (fun r => Escrow.set_total_released _
                           (Escrow.set_total_locked _ r)) _ _ He).
    + now apply update_first_modifies.
  - intros HL Hpct Hrange.
    assert (Hle : L * pct / 100 <= L).
    { apply Z.div_le_upper_bound; nia. }
    split; [exact Hle|].
    destruct (int_truediv_100_floor (L * pct) ltac:(nia)) as (x & Hx & Hi).
    rewrite H, Hx, Hi.
    assert (E : (L * pct / 100 >? L) = false).
    { rewrite Z.gtb_ltb. apply Z.ltb_ge. exact Hle. }
    rewrite E. split.
    + intros b s' Hrun. branch Hrun. now injection Hrun as <- _.
    + intros HL63 HR.
      assert (H0 : 0 <= L * pct / 100) by (apply Z.div_pos; nia).
      rewrite (proj2 (int64_spec (L - L * pct / 100))) by lia.
      fold (Escrow.total_released e).
      rewrite (proj2 (int64_spec _) HR).
      eexists. reflexivity.
Qed.

Lemma escrow_release_witness :
  1000 * 20 / 100 <= 1000 /\
  exists s',
    issuer_submit_milestone_proof Sample.issuer 1 "/uploads/c.pdf" Sample.s0 =
    (Ok (Released (1000 * 20 / 100) "/uploads/c.pdf"), s').
Proof.
  destruct (proj2 (escrow_release (mkauth 2 "ISSUER") 1 "/uploads/c.pdf"
                     Sample.s0
                     (Milestone.mk 1 1 "Tender Approved" 20 MS_PENDING "")
                     Sample.road (Escrow.mk 1 1 1000 0)
                     eq_refl eq_refl eq_refl eq_refl eq_refl
                     ltac:(discriminate) eq_refl)
              ltac:(discriminate) ltac:(split; discriminate) eq_refl)
    as (Hle & _ & Hrun).
  split; [exact Hle|]. apply Hrun.
  - reflexivity.
  - split; [discriminate|reflexivity].
Defined.

(** The scenario of the specification: 1000 locked, a 20% milestone. *)
Example release_scenario :
  let r := issuer_submit_milestone_proof Sample.issuer 1 "/uploads/c.pdf"
             Sample.s0 in
  fst r = Ok (Released 200 "/uploads/c.pdf") /\
  escrows (snd r) = [Escrow.mk 1 1 800 200].
Proof. split; reflexivity. Qed.

(** C2 as stated fails where the binary64 quotient is not the exact one:
    with [2 ^ 53 + 1] locked and a 100% milestone, [floor(L * p / 100)] is
    [L], but the route releases [2 ^ 53] and leaves 1 locked. *)
Lemma escrow_release_counterexample :
  issuer_submit_milestone_proof Sample.issuer 1 "/uploads/c.pdf" large_escrow =
    (Ok (Released (2 ^ 53) "/uploads/c.pdf"),
     set_escrows [Escrow.mk 1 1 1 (2 ^ 53)]
       (set_milestones
          [Milestone.mk 1 1 "Audit & Completion Report" 100 COMPLETED
             "/uploads/c.pdf"] large_escrow)) /\
  (2 ^ 53 + 1) * 100 / 100 = 2 ^ 53 + 1 /\
  2 ^ 53 <> (2 ^ 53 + 1) * 100 / 100.
Proof. split; [vm_compute; reflexivity|]. split; [reflexivity|discriminate]. Qed.

(** ** Cost basis of a holding *)

Lemma invest_existing_holding (au : auth_user) (pid amount : Z)
    (tx : string) (s s' : db) (b : body) (p : Project.t)
    (h : TokenHolding.t) :
  invest (Some au) pid amount tx s = (Ok b, s') ->
  get Project.id pid (projects s) = Some p ->
  first (holding_of (user_id au) pid) (holdings s) = Some h ->
  let t := amount / Project.token_price p in
  let c := TokenHolding.token_count h in
  exists h',
    first (holding_of (user_id au) pid) (holdings s') = Some h' /\
    TokenHolding.token_count h' = c + t /\
    TokenHolding.avg_buy_price h' =
      Py.div
        (Py.add (Py.mul (Py.of_int c) (TokenHolding.avg_buy_price h))
           (Py.of_int (t * Project.token_price p)))
        (Py.of_int (c + t)).
Proof.
  intros Hrun Hp Hh t c.
  destruct (invest_ok_tables _ _ _ _ _ _ _ _ Hrun Hp)
    as (_ & _ & _ & _ & _ & Hhs & _).
  rewrite (get_key _ _ _ _ Hp), Hh in Hhs.
  destruct Hhs as (avg & Havg & Hhs). fold t c in Havg, Hhs.
  unfold Py.truediv in Havg.
  destruct (c + t =? 0); [discriminate Havg|]. injection Havg as <-.
  eexists. split.
  - rewrite Hhs. apply first_update_first; [exact Hh|].
    exact (proj2 (first_some _ _ _ Hh)).
  - split; reflexivity.
Qed.

Lemma invest_new_holding (au : auth_user) (pid amount : Z)
    (tx : string) (s s' : db) (b : body) (p : Project.t) :
  invest (Some au) pid amount tx s = (Ok b, s') ->
  get Project.id pid (projects s) = Some p ->
  first (holding_of (user_id au) pid) (holdings s) = None ->
  let t := amount / Project.token_price p in
  0 < t /\
  exists h' avg,
    Py.int_truediv (t * Project.token_price p) t = Some avg /\
    first (holding_of (user_id au) pid) (holdings s') = Some h' /\
    TokenHolding.token_count h' = t /\
    TokenHolding.avg_buy_price h' = avg.
Proof.
  intros Hrun Hp Hh t.
  destruct (invest_ok_guards _ _ _ _ _ _ _ _ Hrun Hp) as (_ & _ & _ & Ht & _).
  destruct (invest_ok_tables _ _ _ _ _ _ _ _ Hrun Hp)
    as (_ & _ & _ & _ & _ & Hhs & _).
  rewrite (get_key _ _ _ _ Hp), Hh in Hhs.
  destruct Hhs as (avg & Havg & Hhs). fold t in Havg, Hhs.
  split; [exact Ht|]. eexists _, avg. split; [exact Havg|]. split.
  - rewrite Hhs, first_app, Hh. cbn [first find].
    unfold holding_of. cbn [TokenHolding.user_id TokenHolding.project_id].
    rewrite !Z.eqb_refl. reflexivity.
  - split; reflexivity.
Qed.

(** C3, as amended. A successful investment that mints [t] tokens at token
    price [P] into a holding of [c] tokens at average [a] leaves the holding
    with [c + t] tokens and [avg_buy_price = (c * a + t * P) / (c + t)],
    the expression being evaluated in binary64, each operation rounded to
    nearest. After two mints of [(t1, p1)] and then [(t2, p2)] into a
    holding that did not exist, the holding has [t1 + t2] tokens and
    [avg_buy_price] is the binary64 quotient of [t1 * p1 + t2 * p2] by
    [t1 + t2], provided [t1 * p1 + t2 * p2 < 2 ^ 53]. *)
Theorem invest_weighted_average :
  (forall au pid amount tx s s' b p h,
     invest (Some au) pid amount tx s = (Ok b, s') ->
     get Project.id pid (projects s) = Some p ->
     first (holding_of (user_id au) pid) (holdings s) = Some h ->
     let t := amount / Project.token_price p in
     let c := TokenHolding.token_count h in
     exists h',
       first (holding_of (user_id au) pid) (holdings s') = Some h' /\
       TokenHolding.token_count h' = c + t /\
       TokenHolding.avg_buy_price h' =
         Py.div
           (Py.add (Py.mul (Py.of_int c) (TokenHolding.avg_buy_price h))
              (Py.of_int (t * Project.token_price p)))
           (Py.of_int (c + t))) /\
  (forall au pid amount1 amount2 tx1 tx2 s s1 s2 s3 b1 b2 pa pb,
     first (holding_of (user_id au) pid) (holdings s) = None ->
     get Project.id pid (projects s) = Some pa ->
     invest (Some au) pid amount1 tx1 s = (Ok b1, s1) ->
     holdings s2 = holdings s1 ->
     get Project.id pid (projects s2) = Some pb ->
     invest (Some au) pid amount2 tx2 s2 = (Ok b2, s3) ->
     let p1 := Project.token_price pa in
     let t1 := amount1 / p1 in
     let p2 := Project.token_price pb in
     let t2 := amount2 / p2 in
     0 < p1 -> 0 < p2 -> t1 * p1 + t2 * p2 < 2 ^ 53 ->
     exists h',
       first (holding_of (user_id au) pid) (holdings s3) = Some h' /\
       TokenHolding.token_count h' = t1 + t2 /\
       TokenHolding.avg_buy_price h' =
         Py.div (Py.of_int (t1 * p1 + t2 * p2)) (Py.of_int (t1 + t2))).
Proof.
  split; [exact invest_existing_holding|].
  intros au pid amount1 amount2 tx1 tx2 s s1 s2 s3 b1 b2 pa pb
    Hnone Hpa Hrun1 Hsame Hpb Hrun2 p1 t1 p2 t2 Hp1 Hp2 Hrange.
  destruct (invest_new_holding _ _ _ _ _ _ _ _ Hrun1 Hpa Hnone)
    as (Ht1 & h1 & avg1 & Havg1 & Hh1 & Hc1 & Ha1).
  fold p1 t1 in Ht1, Havg1, Hc1.
  destruct (invest_ok_guards _ _ _ _ _ _ _ _ Hrun2 Hpb)
    as (_ & _ & _ & Ht2 & _).
  fold p2 t2 in Ht2.
  assert (H1 : 0 < t1 * p1) by nia. assert (H2 : 0 < t2 * p2) by nia.
  rewrite int_truediv_exact in Havg1 by lia. injection Havg1 as <-.
  rewrite <- Hsame in Hh1.
  destruct (invest_existing_holding _ _ _ _ _ _ _ _ _ Hrun2 Hpb Hh1)
    as (h' & Hh' & Hc' & Ha').
  fold p2 t2 in Hc', Ha'. rewrite Hc1 in Hc', Ha'. rewrite Ha1 in Ha'.
  exists h'. split; [exact Hh'|]. split; [exact Hc'|].
  rewrite Ha', mul_exact, add_exact by lia. reflexivity.
Qed.

Lemma invest_weighted_average_witness :
  let s1 := snd (invest Sample.newcomer 1 250 "0xa4" Sample.s0) in
  let s3 := snd (invest Sample.newcomer 1 300 "0xa5" s1) in
  exists h',
    first (holding_of 5 1) (holdings s3) = Some h' /\
    TokenHolding.token_count h' = 250 / 100 + 300 / 100 /\
    TokenHolding.avg_buy_price h' =
      Py.div (Py.of_int (250 / 100 * 100 + 300 / 100 * 100))
        (Py.of_int (250 / 100 + 300 / 100)).
Proof.
  intros s1 s3.
  apply (proj2 invest_weighted_average (mkauth 5 "INVESTOR") 1 250 300
           "0xa4"%string "0xa5"%string Sample.s0 s1 s1 s3
           (Invested "0xa4" 2) (Invested "0xa5" 3)
           (Project.set_funding_raised 1250000 Sample.road)
           (Project.set_funding_raised 1250250 Sample.road)
           eq_refl eq_refl eq_refl eq_refl eq_refl eq_refl
           eq_refl eq_refl eq_refl).
Defined.

(** C3 as stated fails where a product is not a binary64 value: in a
    project of token price 1, after mints of [2 ^ 53 + 1] tokens and of
    1 token into a holding that did not exist, the formula gives
    (2^53 + 2) / (2^53 + 2) = 1.0, but the holding's [avg_buy_price] is
    0.9999999999999998, that is (2^53 - 2) * 2^-53. *)
Lemma invest_weighted_average_counterexample :
  let s3 := run [Invest Sample.investor 1 (2 ^ 53 + 1) "0xa6";
                 Invest Sample.investor 1 1 "0xa7"] unit_price in
  option_map (fun h => (TokenHolding.token_count h,
                        TokenHolding.avg_buy_price h))
    (first (holding_of 3 1) (holdings s3)) =
    Some (2 ^ 53 + 2, S754_finite false 9007199254740990 (-53)) /\
  Py.div (Py.of_int ((2 ^ 53 + 1) * 1 + 1 * 1)) (Py.of_int (2 ^ 53 + 1 + 1)) =
    S754_finite false 4503599627370496 (-52) /\
  Py.int_truediv ((2 ^ 53 + 1) * 1 + 1 * 1) (2 ^ 53 + 1 + 1) =
    Some (S754_finite false 4503599627370496 (-52)) /\
  Py.of_int 1 = S754_finite false 4503599627370496 (-52) /\
  S754_finite false 9007199254740990 (-53) <>
    S754_finite false 4503599627370496 (-52).
Proof.
  split; [vm_compute; reflexivity|]. split; [vm_compute; reflexivity|].
  split; [vm_compute; reflexivity|]. split; [vm_compute; reflexivity|].
  discriminate.
Qed.

(** ** More on tables *)

Lemma first_none_app {A : Type} (p : A -> bool) rows more :
  first p rows = None -> first p (rows ++ more) = first p more.
Proof. intros H. now rewrite first_app, H. Qed.

Lemma update_first_app_none {A : Type} (p : A -> bool) f rows more :
  first p rows = None ->
  update_first p f (rows ++ more) = rows ++ update_first p f more.
Proof.
  induction rows as [|x rows IH]; simpl; [reflexivity|].
  destruct (p x); [discriminate|]. intros H. now rewrite IH.
Qed.

Lemma map_update_first {A B : Type} (g : A -> B) (p : A -> bool) f rows :
  (forall r, g (f r) = g r) ->
  map g (update_first p f rows) = map g rows.
Proof.
  intros Hg. induction rows as [|x rows IH]; simpl; [reflexivity|].
  destruct (p x); simpl; [now rewrite Hg|now rewrite IH].
Qed.

Lemma get_some_in {A : Type} (key : A -> Z) k rows r :
  get key k rows = Some r -> In r rows /\ key r = k.
Proof.
  intros H. split; [exact (proj1 (first_some _ _ _ H))|exact (get_key _ _ _ _ H)].
Qed.

Lemma get_in_some {A : Type} (key : A -> Z) rows r :
  In r rows -> exists r', get key (key r) rows = Some r'.
Proof.
  intros H. unfold get, first.
  destruct (find _ rows) as [r'|] eqn:E; [now exists r'|].
  pose proof (find_none _ _ E r H) as Hn. cbv beta in Hn.
  now rewrite Z.eqb_refl in Hn.
Qed.

(** A write that keeps the keys keeps which keys are in the table. *)
Lemma get_update_first_some {A : Type} (key : A -> Z) p f rows k :
  (forall r, key (f r) = key r) ->
  (exists r, get key k rows = Some r) ->
  exists r, get key k (update_first p f rows) = Some r.
Proof.
  intros Hk [r Hr]. apply get_some_in in Hr. destruct Hr as [Hin <-].
  assert (Hmap : In (key r) (map key (update_first p f rows))).
  { rewrite map_update_first by exact Hk. now apply in_map. }
  apply in_map_iff in Hmap. destruct Hmap as (r' & <- & Hin').
  now apply get_in_some.
Qed.

Lemma get_app_new {A : Type} (key : A -> Z) rows r :
  key r = next_id key rows -> get key (key r) (rows ++ [r]) = Some r.
Proof.
  intros H. unfold get. rewrite first_none_app.
  - cbn. now rewrite Z.eqb_refl.
  - rewrite H. apply get_next_id.
Qed.

Lemma get_app_cases {A : Type} (key : A -> Z) k rows x r :
  get key k (rows ++ [x]) = Some r ->
  get key k rows = Some r \/ (get key k rows = None /\ r = x /\ key x = k).
Proof.
  unfold get. rewrite first_app.
  destruct (first _ rows) as [r'|]; [now left|].
  cbn. destruct (key x =? k) eqn:E; [|discriminate].
  intros [= ->]. right. apply Z.eqb_eq in E. auto.
Qed.

(** ** What a milestone proof writes *)

(** A proof that is answered 200 either found the milestone completed and
    wrote nothing, or was submitted by the issuer of the milestone's project,
    completed the milestone and moved [release_of] from the locked to the
    released total of the project's escrow (created at zero when missing). *)
Lemma submit_ok_escrows auth mid url s s' b :
  issuer_submit_milestone_proof auth mid url s = (Ok b, s') ->
  (b = AlreadyCompleted /\ s' = s) \/
  exists au m p r,
    auth = Some au /\ role au = "ISSUER"%string /\
    get Milestone.id mid (milestones s) = Some m /\
    Milestone.status m = MS_PENDING /\
    get Project.id (Milestone.project_id m) (projects s) = Some p /\
    Project.issuer_id p = Some (user_id au) /\
    b = Released r url /\
    milestones s' =
      update_first (fun x => Milestone.id x =? mid) (Milestone.complete url)
        (milestones s) /\
    match first (escrow_of (Project.id p)) (escrows s) with
    | Some e =>
        release_of (Escrow.total_locked e)
          (Milestone.escrow_release_percent m) = Some r /\
        escrows s' =
          update_first (escrow_of (Project.id p))
            (fun x => Escrow.set_total_released (Escrow.total_released e + r)
                        (Escrow.set_total_locked (Escrow.total_locked e - r)
                           x))
            (escrows s)
    | None =>
        release_of 0 (Milestone.escrow_release_percent m) = Some r /\
        escrows s' =
          escrows s ++
          [Escrow.mk (next_id Escrow.id (escrows s)) (Project.id p) (0 - r)
             (0 + r)]
    end.
Proof.
  intros H. unfold issuer_submit_milestone_proof in H.
  destruct auth as [au|]; [|discriminate H].
  destruct (negb (role au =? "ISSUER")%string) eqn:Er; [discriminate H|].
  destruct (get Milestone.id mid (milestones s)) as [m|] eqn:Em;
    [|discriminate H].
  destruct (get Project.id (Milestone.project_id m) (projects s)) as [p|] eqn:Ep;
    [|discriminate H].
  destruct (Project.issuer_id p) as [i|] eqn:Ei; [|discriminate H].
  destruct (i =? user_id au) eqn:Eo; [|discriminate H]. cbn [negb] in H.
  destruct (url =? "")%string; [discriminate H|].
  destruct (Milestone.status m) eqn:Est.
  2:{ injection H as <- <-. left. split; reflexivity. }
  right. apply negb_false_iff, String.eqb_eq in Er. apply Z.eqb_eq in Eo.
  subst i. cbv zeta in H. db_simpl in H.
  destruct (first (escrow_of (Project.id p)) (escrows s)) as [e|] eqn:Ee.
  - destruct (Py.int_truediv _ 100) as [x|] eqn:Ex; [|discriminate H].
    destruct (Py.to_int x) as [amount|] eqn:Ea; [|discriminate H].
    branch H. injection H as <- <-. db_simpl.
    eexists au, m, p, _. repeat (split; [reflexivity || assumption|]).
    rewrite Ee. unfold release_of. rewrite Ex, Ea. split; reflexivity.
  - cbn [Escrow.total_locked Escrow.total_released] in H.
    destruct (Py.int_truediv _ 100) as [x|] eqn:Ex; [|discriminate H].
    destruct (Py.to_int x) as [amount|] eqn:Ea; [|discriminate H].
    branch H. injection H as <- <-. db_simpl.
    eexists au, m, p, _. repeat (split; [reflexivity || assumption|]).
    rewrite Ee. unfold release_of. rewrite Ex, Ea. split; [reflexivity|].
    rewrite update_first_app_none by exact Ee.
    cbn. unfold escrow_of at 1. cbn. rewrite Z.eqb_refl. reflexivity.
Qed.

(** ** The sign of a truncated quotient *)

Lemma round_aux_sign s m e l x a :
  binary_round_aux Py.prec Py.emax s m e l = x ->
  Py.to_int x = Some a -> s = false -> 0 <= a.
Proof.
  unfold binary_round_aux. intros <- Ha ->.
  destruct (shr_fexp _ _ m e l) as [mrs' e'].
  destruct (shr_fexp _ _ _ e' loc_Exact) as [mrs'' e''].
  destruct (shr_m mrs'') as [|k|k].
  - injection Ha as <-. lia.
  - destruct (e'' <=? Py.emax - Py.prec); [|discriminate Ha].
    cbn [Py.to_int cond_Zopp] in Ha.
    injection Ha as <-. destruct e'' as [|q|q].
    + lia.
    + pose proof (Z.pow_pos_nonneg 2 (Z.pos q) ltac:(lia) ltac:(lia)) as Hq.
      destruct (2 ^ Z.pos q); lia.
    + apply Z.div_pos; [lia|].
      exact (Z.pow_pos_nonneg 2 (Z.pos q) ltac:(lia) ltac:(lia)).
  - discriminate Ha.
Qed.

Lemma int_truediv_sign n d x a :
  0 <= n -> 0 < d -> Py.int_truediv n d = Some x -> Py.to_int x = Some a ->
  0 <= a.
Proof.
  intros Hn Hd Hx Ha. unfold Py.int_truediv in Hx.
  destruct (d =? 0); [discriminate Hx|]. injection Hx as <-.
  destruct d as [|dp|dp]; try lia.
  destruct n as [|np|np]; try lia; cbn [Py.exact] in Ha.
  - cbn in Ha. injection Ha as <-. lia.
  - unfold SFdiv in Ha.
    destruct (SFdiv_core_binary _ _ _ _ _ _) as [[mz ez] lz].
    eapply round_aux_sign; [reflexivity|exact Ha|reflexivity].
Qed.

(** A release out of a non-negative balance under a non-negative percent
    is between zero and the balance. *)
Lemma release_of_bounds L pct r :
  0 <= L -> 0 <= pct -> release_of L pct = Some r -> 0 <= r <= L.
Proof.
  intros HL Hp H. unfold release_of in H.
  destruct (Py.int_truediv (L * pct) 100) as [x|] eqn:Ex; [|discriminate H].
  destruct (Py.to_int x) as [a|] eqn:Ea; [|discriminate H].
  injection H as <-.
  assert (Hn : 0 <= L * pct) by (apply Z.mul_nonneg_nonneg; assumption).
  pose proof (int_truediv_sign _ 100 _ _ Hn ltac:(lia) Ex Ea) as H0.
  destruct (a >? L) eqn:E; [lia|].
  rewrite Z.gtb_ltb in E. apply Z.ltb_ge in E. lia.
Qed.

(** ** Escrow accounting *)

(** What the transparency route reports after the escrow of [k] was
    written to, and after an escrow for [k] was added. *)
Lemma transparency_update k f e pid s s' :
  first (escrow_of k) (escrows s) = Some e ->
  Escrow.project_id (f e) = Escrow.project_id e ->
  escrows s' = update_first (escrow_of k) f (escrows s) ->
  transparency pid s' =
  if pid =? k
  then mkescrow_view (Escrow.total_locked (f e)) (Escrow.total_released (f e))
  else transparency pid s.
Proof.
  intros He Hf Hs'. unfold transparency. rewrite Hs'.
  pose proof (proj2 (first_some _ _ _ He)) as Hk. unfold escrow_of in Hk.
  apply Z.eqb_eq in Hk.
  destruct (pid =? k) eqn:E.
  - apply Z.eqb_eq in E. subst pid.
    rewrite (first_update_first _ _ _ _ He); [reflexivity|].
    unfold escrow_of. rewrite Hf. now apply Z.eqb_eq.
  - apply Z.eqb_neq in E.
    rewrite (first_update_first_other _ (escrow_of pid) _ _ _ He);
      [reflexivity| |]; unfold escrow_of; [|rewrite Hf]; apply Z.eqb_neq; lia.
Qed.

Lemma transparency_append k id L R pid s s' :
  first (escrow_of k) (escrows s) = None ->
  escrows s' = escrows s ++ [Escrow.mk id k L R] ->
  transparency pid s' =
  if pid =? k then mkescrow_view L R else transparency pid s.
Proof.
  intros He Hs'. unfold transparency. rewrite Hs', first_app.
  destruct (pid =? k) eqn:E.
  - apply Z.eqb_eq in E. subst pid. rewrite He. cbn. unfold escrow_of. cbn.
    now rewrite Z.eqb_refl.
  - destruct (first (escrow_of pid) (escrows s)); [reflexivity|].
    cbn. unfold escrow_of. cbn. rewrite Z.eqb_sym, E. reflexivity.
Qed.

Lemma transparency_same pid s s' :
  escrows s' = escrows s -> transparency pid s' = transparency pid s.
Proof. intros H. unfold transparency. now rewrite H. Qed.

(** The project a key finds after the row of [k] was written to, and after
    a project was added. *)
Lemma get_project_update k f p0 pid s s' :
  get Project.id k (projects s) = Some p0 ->
  (forall r, Project.id (f r) = Project.id r) ->
  projects s' = update_first (fun r => Project.id r =? k) f (projects s) ->
  get Project.id pid (projects s') =
  if pid =? k then Some (f p0) else get Project.id pid (projects s).
Proof.
  intros Hp Hf Hs'. rewrite Hs'. destruct (pid =? k) eqn:E.
  - apply Z.eqb_eq in E. subst pid. now apply get_update_first_same.
  - apply Z.eqb_neq in E. now apply get_update_first_other.
Qed.

(** No route takes a project out of the catalog. *)
Lemma handle_in_catalog (r : request) (s : db) (pid : Z) :
  in_catalog pid s -> in_catalog pid (snd (handle r s)).
Proof.
  intros Hk. destruct (handle r s) as [resp s'] eqn:H. cbn [snd].
  destruct resp as [b|code msg].
  2:{ rejected H; [exact Hk|]. destruct Hk as [p0 Hp0]. exists p0.
      db_simpl. now apply get_app_some. }
  unfold in_catalog in *.
  destruct r; cbn [handle] in H.
  - destruct (invest_ok_project _ _ _ _ _ _ _ H) as (au & p & -> & Hget).
    destruct (invest_ok_tables _ _ _ _ _ _ _ _ H Hget)
      as (_ & _ & _ & -> & _).
    now apply get_update_first_some.
  - destruct (list_ok_tables _ _ _ _ _ _ _ H)
      as (au & h & _ & _ & _ & _ & _ & _ & ->). exact Hk.
  - destruct (buy_ok_listing _ _ _ _ _ _ H) as (au & l & -> & Hget).
    destruct (buy_ok_tables _ _ _ _ _ _ _ H Hget)
      as (_ & _ & _ & _ & _ & _ & _ & _ & -> & _). exact Hk.
  - destruct (create_ok_tables _ _ _ _ _ _ _ _ _ _ _ _ _ H)
      as (p & rows & -> & _).
    destruct Hk as [p0 Hp0]. exists p0. now apply get_app_some.
  - destruct (submit_ok_tables _ _ _ _ _ _ H) as (_ & -> & _). exact Hk.
  - destruct (status_ok_tables _ _ _ _ _ _ H) as (st & -> & _).
    now apply get_update_first_some.
Qed.

(** The project a successful creation adds has the next key. *)
Lemma create_ok_project auth title category location description
    funding_target token_price roi_percent tenure_months ms s s' b :
  issuer_create_project auth title category location description
    funding_target token_price roi_percent tenure_months ms s = (Ok b, s') ->
  exists au project,
    auth = Some au /\ role au = "ISSUER"%string /\
    projects s' = projects s ++ [project] /\
    Project.id project = next_id Project.id (projects s) /\
    Project.issuer_id project = Some (user_id au) /\
    Project.funding_raised project = 0 /\
    Project.status project = PENDING /\
    b = ProjectCreated (Project.id project) PENDING /\
    escrows s' =
      escrows s ++
      [Escrow.mk (next_id Escrow.id (escrows s)) (Project.id project) 0 0].
Proof.
  intros H. unfold issuer_create_project in H. cbv zeta in H.
  do 6 branch H. injection H as <- <-. db_simpl.
  apply negb_false_iff, String.eqb_eq in E0.
  eexists _, _. split; [reflexivity|]. split; [exact E0|].
  repeat (split; [reflexivity|]). reflexivity.
Qed.

(** No escrow belongs to the project a creation is about to add. *)
Lemma no_escrow_of_next s :
  escrows_of_projects s ->
  first (escrow_of (next_id Project.id (projects s))) (escrows s) = None.
Proof.
  intros He. unfold first.
  destruct (find _ (escrows s)) as [e|] eqn:E; [|reflexivity].
  apply find_some in E. destruct E as [Hin E]. unfold escrow_of in E.
  apply Z.eqb_eq in E. unfold escrows_of_projects in He.
  rewrite Forall_forall in He. destruct (He e Hin) as [p Hp].
  rewrite E, get_next_id in Hp. discriminate Hp.
Qed.

Lemma handle_escrows_of_projects (r : request) (s : db) :
  escrows_of_projects s -> escrows_of_projects (snd (handle r s)).
Proof.
  intros He.
  assert (Hall : Forall (fun e => in_catalog (Escrow.project_id e)
                                    (snd (handle r s))) (escrows s)).
  { unfold escrows_of_projects in He. rewrite Forall_forall in *.
    intros e Hin. apply handle_in_catalog. now apply He. }
  assert (Hin_upd : forall k f,
            (forall x, Escrow.project_id (f x) = Escrow.project_id x) ->
            Forall (fun e => in_catalog (Escrow.project_id e)
                               (snd (handle r s)))
              (update_first (escrow_of k) f (escrows s))).
  { intros k f Hf. apply Forall_update_first; [exact Hall|].
    intros x Hin _. rewrite Hf. rewrite Forall_forall in Hall.
    now apply Hall. }
  assert (Hnew : forall pid id L R,
            in_catalog pid s ->
            Forall (fun e => in_catalog (Escrow.project_id e)
                               (snd (handle r s)))
              (escrows s ++ [Escrow.mk id pid L R])).
  { intros pid id L R Hk. apply Forall_app. split; [exact Hall|].
    constructor; [|constructor]. cbn. now apply handle_in_catalog. }
  unfold escrows_of_projects.
  destruct (handle r s) as [resp s'] eqn:H. cbn [snd] in *.
  destruct resp as [b|code msg]; [|rejected H; exact Hall].
  destruct r; cbn [handle] in H.
  - destruct (invest_ok_project _ _ _ _ _ _ _ H) as (au & p & -> & Hget).
    destruct (invest_ok_tables _ _ _ _ _ _ _ _ H Hget)
      as (_ & _ & _ & _ & -> & _).
    destruct (first (escrow_of (Project.id p)) (escrows s)).
    + now apply Hin_upd.
    + apply Hnew. exists p. now rewrite (get_key _ _ _ _ Hget).
  - destruct (list_ok_tables _ _ _ _ _ _ _ H)
      as (au & h & _ & _ & _ & _ & _ & _ & ->). exact Hall.
  - destruct (buy_ok_listing _ _ _ _ _ _ H) as (au & l & -> & Hget).
    destruct (buy_ok_tables _ _ _ _ _ _ _ H Hget)
      as (_ & _ & _ & _ & _ & _ & _ & _ & _ & _ & ->). exact Hall.
  - destruct (create_ok_project _ _ _ _ _ _ _ _ _ _ _ _ _ H)
      as (au & p & _ & _ & Hps & Hid & _ & _ & _ & _ & ->).
    apply Forall_app. split; [exact Hall|]. constructor; [|constructor].
    cbn. exists p. rewrite Hps. now apply get_app_new.
  - destruct (submit_ok_escrows _ _ _ _ _ _ H)
      as [[_ ->]|(au & m & p & x & _ & _ & _ & _ & Hp & _ & _ & _ & He')];
      [exact Hall|].
    destruct (first (escrow_of (Project.id p)) (escrows s));
      destruct He' as [_ ->].
    + now apply Hin_upd.
    + apply Hnew. exists p. now rewrite (get_key _ _ _ _ Hp).
  - destruct (status_ok_tables _ _ _ _ _ _ H)
      as (st & _ & _ & _ & -> & _). exact Hall.
Qed.

(** Every route keeps the escrows in balance with the projects. *)
Lemma handle_balanced (r : request) (s : db) :
  balanced s -> balanced (snd (handle r s)).
Proof.
  intros [He Hb]. split; [now apply handle_escrows_of_projects|].
  destruct (handle r s) as [resp s'] eqn:H. cbn [snd].
  destruct resp as [b|code msg].
  2:{ rejected H; [exact Hb|]. intros pid q Hq. db_simpl in Hq.
      match goal with
      | |- context [transparency pid ?t] =>
          change (transparency pid t) with (transparency pid s)
      end.
      destruct (get_app_cases _ _ _ _ _ Hq) as [Hq'|(_ & -> & Hid)];
        [now apply Hb|].
      cbn [Project.id] in Hid. subst pid. unfold transparency.
      now rewrite (no_escrow_of_next s He). }
  intros pid q Hq.
  destruct r; cbn [handle] in H.
  - (* invest *)
    destruct (invest_ok_project _ _ _ _ _ _ _ H) as (au & p & -> & Hget).
    destruct (invest_ok_tables _ _ _ _ _ _ _ _ H Hget)
      as (_ & _ & _ & Hps & Hes & _).
    pose proof (get_key _ _ _ _ Hget) as Hid.
    rewrite (get_project_update _
               (Project.set_funding_raised (Project.funding_raised p + amount))
               _ _ _ _ Hget (fun _ => eq_refl) Hps) in Hq.
    pose proof (Hb project_id p Hget) as Hbp.
    assert (Ht : transparency pid s' =
                 if pid =? project_id
                 then mkescrow_view (locked (transparency project_id s) + amount)
                        (released (transparency project_id s))
                 else transparency pid s).
    { rewrite Hid in Hes. unfold transparency at 2 3.
      destruct (first (escrow_of project_id) (escrows s)) as [e|] eqn:Ee.
      - now rewrite (transparency_update _
                       (Escrow.set_total_locked (Escrow.total_locked e + amount))
                       _ _ _ _ Ee eq_refl Hes).
      - now rewrite (transparency_append _ _ _ _ _ _ _ Ee Hes). }
    rewrite Ht. destruct (pid =? project_id).
    + injection Hq as <-. cbn. lia.
    + now apply Hb.
  - (* list *)
    destruct (list_ok_tables _ _ _ _ _ _ _ H)
      as (au & h & _ & _ & _ & _ & _ & _ & ->). now apply Hb.
  - (* buy *)
    destruct (buy_ok_listing _ _ _ _ _ _ H) as (au & l & -> & Hget).
    destruct (buy_ok_tables _ _ _ _ _ _ _ H Hget)
      as (_ & _ & _ & _ & _ & _ & _ & _ & Hps & _ & Hes).
    rewrite Hps in Hq. rewrite (transparency_same _ _ _ Hes). now apply Hb.
  - (* create *)
    destruct (create_ok_project _ _ _ _ _ _ _ _ _ _ _ _ _ H)
      as (au & p & _ & _ & Hps & Hid & _ & Hfr & _ & _ & Hes).
    pose proof (no_escrow_of_next s He) as Hnone. rewrite <- Hid in Hnone.
    rewrite (transparency_append _ _ _ _ _ _ _ Hnone Hes).
    rewrite Hps in Hq. apply get_app_cases in Hq.
    destruct Hq as [Hq|(_ & -> & Hq)].
    + destruct (pid =? Project.id p) eqn:E; [|now apply Hb].
      apply Z.eqb_eq in E. rewrite E, Hid, get_next_id in Hq. discriminate Hq.
    + rewrite <- Hq, Z.eqb_refl. cbn. lia.
  - (* submit *)
    destruct (submit_ok_tables _ _ _ _ _ _ H) as (_ & Hps & _).
    rewrite Hps in Hq.
    destruct (submit_ok_escrows _ _ _ _ _ _ H)
      as [[_ ->]|(au & m & p & x & _ & _ & _ & _ & Hp & _ & _ & _ & He')];
      [now apply Hb|].
    pose proof (Hb pid q Hq) as Hbq. unfold transparency at 1 2 in Hbq.
    destruct (first (escrow_of (Project.id p)) (escrows s)) as [e|] eqn:Ee;
      destruct He' as [_ Hes].
    + rewrite (transparency_update _
                 (fun x0 => Escrow.set_total_released
                              (Escrow.total_released e + x)
                              (Escrow.set_total_locked
                                 (Escrow.total_locked e - x) x0))
                 _ _ _ _ Ee eq_refl Hes).
      destruct (pid =? Project.id p) eqn:E; [|now apply Hb].
      apply Z.eqb_eq in E. subst pid. rewrite Ee in Hbq. cbn in *. lia.
    + rewrite (transparency_append _ _ _ _ _ _ _ Ee Hes).
      destruct (pid =? Project.id p) eqn:E; [|now apply Hb].
      apply Z.eqb_eq in E. subst pid. rewrite Ee in Hbq. cbn in *. lia.
  - (* status *)
    destruct (status_ok_tables _ _ _ _ _ _ H)
      as (st & Hps & _ & _ & Hes & _).
    rewrite (transparency_same _ _ _ Hes).
    destruct (get Project.id project_id (projects s)) as [p0|] eqn:Hp0.
    + rewrite (get_project_update _ (Project.set_status st) _ _ _ _ Hp0
                 (fun _ => eq_refl) Hps) in Hq.
      destruct (pid =? project_id) eqn:E; [|now apply Hb].
      apply Z.eqb_eq in E. subst pid. injection Hq as <-.
      exact (Hb _ _ Hp0).
    + rewrite Hps, update_first_none in Hq by exact Hp0. now apply Hb.
Qed.

Lemma reachable_balanced (s0 s : db) :
  balanced s0 -> reachable s0 s -> balanced s.
Proof.
  intros H0 Hr. induction Hr as [|s r _ IH]; [exact H0|].
  now apply handle_balanced.
Qed.

(** Balance, checked row by row. *)
Lemma balanced_rows (s : db) :
  Forall (fun e => in_catalog (Escrow.project_id e) s) (escrows s) ->
  Forall
    (fun p =>
       locked (transparency (Project.id p) s)
       + released (transparency (Project.id p) s) = Project.funding_raised p)
    (projects s) ->
  balanced s.
Proof.
  intros He Hp. split; [exact He|]. intros pid p Hget.
  apply get_some_in in Hget. destruct Hget as [Hin <-].
  rewrite Forall_forall in Hp. now apply Hp.
Qed.

(** ** Escrow totals stay non-negative *)

(** The milestones a successful creation adds have positive percents. *)
Lemma fold_add_milestone_percent pid ms rows :
  Forall (fun m => 0 < snd m) ms ->
  Forall (fun m => 0 <= Milestone.escrow_release_percent m) rows ->
  Forall (fun m => 0 <= Milestone.escrow_release_percent m)
    (fold_left (add_milestone pid) ms rows).
Proof.
  revert rows. induction ms as [|m ms IH]; intros rows Hms Hrows; [exact Hrows|].
  inversion Hms as [|? ? Hm Hms']; subst. cbn [fold_left]. apply IH; [exact Hms'|].
  unfold add_milestone. apply Forall_app. split; [exact Hrows|].
  constructor; [cbn; lia|constructor].
Qed.

Lemma create_ok_milestones auth title category location description
    funding_target token_price roi_percent tenure_months ms s s' b :
  issuer_create_project auth title category location description
    funding_target token_price roi_percent tenure_months ms s = (Ok b, s') ->
  milestones s' =
    fold_left (add_milestone (next_id Project.id (projects s)))
      (match ms with
       | [] => default_ms
       | _ :: _ =>
           filter (fun m => negb (fst m =? "")%string && (0 <? snd m)) ms
       end)
      (milestones s).
Proof.
  intros H. unfold issuer_create_project in H. cbv zeta in H.
  do 6 branch H. injection H as <- <-. db_simpl. reflexivity.
Qed.

Lemma handle_percents (r : request) (s : db) :
  Forall (fun m => 0 <= Milestone.escrow_release_percent m) (milestones s) ->
  Forall (fun m => 0 <= Milestone.escrow_release_percent m)
    (milestones (snd (handle r s))).
Proof.
  intros Hm. destruct (handle r s) as [resp s'] eqn:H. cbn [snd].
  destruct resp as [b|code msg]; [|rejected H; exact Hm].
  destruct r; cbn [handle] in H.
  - destruct (invest_ok_project _ _ _ _ _ _ _ H) as (au & p & -> & Hget).
    destruct (invest_ok_tables _ _ _ _ _ _ _ _ H Hget) as (_ & -> & _).
    exact Hm.
  - destruct (list_ok_tables _ _ _ _ _ _ _ H)
      as (au & h & _ & _ & _ & _ & _ & _ & ->). exact Hm.
  - destruct (buy_ok_listing _ _ _ _ _ _ H) as (au & l & -> & Hget).
    destruct (buy_ok_tables _ _ _ _ _ _ _ H Hget)
      as (_ & _ & _ & _ & _ & _ & _ & _ & _ & -> & _). exact Hm.
  - rewrite (create_ok_milestones _ _ _ _ _ _ _ _ _ _ _ _ _ H).
    apply fold_add_milestone_percent; [|exact Hm].
    destruct ms as [|m ms].
    + repeat constructor.
    + apply Forall_forall. intros x Hx. apply filter_In in Hx.
      destruct Hx as [_ Hx]. apply andb_true_iff in Hx.
      destruct Hx as [_ Hx]. now apply Z.ltb_lt.
  - destruct (submit_ok_escrows _ _ _ _ _ _ H)
      as [[_ ->]|(au & m & p & x & _ & _ & _ & _ & _ & _ & _ & -> & _)];
      [exact Hm|].
    apply Forall_update_first; [exact Hm|].
    intros y Hin _. rewrite Forall_forall in Hm. exact (Hm y Hin).
  - destruct (status_ok_tables _ _ _ _ _ _ H) as (st & _ & _ & -> & _).
    exact Hm.
Qed.

(** An investment that succeeds pays a positive amount. *)
Lemma invest_ok_amount auth project_id amount tx_hash s s' b :
  positive_prices s ->
  invest auth project_id amount tx_hash s = (Ok b, s') -> 0 < amount.
Proof.
  intros Hpp H.
  destruct (invest_ok_project _ _ _ _ _ _ _ H) as (au & p & -> & Hget).
  destruct (invest_ok_guards _ _ _ _ _ _ _ _ H Hget) as (_ & _ & _ & Ht & _).
  assert (Hp : 0 < Project.token_price p).
  { unfold positive_prices in Hpp. rewrite Forall_forall in Hpp.
    exact (Hpp p (proj1 (first_some _ _ _ Hget))). }
  destruct (Z.lt_ge_cases amount (Project.token_price p)) as [Hlt|Hge]; [|lia].
  destruct (Z.lt_ge_cases amount 0) as [Hneg|Hpos].
  - pose proof (Z.div_lt_upper_bound amount (Project.token_price p) 0 Hp
                  ltac:(lia)). lia.
  - rewrite Z.div_small in Ht by lia. lia.
Qed.

(** Every route keeps the escrow totals non-negative. *)
Lemma handle_solvent (r : request) (s : db) :
  solvent s -> solvent (snd (handle r s)).
Proof.
  intros (Hpp & He & Hm).
  split; [now apply handle_prices|]. split; [|now apply handle_percents].
  destruct (handle r s) as [resp s'] eqn:H. cbn [snd].
  destruct resp as [b|code msg]; [|rejected H; exact He].
  pose proof He as He'. rewrite Forall_forall in He'.
  destruct r; cbn [handle] in H.
  - pose proof (invest_ok_amount _ _ _ _ _ _ _ Hpp H) as Ha.
    destruct (invest_ok_project _ _ _ _ _ _ _ H) as (au & p & -> & Hget).
    destruct (invest_ok_tables _ _ _ _ _ _ _ _ H Hget)
      as (_ & _ & _ & _ & -> & _).
    destruct (first (escrow_of (Project.id p)) (escrows s)) as [e|] eqn:Ee.
    + apply Forall_update_first; [exact He|].
      intros x Hin _. cbn.
      pose proof (He' e (proj1 (first_some _ _ _ Ee))).
      pose proof (He' x Hin). lia.
    + apply Forall_app. split; [exact He|].
      constructor; [cbn; lia|constructor].
  - destruct (list_ok_tables _ _ _ _ _ _ _ H)
      as (au & h & _ & _ & _ & _ & _ & _ & ->). exact He.
  - destruct (buy_ok_listing _ _ _ _ _ _ H) as (au & l & -> & Hget).
    destruct (buy_ok_tables _ _ _ _ _ _ _ H Hget)
      as (_ & _ & _ & _ & _ & _ & _ & _ & _ & _ & ->). exact He.
  - destruct (create_ok_project _ _ _ _ _ _ _ _ _ _ _ _ _ H)
      as (au & p & _ & _ & _ & _ & _ & _ & _ & _ & ->).
    apply Forall_app. split; [exact He|].
    constructor; [cbn; lia|constructor].
  - destruct (submit_ok_escrows _ _ _ _ _ _ H)
      as [[_ ->]|(au & m & p & x & _ & _ & Hget & _ & _ & _ & _ & _ & Hes)];
      [exact He|].
    assert (Hpct : 0 <= Milestone.escrow_release_percent m).
    { rewrite Forall_forall in Hm.
      exact (Hm m (proj1 (first_some _ _ _ Hget))). }
    destruct (first (escrow_of (Project.id p)) (escrows s)) as [e|] eqn:Ee;
      destruct Hes as [Hr ->].
    + pose proof (He' e (proj1 (first_some _ _ _ Ee))) as [HL HR].
      pose proof (release_of_bounds _ _ _ HL Hpct Hr).
      apply Forall_update_first; [exact He|].
      intros y _ _. cbn. lia.
    + pose proof (release_of_bounds _ _ _ (Z.le_refl 0) Hpct Hr).
      apply Forall_app. split; [exact He|].
      constructor; [cbn; lia|constructor].
  - destruct (status_ok_tables _ _ _ _ _ _ H)
      as (st & _ & _ & _ & -> & _). exact He.
Qed.

Lemma reachable_solvent (s0 s : db) :
  solvent s0 -> reachable s0 s -> solvent s.
Proof.
  intros H0 Hr. induction Hr as [|s r _ IH]; [exact H0|].
  now apply handle_solvent.
Qed.

(** ** Token and cash accounting *)

Lemma sum_app l l' : sum (l ++ l') = sum l + sum l'.
Proof. induction l as [|x l IH]; cbn; [reflexivity|]. unfold sum in *. lia. Qed.

Section Totals.
Context {A : Type}.
Variables (g : A -> Z) (q : A -> bool).

(** The total of [g] over the rows that [q] selects. *)
Let total (rows : list A) : Z := sum (map g (filter q rows)).

Lemma total_app rows more : total (rows ++ more) = total rows + total more.
Proof. unfold total. now rewrite filter_app, map_app, sum_app. Qed.

Lemma total_one r : total [r] = if q r then g r else 0.
Proof. unfold total. cbn. destruct (q r); cbn; lia. Qed.

Lemma total_update_first p f rows r :
  first p rows = Some r ->
  total (update_first p f rows) =
  total rows - (if q r then g r else 0) + (if q (f r) then g (f r) else 0).
Proof.
  intros H. destruct (update_first_modifies p f rows r H)
    as (pre & post & -> & ->).
  change (pre ++ r :: post) with (pre ++ [r] ++ post).
  change (pre ++ f r :: post) with (pre ++ [f r] ++ post).
  rewrite !total_app, !total_one. lia.
Qed.
End Totals.

(** What the holdings of project [pid] add up to after an investment and
    after a purchase. *)
Lemma invest_supply auth project_id amount tx_hash s s' b pid :
  invest auth project_id amount tx_hash s = (Ok b, s') ->
  exists tokens,
    b = Invested tx_hash tokens /\
    supply pid s' = supply pid s + (if project_id =? pid then tokens else 0) /\
    minted pid s' = minted pid s + (if project_id =? pid then tokens else 0) /\
    paid pid s' = paid pid s + (if project_id =? pid then amount else 0).
Proof.
  intros H.
  destruct (invest_ok_project _ _ _ _ _ _ _ H) as (au & p & -> & Hget).
  destruct (invest_ok_guards _ _ _ _ _ _ _ _ H Hget) as (_ & _ & _ & _ & ->).
  destruct (invest_ok_tables _ _ _ _ _ _ _ _ H Hget)
    as (_ & _ & _ & _ & _ & Hh & Ht).
  rewrite (get_key _ _ _ _ Hget) in *.
  eexists. split; [reflexivity|]. split; [|split].
  - unfold supply.
    destruct (first (holding_of (user_id au) project_id) (holdings s))
      as [h|] eqn:Eh; destruct Hh as (avg & _ & ->).
    + rewrite (total_update_first _ _ _ _ _ _ Eh).
      apply first_some in Eh. destruct Eh as [_ Eh].
      apply holding_of_true in Eh. destruct Eh as [_ Eh].
      cbn. rewrite Eh. destruct (project_id =? pid); lia.
    + rewrite total_app, total_one. cbn. reflexivity.
  - unfold minted. rewrite Ht, total_app, total_one. reflexivity.
  - unfold paid. rewrite Ht, total_app, total_one. reflexivity.
Qed.

Lemma buy_supply auth listing_id tx_hash s s' b pid :
  buy_listing auth listing_id tx_hash s = (Ok b, s') ->
  supply pid s' = supply pid s /\ minted pid s' = minted pid s /\
  paid pid s' = paid pid s.
Proof.
  intros H.
  destruct (buy_ok_listing _ _ _ _ _ _ H) as (au & l & -> & Hget).
  destruct (buy_ok_tables _ _ _ _ _ _ _ H Hget)
    as (_ & Hne & _ & _ & (sh & Hsh & _ & Hh) & _ & Ht & _).
  split; [|split].
  - unfold supply. cbv zeta in Hh. rewrite Hh.
    set (k := MarketplaceListing.project_id l) in *.
    set (n := MarketplaceListing.token_count l) in *.
    set (hs1 := update_first _ _ (holdings s)).
    assert (H1 : sum (map TokenHolding.token_count
                        (filter (fun h => TokenHolding.project_id h =? pid) hs1))
                 = sum (map TokenHolding.token_count
                          (filter (fun h => TokenHolding.project_id h =? pid)
                             (holdings s)))
                   - (if k =? pid then n else 0)).
    { subst hs1. rewrite (total_update_first _ _ _ _ _ _ Hsh).
      apply first_some in Hsh. destruct Hsh as [_ Hsh].
      apply holding_of_true in Hsh. destruct Hsh as [_ Hsh].
      cbn. rewrite Hsh. destruct (k =? pid); lia. }
    destruct (first (holding_of (user_id au) k) hs1) as [bh|] eqn:Eb.
    + rewrite (total_update_first _ _ _ _ _ _ Eb), H1.
      apply first_some in Eb. destruct Eb as [_ Eb].
      apply holding_of_true in Eb. destruct Eb as [_ Eb].
      cbn. rewrite Eb. destruct (k =? pid); lia.
    + rewrite total_app, total_one, H1. cbn. destruct (k =? pid); lia.
  - unfold minted. rewrite Ht, total_app, total_one. cbn. lia.
  - unfold paid. rewrite Ht, total_app, total_one. cbn. lia.
Qed.

(** What a project has raised, after each route. *)
Lemma raised_same pid s s' :
  projects s' = projects s -> raised pid s' = raised pid s.
Proof. intros H. unfold raised. now rewrite H. Qed.

Lemma raised_update k f pid s s' :
  (forall r, Project.id (f r) = Project.id r) ->
  (forall r, Project.funding_raised (f r) = Project.funding_raised r) ->
  projects s' = update_first (fun r => Project.id r =? k) f (projects s) ->
  raised pid s' = raised pid s.
Proof.
  intros Hid Hf Hps. unfold raised.
  destruct (get Project.id k (projects s)) as [p0|] eqn:Hp0.
  - rewrite (get_project_update _ f _ _ _ _ Hp0 Hid Hps).
    destruct (pid =? k) eqn:E; [|reflexivity].
    apply Z.eqb_eq in E. subst pid. now rewrite Hp0, Hf.
  - now rewrite Hps, update_first_none.
Qed.

Lemma invest_raised auth project_id amount tx_hash s s' b pid :
  invest auth project_id amount tx_hash s = (Ok b, s') ->
  raised pid s' = raised pid s + (if project_id =? pid then amount else 0).
Proof.
  intros H.
  destruct (invest_ok_project _ _ _ _ _ _ _ H) as (au & p & -> & Hget).
  destruct (invest_ok_tables _ _ _ _ _ _ _ _ H Hget)
    as (_ & _ & _ & Hps & _).
  unfold raised.
  rewrite (get_project_update _
             (Project.set_funding_raised (Project.funding_raised p + amount))
             _ _ _ _ Hget (fun _ => eq_refl) Hps).
  rewrite (Z.eqb_sym project_id pid).
  destruct (pid =? project_id) eqn:E; [|lia].
  apply Z.eqb_eq in E. subst pid. rewrite Hget. reflexivity.
Qed.

Lemma raised_new pid p0 s s' :
  projects s' = projects s ++ [p0] -> Project.funding_raised p0 = 0 ->
  raised pid s' = raised pid s.
Proof.
  intros Hps Hfr. unfold raised. rewrite Hps. unfold get at 1.
  rewrite first_app. fold (get Project.id pid (projects s)).
  destruct (get Project.id pid (projects s)); [reflexivity|].
  cbn. destruct (Project.id p0 =? pid); [exact Hfr|reflexivity].
Qed.

Lemma create_raised auth title category location description
    funding_target token_price roi_percent tenure_months ms s s' b pid :
  issuer_create_project auth title category location description
    funding_target token_price roi_percent tenure_months ms s = (Ok b, s') ->
  raised pid s' = raised pid s.
Proof.
  intros H.
  destruct (create_ok_project _ _ _ _ _ _ _ _ _ _ _ _ _ H)
    as (au & p & _ & _ & Hps & Hid & _ & Hfr & _).
  unfold raised. rewrite Hps. unfold get at 1. rewrite first_app.
  fold (get Project.id pid (projects s)).
  destruct (get Project.id pid (projects s)); [reflexivity|].
  cbn. destruct (Project.id p =? pid); [exact Hfr|reflexivity].
Qed.

(** Every route keeps the tokens held apart from the tokens minted, and
    the funds raised apart from the amounts paid, where they were. *)
Lemma handle_accounts (r : request) (s : db) (pid : Z) :
  let s' := snd (handle r s) in
  supply pid s' - minted pid s' = supply pid s - minted pid s /\
  raised pid s' - paid pid s' = raised pid s - paid pid s.
Proof.
  cbv zeta. destruct (handle r s) as [resp s'] eqn:H. cbn [snd].
  destruct resp as [b|code msg].
  2:{ rejected H; [split; reflexivity|]. split; [reflexivity|].
      match goal with
      | |- raised pid ?t - _ = _ =>
          rewrite (raised_new pid _ s t eq_refl eq_refl)
      end. reflexivity. }
  destruct r; cbn [handle] in H.
  - destruct (invest_supply _ _ _ _ _ _ _ pid H) as (t & _ & -> & -> & ->).
    rewrite (invest_raised _ _ _ _ _ _ _ pid H). lia.
  - destruct (list_ok_tables _ _ _ _ _ _ _ H)
      as (au & h & _ & _ & _ & _ & _ & _ & ->). split; reflexivity.
  - destruct (buy_supply _ _ _ _ _ _ pid H) as (-> & -> & ->).
    destruct (buy_ok_listing _ _ _ _ _ _ H) as (au & l & -> & Hget).
    destruct (buy_ok_tables _ _ _ _ _ _ _ H Hget)
      as (_ & _ & _ & _ & _ & _ & _ & _ & Hps & _).
    rewrite (raised_same _ _ _ Hps). lia.
  - rewrite (create_raised _ _ _ _ _ _ _ _ _ _ _ _ _ pid H).
    destruct (create_ok_tables _ _ _ _ _ _ _ _ _ _ _ _ _ H)
      as (p & rows & _ & _ & _ & _ & _ & Hh & Ht & _).
    unfold supply, minted, paid. rewrite Hh, Ht. lia.
  - destruct (submit_ok_tables _ _ _ _ _ _ H) as (_ & Hps & Hh & Ht & _).
    rewrite (raised_same _ _ _ Hps).
    unfold supply, minted, paid. rewrite Hh, Ht. lia.
  - destruct (status_ok_tables _ _ _ _ _ _ H)
      as (st & Hps & _ & _ & _ & Hh & Ht & _).
    rewrite (raised_update _ (Project.set_status st) _ _ _
               (fun _ => eq_refl) (fun _ => eq_refl) Hps).
    unfold supply, minted, paid. rewrite Hh, Ht. lia.
Qed.

Lemma reachable_accounts (s0 s : db) (pid : Z) :
  reachable s0 s ->
  supply pid s - minted pid s = supply pid s0 - minted pid s0 /\
  raised pid s - paid pid s = raised pid s0 - paid pid s0.
Proof.
  intros Hr. induction Hr as [|s r _ IH]; [split; reflexivity|].
  pose proof (handle_accounts r s pid) as H. cbv zeta in H. lia.
Qed.

(** ** One holding per holder and project *)

Lemma first_holding_none u p rows :
  first (holding_of u p) rows = None -> ~ In (u, p) (map holder rows).
Proof.
  intros H Hin. apply in_map_iff in Hin. destruct Hin as (h & Hh & Hin).
  pose proof (find_none _ _ H h Hin) as Hn. cbv beta in Hn.
  unfold holder in Hh. injection Hh as Hu Hp.
  assert (Ht : holding_of u p h = true) by (apply holding_of_true; auto).
  congruence.
Qed.

Lemma NoDup_holders_update p f rows :
  (forall h, holder (f h) = holder h) ->
  NoDup (map holder rows) -> NoDup (map holder (update_first p f rows)).
Proof. intros Hf H. now rewrite map_update_first. Qed.

Lemma NoDup_holders_add u p id n avg rows :
  first (holding_of u p) rows = None ->
  NoDup (map holder rows) ->
  NoDup (map holder (rows ++ [TokenHolding.mk id u p n avg])).
Proof.
  intros Hnone H. rewrite map_app. cbn.
  rewrite <- (rev_involutive (map holder rows ++ [holder _])).
  apply NoDup_rev. rewrite rev_app_distr. cbn.
  constructor.
  - rewrite <- in_rev. now apply first_holding_none.
  - now apply NoDup_rev.
Qed.

(** Every route keeps the holdings one per holder and project. *)
Lemma handle_holders (r : request) (s : db) :
  NoDup (map holder (holdings s)) ->
  NoDup (map holder (holdings (snd (handle r s)))).
Proof.
  intros Hn. destruct (handle r s) as [resp s'] eqn:H. cbn [snd].
  destruct resp as [b|code msg]; [|rejected H; exact Hn].
  destruct r; cbn [handle] in H.
  - destruct (invest_ok_project _ _ _ _ _ _ _ H) as (au & p & -> & Hget).
    destruct (invest_ok_tables _ _ _ _ _ _ _ _ H Hget)
      as (_ & _ & _ & _ & _ & Hh & _).
    destruct (first (holding_of (user_id au) (Project.id p)) (holdings s))
      as [h|] eqn:Eh; destruct Hh as (avg & _ & ->).
    + now apply NoDup_holders_update.
    + now apply NoDup_holders_add.
  - destruct (list_ok_tables _ _ _ _ _ _ _ H)
      as (au & h & _ & _ & _ & _ & _ & _ & ->). exact Hn.
  - destruct (buy_ok_listing _ _ _ _ _ _ H) as (au & l & -> & Hget).
    destruct (buy_ok_tables _ _ _ _ _ _ _ H Hget)
      as (_ & _ & _ & _ & (sh & _ & _ & Hh) & _).
    cbv zeta in Hh. rewrite Hh.
    set (hs1 := update_first _ _ (holdings s)).
    assert (H1 : NoDup (map holder hs1))
      by now apply NoDup_holders_update.
    destruct (first _ hs1) eqn:Eb.
    + now apply NoDup_holders_update.
    + now apply NoDup_holders_add.
  - destruct (create_ok_tables _ _ _ _ _ _ _ _ _ _ _ _ _ H)
      as (p & rows & _ & _ & _ & _ & _ & -> & _). exact Hn.
  - destruct (submit_ok_tables _ _ _ _ _ _ H) as (_ & _ & -> & _). exact Hn.
  - destruct (status_ok_tables _ _ _ _ _ _ H)
      as (st & _ & _ & _ & _ & -> & _). exact Hn.
Qed.

Lemma reachable_holders (s0 s : db) :
  NoDup (map holder (holdings s0)) -> reachable s0 s ->
  NoDup (map holder (holdings s)).
Proof.
  intros H0 Hr. induction Hr as [|s r _ IH]; [exact H0|].
  now apply handle_holders.
Qed.

(** The projects of a portfolio are projects of the holder's holdings, each
    once if the holdings are one per holder and project. *)
Lemma portfolio_projects (au : auth_user) (s : db) :
  NoDup (map holder (holdings s)) ->
  NoDup (map pf_project_id (portfolio_rows au s)) /\
  forall k, In k (map pf_project_id (portfolio_rows au s)) ->
            In (user_id au, k) (map holder (holdings s)).
Proof.
  unfold portfolio_rows, portfolio.
  induction (holdings s) as [|h rows IH]; intros Hn.
  - split; [constructor|intros k []].
  - cbn [map] in Hn. inversion Hn as [|? ? Hnew Hrest]; subst.
    destruct (IH Hrest) as [IH1 IH2]. cbn [filter].
    destruct (TokenHolding.user_id h =? user_id au) eqn:Eu.
    + apply Z.eqb_eq in Eu. cbn [flat_map].
      destruct (get Project.id (TokenHolding.project_id h) (projects s))
        as [p|] eqn:Ep; cbn [app map].
      * pose proof (get_key _ _ _ _ Ep) as Hid. cbn [pf_project_id].
        rewrite Hid. split.
        -- constructor; [|exact IH1]. intros Hin. apply Hnew.
           unfold holder at 1. rewrite Eu. now apply IH2.
        -- intros k [<-|Hin].
           ++ left. unfold holder. now rewrite Eu.
           ++ right. now apply IH2.
      * split; [exact IH1|]. intros k Hin. right. now apply IH2.
    + split; [exact IH1|]. intros k Hin. right. now apply IH2.
Qed.

(** ** Completed milestones *)

Lemma fold_add_milestone_app pid ms rows :
  exists more, fold_left (add_milestone pid) ms rows = rows ++ more.
Proof.
  revert rows. induction ms as [|m ms IH]; intros rows.
  - exists []. now rewrite app_nil_r.
  - cbn [fold_left]. destruct (IH (add_milestone pid rows m)) as [more ->].
    unfold add_milestone. rewrite <- app_assoc. now eexists.
Qed.

Lemma submit_ok_proof auth mid url s s' b :
  issuer_submit_milestone_proof auth mid url s = (Ok b, s') -> url <> ""%string.
Proof.
  intros H. unfold issuer_submit_milestone_proof in H.
  destruct auth as [au|]; [|discriminate H].
  destruct (negb _); [discriminate H|].
  destruct (get Milestone.id mid (milestones s)) as [m|]; [|discriminate H].
  destruct (get Project.id _ (projects s)) as [p|]; [|discriminate H].
  destruct (negb _); [discriminate H|].
  destruct (url =? "")%string eqn:E; [discriminate H|].
  now apply String.eqb_neq.
Qed.

(** A route changes a milestone only by completing it: for the issuer of
    its project, on a proof that is not empty, while it is pending. *)
Lemma handle_milestone (r : request) (s : db) (mid : Z) (m : Milestone.t) :
  get Milestone.id mid (milestones s) = Some m ->
  get Milestone.id mid (milestones (snd (handle r s))) = Some m \/
  exists au url p,
    r = SubmitProof (Some au) mid url /\ role au = "ISSUER"%string /\
    url <> ""%string /\
    get Project.id (Milestone.project_id m) (projects s) = Some p /\
    Project.issuer_id p = Some (user_id au) /\
    Milestone.status m = MS_PENDING /\
    get Milestone.id mid (milestones (snd (handle r s))) =
      Some (Milestone.complete url m).
Proof.
  intros Hm. destruct (handle r s) as [resp s'] eqn:H. cbn [snd].
  destruct resp as [b|code msg];
    [|left; rejected H; exact Hm].
  destruct r; cbn [handle] in H.
  - left. destruct (invest_ok_project _ _ _ _ _ _ _ H) as (au & p & -> & Hget).
    destruct (invest_ok_tables _ _ _ _ _ _ _ _ H Hget) as (_ & -> & _).
    exact Hm.
  - left. destruct (list_ok_tables _ _ _ _ _ _ _ H)
      as (au & h & _ & _ & _ & _ & _ & _ & ->). exact Hm.
  - left. destruct (buy_ok_listing _ _ _ _ _ _ H) as (au & l & -> & Hget).
    destruct (buy_ok_tables _ _ _ _ _ _ _ H Hget)
      as (_ & _ & _ & _ & _ & _ & _ & _ & _ & -> & _). exact Hm.
  - left. rewrite (create_ok_milestones _ _ _ _ _ _ _ _ _ _ _ _ _ H).
    destruct (fold_add_milestone_app (next_id Project.id (projects s))
                (match ms with
                 | [] => default_ms
                 | _ :: _ =>
                     filter (fun m => negb (fst m =? "")%string && (0 <? snd m))
                       ms
                 end) (milestones s)) as [more ->].
    now apply get_app_some.
  - pose proof (submit_ok_proof _ _ _ _ _ _ H) as Hurl.
    destruct (submit_ok_escrows _ _ _ _ _ _ H)
      as [[_ ->]|(au & m0 & p & x & -> & Hrole & Hm0 & Hst & Hp & Hown & _
                  & -> & _)]; [now left|].
    destruct (Z.eq_dec mid milestone_id) as [->|Hne].
    + right. rewrite Hm in Hm0. injection Hm0 as <-.
      exists au, proof_url, p. repeat (split; [reflexivity || assumption|]).
      now apply get_update_first_same.
    + left. rewrite get_update_first_other; [exact Hm|exact Hne|reflexivity].
  - left. destruct (status_ok_tables _ _ _ _ _ _ H) as (st & _ & _ & -> & _).
    exact Hm.
Qed.

Lemma reachable_keeps_completed (s0 s : db) (mid : Z) (m : Milestone.t) :
  get Milestone.id mid (milestones s0) = Some m ->
  Milestone.status m = COMPLETED ->
  reachable s0 s -> get Milestone.id mid (milestones s) = Some m.
Proof.
  intros Hm Hst Hr. induction Hr as [|s r _ IH]; [exact Hm|].
  destruct (handle_milestone r s mid m IH)
    as [H|(au & url & p & _ & _ & _ & _ & _ & Hpend & _)]; [exact H|].
  congruence.
Qed.

(** ** The transaction log *)

Lemma handle_log (r : request) (s : db) :
  exists more, transactions (snd (handle r s)) = transactions s ++ more.
Proof.
  destruct (handle r s) as [resp s'] eqn:H. cbn [snd].
  destruct resp as [b|code msg];
    [|exists []; rejected H; db_simpl; now rewrite app_nil_r].
  destruct r; cbn [handle] in H.
  - destruct (invest_ok_project _ _ _ _ _ _ _ H) as (au & p & -> & Hget).
    destruct (invest_ok_tables _ _ _ _ _ _ _ _ H Hget)
      as (_ & _ & _ & _ & _ & _ & ->). now eexists.
  - destruct (list_ok_tables _ _ _ _ _ _ _ H)
      as (au & h & _ & _ & _ & _ & _ & _ & ->).
    exists []. now rewrite app_nil_r.
  - destruct (buy_ok_listing _ _ _ _ _ _ H) as (au & l & -> & Hget).
    destruct (buy_ok_tables _ _ _ _ _ _ _ H Hget)
      as (_ & _ & _ & _ & _ & _ & -> & _). now eexists.
  - destruct (create_ok_tables _ _ _ _ _ _ _ _ _ _ _ _ _ H)
      as (p & rows & _ & _ & _ & _ & _ & _ & -> & _).
    exists []. now rewrite app_nil_r.
  - destruct (submit_ok_tables _ _ _ _ _ _ H) as (_ & _ & _ & -> & _).
    exists []. now rewrite app_nil_r.
  - destruct (status_ok_tables _ _ _ _ _ _ H)
      as (st & _ & _ & _ & _ & _ & -> & _).
    exists []. now rewrite app_nil_r.
Qed.

(** ** Who changes the status of a project *)

Lemma status_ok_admin auth project_id status s s' b :
  admin_update_project_status auth project_id status s = (Ok b, s') ->
  exists au st p,
    auth = Some au /\ role au = "ADMIN"%string /\
    parse_status status = Some st /\
    get Project.id project_id (projects s) = Some p /\
    b = StatusUpdated st /\
    projects s' =
      update_first (fun r => Project.id r =? project_id)
        (Project.set_status st) (projects s).
Proof.
  intros H. unfold admin_update_project_status in H.
  destruct auth as [au|]; [|discriminate H].
  destruct (negb (role au =? "ADMIN")%string) eqn:Er; [discriminate H|].
  destruct (parse_status status) as [st|]; [|discriminate H].
  destruct (get Project.id project_id (projects s)) as [p|] eqn:Hp;
    [|discriminate H].
  injection H as <- <-. db_simpl.
  apply negb_false_iff, String.eqb_eq in Er.
  exists au, st, p. repeat (split; [reflexivity || assumption|]). reflexivity.
Qed.

(** A route leaves the status of a project as it is, unless it is the
    status update of an admin; a project that appears is pending. *)
Lemma handle_status (r : request) (s : db) (pid : Z) (p' : Project.t) :
  get Project.id pid (projects (snd (handle r s))) = Some p' ->
  (exists p, get Project.id pid (projects s) = Some p /\
             Project.status p' = Project.status p) \/
  (get Project.id pid (projects s) = None /\ Project.status p' = PENDING /\
   Project.funding_raised p' = 0 /\
   exists au title category location description funding_target token_price
          roi_percent tenure_months ms,
     r = CreateProject (Some au) title category location description
           funding_target token_price roi_percent tenure_months ms /\
     role au = "ISSUER"%string /\
     Project.issuer_id p' = Some (user_id au)) \/
  (exists au name st p,
     r = SetStatus (Some au) pid name /\ role au = "ADMIN"%string /\
     parse_status name = Some st /\
     get Project.id pid (projects s) = Some p /\
     p' = Project.set_status st p).
Proof.
  intros Hp'. destruct (handle r s) as [resp s'] eqn:H. cbn [snd] in Hp'.
  destruct resp as [b|code msg].
  2:{ rejected H; [left; now exists p'|]. db_simpl in Hp'.
      apply get_app_cases in Hp'.
      destruct Hp' as [Hp'|(Hnone & -> & _)]; [left; now exists p'|].
      right. left. split; [exact Hnone|]. split; [reflexivity|].
      split; [reflexivity|]. do 10 eexists.
      split; [eassumption|]. split; [assumption|reflexivity]. }
  destruct r; cbn [handle] in H.
  - left. destruct (invest_ok_project _ _ _ _ _ _ _ H) as (au & p & -> & Hget).
    destruct (invest_ok_tables _ _ _ _ _ _ _ _ H Hget)
      as (_ & _ & _ & Hps & _).
    rewrite (get_project_update _
               (Project.set_funding_raised (Project.funding_raised p + amount))
               _ _ _ _ Hget (fun _ => eq_refl) Hps) in Hp'.
    destruct (pid =? project_id) eqn:E; [|now exists p'].
    apply Z.eqb_eq in E. subst pid. injection Hp' as <-. now exists p.
  - left. destruct (list_ok_tables _ _ _ _ _ _ _ H)
      as (au & h & _ & _ & _ & _ & _ & _ & ->). now exists p'.
  - left. destruct (buy_ok_listing _ _ _ _ _ _ H) as (au & l & -> & Hget).
    destruct (buy_ok_tables _ _ _ _ _ _ _ H Hget)
      as (_ & _ & _ & _ & _ & _ & _ & _ & Hps & _).
    rewrite Hps in Hp'. now exists p'.
  - destruct (create_ok_project _ _ _ _ _ _ _ _ _ _ _ _ _ H)
      as (au & p & -> & Hrole & Hps & _ & Hown & Hfr & Hst & _).
    rewrite Hps in Hp'. apply get_app_cases in Hp'.
    destruct Hp' as [Hp'|(Hnone & -> & _)]; [left; now exists p'|].
    right. left. repeat (split; [assumption|]).
    exists au, title, category, location, description, funding_target,
      token_price, roi_percent, tenure_months, ms.
    repeat split; assumption.
  - left. destruct (submit_ok_tables _ _ _ _ _ _ H) as (_ & Hps & _).
    rewrite Hps in Hp'. now exists p'.
  - destruct (status_ok_admin _ _ _ _ _ _ H)
      as (au & st & p & -> & Hrole & Hst & Hp & _ & Hps).
    rewrite (get_project_update _ (Project.set_status st) _ _ _ _ Hp
               (fun _ => eq_refl) Hps) in Hp'.
    destruct (pid =? project_id) eqn:E; [|left; now exists p'].
    apply Z.eqb_eq in E. subst pid. injection Hp' as <-.
    right. right. now exists au, status, st, p.
Qed.

(** ** The seeded database *)

Lemma seed_data_seeded a b c s : seed_data a b c s = s \/ users s = [].
Proof.
  unfold seed_data. destruct (users s); [now right|now left].
Qed.

Lemma seeded_wf a b c : wf (seed_data a b c empty_db).
Proof.
  split; [|split].
  - unfold positive_prices. vm_compute. repeat constructor.
  - constructor.
  - constructor.
Qed.

Lemma seeded_balanced a b c : balanced (seed_data a b c empty_db).
Proof.
  apply balanced_rows.
  - vm_compute. repeat (constructor; [eexists; reflexivity|]). constructor.
  - vm_compute. repeat constructor.
Qed.

Lemma seeded_solvent a b c : solvent (seed_data a b c empty_db).
Proof.
  split; [apply seeded_wf|]. split.
  - vm_compute. repeat constructor; discriminate.
  - vm_compute. repeat constructor; discriminate.
Qed.

(** ** Ordered queries *)

Section OrderBy.
Context {A : Type}.
Variable key : A -> Z.

Let asc (a b : A) : Prop := key a <= key b.
Let desc (a b : A) : Prop := key b <= key a.

Lemma insert_by_perm r rows : Permutation (insert_by key r rows) (r :: rows).
Proof.
  induction rows as [|x rows IH]; cbn; [reflexivity|].
  destruct (key r <=? key x); [reflexivity|].
  rewrite IH. apply perm_swap.
Qed.

Lemma order_by_asc_perm rows : Permutation (order_by_asc key rows) rows.
Proof.
  induction rows as [|x rows IH]; cbn; [reflexivity|].
  fold (order_by_asc key rows). rewrite insert_by_perm. now constructor.
Qed.

Lemma order_by_desc_perm rows : Permutation (order_by_desc key rows) rows.
Proof.
  unfold order_by_desc. rewrite <- Permutation_rev. apply order_by_asc_perm.
Qed.

Lemma insert_by_sorted r rows :
  StronglySorted asc rows -> StronglySorted asc (insert_by key r rows).
Proof.
  induction rows as [|x rows IH]; intros H; cbn.
  - constructor; constructor.
  - inversion H as [|? ? Hs Hx]; subst.
    destruct (key r <=? key x) eqn:E.
    + apply Z.leb_le in E. constructor; [exact H|].
      constructor; [exact E|].
      eapply Forall_impl; [|exact Hx]. intros y Hy. unfold asc in *. lia.
    + apply Z.leb_gt in E. constructor; [now apply IH|].
      eapply Permutation_Forall; [symmetry; apply insert_by_perm|].
      constructor; [unfold asc; lia|exact Hx].
Qed.

Lemma order_by_asc_sorted rows : StronglySorted asc (order_by_asc key rows).
Proof.
  induction rows as [|x rows IH]; cbn; [constructor|].
  now apply insert_by_sorted.
Qed.

Lemma sorted_app_last rows x :
  StronglySorted desc rows -> Forall (fun y => key x <= key y) rows ->
  StronglySorted desc (rows ++ [x]).
Proof.
  induction rows as [|y rows IH]; intros Hs Hx; cbn.
  - constructor; constructor.
  - inversion Hs as [|? ? Hs' Hy]; subst.
    inversion Hx as [|? ? Hxy Hx']; subst.
    constructor; [now apply IH|].
    apply Forall_app. split; [exact Hy|]. constructor; [exact Hxy|constructor].
Qed.

Lemma sorted_rev rows :
  StronglySorted asc rows -> StronglySorted desc (rev rows).
Proof.
  induction rows as [|x rows IH]; intros H; cbn; [constructor|].
  inversion H as [|? ? Hs Hx]; subst.
  apply sorted_app_last; [now apply IH|].
  apply Forall_rev. exact Hx.
Qed.

Lemma order_by_desc_sorted rows : StronglySorted desc (order_by_desc key rows).
Proof. apply sorted_rev, order_by_asc_sorted. Qed.

(** Rows that are in the order of their keys are returned as they are. *)
Lemma insert_by_first r rows :
  Forall (fun x => key r < key x) rows -> insert_by key r rows = r :: rows.
Proof.
  destruct rows as [|x rows]; intros H; cbn; [reflexivity|].
  inversion H as [|? ? Hx _]; subst.
  destruct (key r <=? key x) eqn:E; [reflexivity|].
  apply Z.leb_gt in E. lia.
Qed.

Lemma order_by_asc_id rows :
  StronglySorted (fun a b => key a < key b) rows ->
  order_by_asc key rows = rows.
Proof.
  induction rows as [|x rows IH]; intros H; cbn; [reflexivity|].
  inversion H as [|? ? Hs Hx]; subst.
  fold (order_by_asc key rows). rewrite (IH Hs). now apply insert_by_first.
Qed.
End OrderBy.

(** ** Seeding any database *)

Lemma Forall_add_all {A B : Type} (key : A -> Z) (row : Z -> B -> A)
    (P : A -> Prop) (Q : B -> Prop) new :
  (forall id b, Q b -> P (row id b)) -> Forall Q new ->
  forall rows, Forall P (add_all key row rows new).
Proof.
  intros HPQ. induction new as [|b new IH]; intros Hnew rows; cbn;
    [constructor|].
  inversion Hnew as [|? ? Hb Hrest]; subst.
  constructor; [now apply HPQ|now apply IH].
Qed.

Lemma next_id_app_le {A : Type} (key : A -> Z) rows more :
  next_id key rows <= next_id key (rows ++ more).
Proof.
  unfold next_id. rewrite map_app, fold_right_app.
  assert (Hz : 0 <= fold_right Z.max 0 (map key more)).
  { induction (map key more) as [|k ks IHk]; cbn [fold_right]; lia. }
  revert Hz. generalize (fold_right Z.max 0 (map key more)). intros z Hz.
  induction (map key rows) as [|k ks IHk]; cbn [fold_right]; lia.
Qed.

(** The rows [add_all] makes have keys above those of the table. *)
Lemma add_all_keys {A B : Type} (key : A -> Z) (row : Z -> B -> A) new :
  (forall id b, key (row id b) = id) ->
  forall rows,
    Forall (fun r => next_id key rows <= key r) (add_all key row rows new).
Proof.
  intros Hkey. induction new as [|b new IH]; intros rows; cbn [add_all];
    [constructor|].
  constructor; [rewrite Hkey; lia|].
  eapply Forall_impl; [|apply IH]. cbv beta. intros r Hr.
  pose proof (next_id_app_le key rows [row (next_id key rows) b]). lia.
Qed.

(** The escrow a seeded project is given is the one its key finds. *)
Lemma seeded_escrow_first pid ps : forall rows,
  let es :=
    add_all Escrow.id
      (fun id p => Escrow.mk id (Project.id p) (Project.funding_raised p) 0)
      rows ps in
  match get Project.id pid ps with
  | Some p =>
      exists e,
        first (escrow_of pid) es = Some e /\
        Escrow.total_locked e = Project.funding_raised p /\
        Escrow.total_released e = 0
  | None => first (escrow_of pid) es = None
  end.
Proof.
  induction ps as [|p ps IH]; intros rows; cbv zeta.
  - reflexivity.
  - cbn [add_all]. unfold get, first. cbn [find]. cbv [escrow_of].
    cbn [Escrow.project_id].
    destruct (Project.id p =? pid) eqn:E.
    + eexists. split; [reflexivity|]. split; reflexivity.
    + exact (IH _).
Qed.

Lemma seed_projects_sound :
  Forall (fun b => 0 < sp_token_price b /\ 0 <= sp_funding_raised b)
    seed_projects.
Proof. repeat constructor; discriminate. Qed.

(** Seeding keeps a database well-formed, balanced and solvent. *)
Lemma seed_data_keeps a b c s :
  wf s -> balanced s -> solvent s ->
  wf (seed_data a b c s) /\ balanced (seed_data a b c s) /\
  solvent (seed_data a b c s).
Proof.
  intros Hwf Hbal Hsol.
  destruct (seed_data_seeded a b c s) as [->|Hu]; [auto|].
  unfold seed_data. rewrite Hu. cbn [first find]. cbv zeta.
  set (ps := add_all Project.id _ (projects s) seed_projects).
  set (es := add_all Escrow.id _ (escrows s) ps).
  set (ms := add_all Milestone.id _ (milestones s) _).
  set (us := add_all User.id _ [] _).
  destruct Hwf as [Hpp [Hh Hl]]. destruct Hbal as [Hep Hb].
  destruct Hsol as (_ & He & Hm).
  assert (P1 : Forall (fun p => 0 < Project.token_price p /\
                                0 <= Project.funding_raised p) ps).
  { apply (Forall_add_all _ _
             (fun p => 0 < Project.token_price p /\
                       0 <= Project.funding_raised p)
             (fun b => 0 < sp_token_price b /\ 0 <= sp_funding_raised b));
      [intros id x Hx; exact Hx|exact seed_projects_sound]. }
  assert (P2 : Forall (fun p => next_id Project.id (projects s) <= Project.id p)
                 ps).
  { apply add_all_keys. reflexivity. }
  assert (E1 : Forall (fun e => 0 <= Escrow.total_locked e /\
                                0 <= Escrow.total_released e) es).
  { apply (Forall_add_all _ _
             (fun e => 0 <= Escrow.total_locked e /\
                       0 <= Escrow.total_released e)
             (fun p => 0 <= Project.funding_raised p)).
    - intros id p Hp. cbn. lia.
    - eapply Forall_impl; [|exact P1]. cbv beta. intros p Hp. lia. }
  assert (E2 : Forall (fun e => exists p, In p ps /\
                                  Escrow.project_id e = Project.id p) es).
  { apply (Forall_add_all _ _
             (fun e => exists p, In p ps /\
                                 Escrow.project_id e = Project.id p)
             (fun p => In p ps)).
    - intros id p Hp. exists p. split; [exact Hp|reflexivity].
    - now apply Forall_forall. }
  assert (M1 : Forall (fun m => 0 <= Milestone.escrow_release_percent m) ms).
  { apply (Forall_add_all _ _
             (fun m => 0 <= Milestone.escrow_release_percent m)
             (fun m : Z * (string * Z * milestone_status) =>
                snd (fst (snd m)) = 20)).
    - intros id [pid [[title percent] status]] Hpc. cbn in Hpc |- *. lia.
    - apply Forall_forall. intros m Hin. apply in_flat_map in Hin.
      destruct Hin as (p & _ & Hin). apply in_map_iff in Hin.
      destruct Hin as (x & <- & Hin). cbn.
      repeat (destruct Hin as [<-|Hin]; [reflexivity|]). destruct Hin. }
  assert (Hnew : forall pid p, get Project.id pid ps = Some p ->
                               get Project.id pid (projects s) = None).
  { intros pid p Hp. apply get_some_in in Hp. destruct Hp as [Hin <-].
    rewrite Forall_forall in P2. specialize (P2 p Hin).
    destruct (get Project.id (Project.id p) (projects s)) as [p0|] eqn:E;
      [|reflexivity].
    apply get_some_in in E. destruct E as [Hin0 E].
    pose proof (next_id_gt Project.id _ _ Hin0). lia. }
  split; [|split].
  - split; [|split; assumption].
    unfold positive_prices. cbn [projects]. apply Forall_app.
    split; [exact Hpp|]. eapply Forall_impl; [|exact P1].
    cbv beta. intros p Hp. lia.
  - split.
    + unfold escrows_of_projects, in_catalog. cbn [escrows projects].
      apply Forall_app. split.
      * eapply Forall_impl; [|exact Hep]. cbv beta. intros e [p Hp].
        exists p. now apply get_app_some.
      * eapply Forall_impl; [|exact E2]. cbv beta. intros e (p & Hin & ->).
        apply get_in_some. apply in_or_app. now right.
    + intros pid p Hget. unfold transparency. cbn [escrows projects] in *.
      unfold get in Hget. rewrite first_app in Hget.
      fold (get Project.id pid (projects s)) in Hget.
      fold (get Project.id pid ps) in Hget.
      pose proof (seeded_escrow_first pid ps (escrows s)) as Hes.
      cbv zeta in Hes. fold es in Hes.
      rewrite first_app.
      destruct (get Project.id pid (projects s)) as [p0|] eqn:Hp0.
      * injection Hget as <-. specialize (Hb pid p0 Hp0).
        unfold transparency in Hb.
        destruct (first (escrow_of pid) (escrows s)); [exact Hb|].
        destruct (get Project.id pid ps) as [p1|] eqn:Hp1.
        -- rewrite (Hnew _ _ Hp1) in Hp0. discriminate Hp0.
        -- rewrite Hes. exact Hb.
      * rewrite Hget in Hes. destruct Hes as (e & -> & HL & HR).
        destruct (first (escrow_of pid) (escrows s)) as [e0|] eqn:Ee0.
        -- apply first_some in Ee0. destruct Ee0 as [Hin0 Ek].
           unfold escrow_of in Ek. apply Z.eqb_eq in Ek.
           unfold escrows_of_projects in Hep. rewrite Forall_forall in Hep.
           destruct (Hep e0 Hin0) as [p1 Hp1].
           rewrite Ek, Hp0 in Hp1. discriminate Hp1.
        -- cbn. lia.
  - split; [|split].
    + unfold positive_prices. cbn [projects]. apply Forall_app.
      split; [exact Hpp|]. eapply Forall_impl; [|exact P1].
      cbv beta. intros p Hp. lia.
    + cbn [escrows]. apply Forall_app. split; assumption.
    + cbn [milestones]. apply Forall_app. split; assumption.
Qed.

(** ** The ledger from its seed on *)

(** X1. Seeding is idempotent: [seed_data] on a database it has seeded,
    whatever the password hashes of the second run, leaves the database as
    the first run made it, so the users, projects, escrows and milestones
    of the seed are never added twice. *)
Theorem seed_data_idempotent (a b c a' b' c' : string) (s : db) :
  seed_data a' b' c' (seed_data a b c s) = seed_data a b c s.
Proof.
  unfold seed_data. destruct (users s) as [|u us] eqn:Hu; cbn [first find].
  - reflexivity.
  - now rewrite Hu.
Qed.

(** X2. Seeding keeps the ledger sound. If the database is well-formed
    (positive token prices, no negative holding, positive listed counts),
    balanced (every escrow belongs to a project, and what it holds and has
    released adds up to what the project has raised) and solvent (no
    negative escrow total or release percent), it is so after [seed_data]:
    every seeded project has a positive token price and an escrow that locks
    exactly its [funding_raised] with nothing released, and every seeded
    milestone releases 20%. *)
Theorem seed_data_sound (a b c : string) (s : db) :
  wf s -> balanced s -> solvent s ->
  wf (seed_data a b c s) /\ balanced (seed_data a b c s) /\
  solvent (seed_data a b c s).
Proof. apply seed_data_keeps. Qed.

Lemma empty_db_sound : wf empty_db /\ balanced empty_db /\ solvent empty_db.
Proof.
  split; [|split].
  - repeat constructor.
  - split; [constructor|]. intros pid p H. discriminate H.
  - repeat constructor.
Qed.

Lemma seed_data_sound_witness :
  wf Demo.seeded /\ balanced Demo.seeded /\ solvent Demo.seeded.
Proof.
  apply (seed_data_sound "#1" "#2" "#3" empty_db); apply empty_db_sound.
Defined.

(** X3. The escrow of a project accounts for all it has raised. From a
    balanced database on, in every state the routes reach, the totals that
    GET /api/projects/<id>/transparency reports for a project add up to the
    project's [funding_raised]: an investment adds its amount to both, a
    milestone proof moves the released amount from [locked] to [released],
    and a new project starts with both at zero. *)
Theorem escrow_conservation (s0 s : db) (pid : Z) (p : Project.t) :
  balanced s0 -> reachable s0 s ->
  get Project.id pid (projects s) = Some p ->
  locked (transparency pid s) + released (transparency pid s) =
  Project.funding_raised p.
Proof.
  intros H0 Hr Hp. exact (proj2 (reachable_balanced _ _ H0 Hr) pid p Hp).
Qed.

Lemma escrow_conservation_witness :
  option_map Project.funding_raised
    (get Project.id 1 (projects Demo.evening)) =
  Some (locked (transparency 1 Demo.evening)
        + released (transparency 1 Demo.evening)).
Proof.
  destruct (get Project.id 1 (projects Demo.evening)) as [p|] eqn:E.
  - cbn [option_map]. f_equal. symmetry.
    apply (escrow_conservation Demo.seeded Demo.evening 1 p).
    + apply seeded_balanced.
    + apply run_reachable. constructor.
    + exact E.
  - vm_compute in E. discriminate E.
Defined.

(** X4. No escrow total goes negative, and no project releases more than it
    has raised. From a database that is balanced and solvent on, in every
    state the routes reach, the [locked] and [released] totals of every
    project are non-negative and [released] is at most the project's
    [funding_raised]: an accepted investment pays a positive amount, and a
    release is between zero and what is locked. *)
Theorem escrow_never_negative (s0 s : db) (pid : Z) (p : Project.t) :
  balanced s0 -> solvent s0 -> reachable s0 s ->
  get Project.id pid (projects s) = Some p ->
  0 <= locked (transparency pid s) /\
  0 <= released (transparency pid s) <= Project.funding_raised p.
Proof.
  intros Hb Hs Hr Hp.
  pose proof (proj2 (reachable_balanced _ _ Hb Hr) pid p Hp) as Hsum.
  destruct (reachable_solvent _ _ Hs Hr) as (_ & He & _).
  assert (Hv : 0 <= locked (transparency pid s) /\
               0 <= released (transparency pid s)).
  { unfold transparency.
    destruct (first (escrow_of pid) (escrows s)) as [e|] eqn:Ee; cbn; [|lia].
    rewrite Forall_forall in He.
    exact (He e (proj1 (first_some _ _ _ Ee))). }
  lia.
Qed.

Lemma escrow_never_negative_witness :
  0 <= locked (transparency 1 Demo.evening) /\
  0 <= released (transparency 1 Demo.evening) <= 1250250.
Proof.
  apply (escrow_never_negative Demo.seeded Demo.evening 1
           (Project.mk 1 (Some 2) "Raipur Smart Road Phase-2" "Road"
              "Raipur, Chhattisgarh"
              "Upgrading 12km road with smart streetlights, drainage and safety upgrades."
              5000000 1250250 100 (binary64 6473924464345088 (-49)) 24
              "MEDIUM" 58 ACTIVE)).
  - apply seeded_balanced.
  - apply seeded_solvent.
  - apply run_reachable. constructor.
  - vm_compute. reflexivity.
Defined.

(** X5. The ledger reconciles with the transaction log. Over any sequence
    of requests, for every project, the tokens held by all holders change
    by exactly the tokens that the MINT transactions appended since have
    issued, and [funding_raised] changes by exactly the amounts those
    transactions record: investments mint, purchases only move tokens
    between holders, and no other route touches either. *)
Theorem ledger_reconciles (s0 s : db) (pid : Z) :
  reachable s0 s ->
  supply pid s - supply pid s0 = minted pid s - minted pid s0 /\
  raised pid s - raised pid s0 = paid pid s - paid pid s0.
Proof.
  intros Hr. pose proof (reachable_accounts s0 s pid Hr). lia.
Qed.

Lemma ledger_reconciles_witness :
  supply 1 Demo.evening - 0 = 2 - 0 /\
  raised 1 Demo.evening - 1250000 = 250 - 0.
Proof.
  apply (ledger_reconciles Demo.seeded Demo.evening 1).
  apply run_reachable. constructor.
Defined.

(** ** Holdings, milestones, statuses and the log over time *)

(** X6. A holder has one holding per project. The routes create a holding
    only where the query for the holder and project finds none, and write
    to the one it finds otherwise; so from holdings that are one per holder
    and project on, they stay so in every state the routes reach, and a
    portfolio lists every project once. *)
Theorem one_holding_per_project (s0 s : db) (au : auth_user) :
  NoDup (map holder (holdings s0)) -> reachable s0 s ->
  NoDup (map holder (holdings s)) /\
  NoDup (map pf_project_id (portfolio_rows au s)).
Proof.
  intros H0 Hr. pose proof (reachable_holders _ _ H0 Hr) as Hn.
  split; [exact Hn|]. exact (proj1 (portfolio_projects au s Hn)).
Qed.

Lemma one_holding_per_project_witness :
  NoDup (map holder (holdings Demo.evening)) /\
  NoDup (map pf_project_id (portfolio_rows Demo.investor Demo.evening)).
Proof.
  apply (one_holding_per_project Demo.seeded Demo.evening Demo.investor).
  - constructor.
  - apply run_reachable. constructor.
Defined.

(** X7. A completed milestone is final. In every state the routes reach,
    a milestone that was COMPLETED is the row it was, with its status and
    proof reference; and a proof submitted for it, by whomever and whatever
    the proof, leaves the database as it is, so the escrow is released for
    a milestone at most once. *)
Theorem completed_milestone_final (s0 s : db) (mid : Z) (m : Milestone.t) :
  get Milestone.id mid (milestones s0) = Some m ->
  Milestone.status m = COMPLETED ->
  reachable s0 s ->
  get Milestone.id mid (milestones s) = Some m /\
  forall auth url, snd (issuer_submit_milestone_proof auth mid url s) = s.
Proof.
  intros Hm Hst Hr.
  pose proof (reachable_keeps_completed _ _ _ _ Hm Hst Hr) as Hs.
  split; [exact Hs|]. intros auth url.
  destruct (issuer_submit_milestone_proof auth mid url s) as [resp s'] eqn:H.
  cbn [snd]. destruct resp as [b|code msg].
  - destruct (submit_ok_escrows _ _ _ _ _ _ H)
      as [[_ ->]|(au & m0 & p & x & _ & _ & Hm0 & Hpend & _)]; [reflexivity|].
    rewrite Hs in Hm0. injection Hm0 as <-. congruence.
  - exact (route_rejects (SubmitProof auth mid url) _ _ _ H eq_refl I).
Qed.

Lemma completed_milestone_final_witness :
  get Milestone.id 1 (milestones Demo.evening) =
    Some (Milestone.mk 1 1 "Tender Approved" 20 COMPLETED "") /\
  forall auth url,
    snd (issuer_submit_milestone_proof auth 1 url Demo.evening) = Demo.evening.
Proof.
  apply (completed_milestone_final Demo.seeded Demo.evening 1).
  - reflexivity.
  - reflexivity.
  - apply run_reachable. constructor.
Defined.

(** X8. Only the issuer of its project changes a milestone, and only by
    completing it. If the row a milestone id finds differs after a request,
    the request was a proof submitted for that milestone with the role
    ISSUER by the user who is the [issuer_id] of the milestone's project,
    the proof was not empty, the milestone was PENDING, and the row after
    is the row before with status COMPLETED and that proof. *)
Theorem milestone_changed_by_issuer_only (r : request) (s : db) (mid : Z)
    (m m' : Milestone.t) :
  get Milestone.id mid (milestones s) = Some m ->
  get Milestone.id mid (milestones (snd (handle r s))) = Some m' ->
  m' <> m ->
  exists au url p,
    r = SubmitProof (Some au) mid url /\ role au = "ISSUER"%string /\
    url <> ""%string /\
    get Project.id (Milestone.project_id m) (projects s) = Some p /\
    Project.issuer_id p = Some (user_id au) /\
    Milestone.status m = MS_PENDING /\
    m' = Milestone.complete url m.
Proof.
  intros Hm Hm' Hne.
  destruct (handle_milestone r s mid m Hm)
    as [H|(au & url & p & Hr & Hrole & Hurl & Hp & Hown & Hpend & H)];
    rewrite H in Hm'; injection Hm' as <-.
  - now destruct Hne.
  - exists au, url, p. repeat (split; [assumption|]). reflexivity.
Qed.

Lemma milestone_changed_by_issuer_only_witness :
  exists au url p,
    SubmitProof (Some Demo.issuer) 3 "/uploads/p3.pdf" =
      SubmitProof (Some au) 3 url /\
    role au = "ISSUER"%string /\ url <> ""%string /\
    get Project.id 1 (projects Demo.seeded) = Some p /\
    Project.issuer_id p = Some (user_id au) /\
    MS_PENDING = MS_PENDING /\
    Milestone.mk 3 1 "25% Completion Proof" 20 COMPLETED "/uploads/p3.pdf" =
      Milestone.complete url
        (Milestone.mk 3 1 "25% Completion Proof" 20 MS_PENDING "").
Proof.
  apply (milestone_changed_by_issuer_only
           (SubmitProof (Some Demo.issuer) 3 "/uploads/p3.pdf") Demo.seeded 3
           (Milestone.mk 3 1 "25% Completion Proof" 20 MS_PENDING "")
           (Milestone.mk 3 1 "25% Completion Proof" 20 COMPLETED
              "/uploads/p3.pdf")).
  - reflexivity.
  - vm_compute. reflexivity.
  - discriminate.
Defined.

(** X9. Only an admin changes the status of a project. After any request,
    a project has the status it had, unless the request was a status
    update for that project by a user with the role ADMIN, naming the
    status it now has; and a project that was not there before was created
    by the request of a user with the role ISSUER, is that user's, is
    PENDING and has raised nothing. *)
Theorem status_changed_by_admin_only (r : request) (s : db) (pid : Z)
    (p' : Project.t) :
  get Project.id pid (projects (snd (handle r s))) = Some p' ->
  match get Project.id pid (projects s) with
  | Some p =>
      Project.status p' = Project.status p \/
      exists au name,
        r = SetStatus (Some au) pid name /\ role au = "ADMIN"%string /\
        parse_status name = Some (Project.status p')
  | None =>
      Project.status p' = PENDING /\ Project.funding_raised p' = 0 /\
      exists au title category location description funding_target
             token_price roi_percent tenure_months ms,
        r = CreateProject (Some au) title category location description
              funding_target token_price roi_percent tenure_months ms /\
        role au = "ISSUER"%string /\
        Project.issuer_id p' = Some (user_id au)
  end.
Proof.
  intros Hp'.
  destruct (handle_status r s pid p' Hp')
    as [(p & -> & Hst)|[(-> & Hst & Hfr & Hby)|(au & name & st & p & -> & Hrole
                                                & Hparse & -> & ->)]].
  - now left.
  - repeat (split; [assumption|]). exact Hby.
  - right. exists au, name. repeat (split; [reflexivity || assumption|]).
    exact Hparse.
Qed.

Lemma status_changed_by_admin_only_witness :
  ACTIVE = PENDING \/
  exists au name,
    SetStatus (Some Demo.admin) 9 "ACTIVE" = SetStatus (Some au) 9 name /\
    role au = "ADMIN"%string /\ parse_status name = Some ACTIVE.
Proof.
  exact (status_changed_by_admin_only
           (SetStatus (Some Demo.admin) 9 "ACTIVE") Demo.seeded 9
           (Project.mk 9 (Some 2) "Lucknow Smart Traffic Signal System"
              "Smart City" "Lucknow, Uttar Pradesh"
              "Adaptive traffic signals with AI-based congestion control."
              9500000 0 100 (binary64 7036874417766400 (-49)) 30 "MEDIUM" 52
              ACTIVE)
           eq_refl).
Defined.

(** X10. The transaction log is append-only. In every state the routes
    reach, the transactions are those of the state they started from, in
    their order and unchanged, followed by the transactions appended since:
    no route removes or rewrites a transaction. *)
Theorem transaction_log_append_only (s0 s : db) :
  reachable s0 s -> exists more, transactions s = transactions s0 ++ more.
Proof.
  intros Hr. induction Hr as [|s r _ [more IH]].
  - exists []. now rewrite app_nil_r.
  - destruct (handle_log r s) as [more' H]. exists (more ++ more').
    now rewrite H, IH, app_assoc.
Qed.

Lemma transaction_log_append_only_witness :
  exists more, transactions Demo.evening = transactions Demo.seeded ++ more.
Proof.
  apply (transaction_log_append_only Demo.seeded Demo.evening).
  apply run_reachable. constructor.
Defined.

(** ** Approval and freezing *)

(** Under unique keys, the row a key finds is the only row of that key. *)
Lemma get_unique {A : Type} (key : A -> Z) rows r :
  NoDup (map key rows) -> In r rows -> get key (key r) rows = Some r.
Proof.
  unfold get, first. induction rows as [|x rows IH]; intros Hn Hin;
    [destruct Hin|].
  cbn [map] in Hn. inversion Hn as [|? ? Hx Hrest]; subst. cbn [find].
  destruct Hin as [->|Hin]; [now rewrite Z.eqb_refl|].
  destruct (key x =? key r) eqn:E; [|now apply IH].
  apply Z.eqb_eq in E. destruct Hx. rewrite E. now apply in_map.
Qed.

Lemma invest_closed (au : auth_user) (pid amount : Z) (tx : string) (s : db)
    (p : Project.t) :
  role au = "INVESTOR"%string ->
  get Project.id pid (projects s) = Some p ->
  Project.status p <> ACTIVE ->
  invest (Some au) pid amount tx s =
  (Err 400 "Project is not available for investment", s).
Proof.
  intros Hrole Hp Hst. unfold invest.
  apply String.eqb_eq in Hrole. rewrite Hrole, Hp. cbn [negb].
  destruct (project_status_eqb (Project.status p) ACTIVE) eqn:E;
    [|reflexivity].
  now apply project_status_eqb_eq in E.
Qed.

Lemma list_projects_in (s : db) (pid : Z) :
  In pid (map c_id (list_projects s)) <->
  exists p, In p (projects s) /\ Project.id p = pid /\
            Project.status p = ACTIVE.
Proof.
  unfold list_projects. rewrite map_map. cbn [c_id card_of]. split.
  - intros H. apply in_map_iff in H. destruct H as (p & <- & H).
    apply filter_In in H. destruct H as [Hin Hst].
    exists p. split; [exact Hin|]. split; [reflexivity|].
    now apply project_status_eqb_eq.
  - intros (p & Hin & <- & Hst). apply in_map_iff. exists p.
    split; [reflexivity|]. apply filter_In. split; [exact Hin|].
    now apply project_status_eqb_eq.
Qed.

(** X11. A new project awaits approval. After a successful creation the
    project is PENDING under a fresh key: the catalog of GET /api/projects
    does not show it, although GET /api/projects/<id> does, and an
    investment in it is refused with the database unchanged. Once an admin
    has set its status to ACTIVE the catalog shows it and, no escrow and no
    holding having referred to the fresh key, an investor's payment of at
    least its token price is accepted when it is below 2^63, what an
    Integer column holds, and answered 500 with nothing written when it is
    not. *)
Theorem new_project_awaits_approval (auth : option auth_user)
    (title category location description : string)
    (funding_target token_price : Z) (roi_percent : Py.float)
    (tenure_months : Z) (ms : list (string * Z)) (s s' : db) (b : body) :
  issuer_create_project auth title category location description
    funding_target token_price roi_percent tenure_months ms s = (Ok b, s') ->
  let pid := next_id Project.id (projects s) in
  b = ProjectCreated pid PENDING /\
  ~ In pid (map c_id (list_projects s')) /\
  (exists card,
     project_details pid s' = Json card /\ c_status card = PENDING /\
     c_funding_raised card = 0 /\ c_token_price card = token_price) /\
  (forall inv amount tx,
     role inv = "INVESTOR"%string ->
     invest (Some inv) pid amount tx s' =
     (Err 400 "Project is not available for investment", s')) /\
  (forall adm,
     role adm = "ADMIN"%string ->
     exists s'',
       admin_update_project_status (Some adm) pid "ACTIVE" s' =
       (Ok (StatusUpdated ACTIVE), s'') /\
       In pid (map c_id (list_projects s'')) /\
       (escrows_of_projects s ->
        Forall (fun h => in_catalog (TokenHolding.project_id h) s)
          (holdings s) ->
        forall inv amount tx,
          role inv = "INVESTOR"%string -> token_price <= amount ->
          (amount < 2 ^ 63 ->
           exists s3,
             invest (Some inv) pid amount tx s'' =
             (Ok (Invested tx (amount / token_price)), s3)) /\
          (2 ^ 63 <= amount ->
           invest (Some inv) pid amount tx s'' =
           (Err 500 "Internal Server Error", s'')))).
Proof.
  intros H pid.
  pose proof (create_ok_tables _ _ _ _ _ _ _ _ _ _ _ _ _ H)
    as (p0 & rows & Hps0 & Hprice & _ & Hes & _ & Hh & _).
  assert (Htp : exists p, projects s' = projects s ++ [p] /\
                          Project.id p = pid /\ Project.status p = PENDING /\
                          Project.funding_raised p = 0 /\
                          Project.token_price p = token_price /\
                          b = ProjectCreated pid PENDING).
  { unfold issuer_create_project in H. cbv zeta in H.
    do 6 branch H. injection H as <- <-. db_simpl.
    eexists. split; [reflexivity|]. repeat (split; [reflexivity|]).
    reflexivity. }
  destruct Htp as (p & Hps & Hid & Hst & Hfr & Htk & ->).
  rewrite Hps in Hps0. apply app_inj_tail in Hps0. destruct Hps0 as [_ <-].
  rewrite Htk in Hprice.
  assert (Hget : get Project.id pid (projects s') = Some p).
  { rewrite Hps, <- Hid. apply get_app_new. exact Hid. }
  split; [reflexivity|]. split; [|split; [|split]].
  - rewrite list_projects_in. intros (q & Hin & Hq & Hact).
    rewrite Hps in Hin. apply in_app_or in Hin. destruct Hin as [Hin|[<-|[]]].
    + pose proof (next_id_gt Project.id _ _ Hin). unfold pid in Hq. lia.
    + congruence.
  - exists (card_of p). unfold project_details. rewrite Hget, Hst. cbn.
    repeat split; assumption.
  - intros inv amount tx Hrole. apply (invest_closed _ _ _ _ _ p Hrole Hget).
    congruence.
  - intros adm Hrole. unfold admin_update_project_status.
    apply String.eqb_eq in Hrole. rewrite Hrole, Hget.
    cbn [negb]. change (parse_status "ACTIVE") with (Some ACTIVE).
    cbv iota. eexists. split; [reflexivity|]. db_simpl.
    assert (Hget' : get Project.id pid
                      (update_first (fun r => Project.id r =? pid)
                         (Project.set_status ACTIVE) (projects s')) =
                    Some (Project.set_status ACTIVE p))
      by now apply get_update_first_same.
    split.
    + apply list_projects_in. exists (Project.set_status ACTIVE p).
      db_simpl. split; [exact (proj1 (first_some _ _ _ Hget'))|].
      split; [exact Hid|reflexivity].
    + intros Hesc Hhold inv amount tx Hinv Hamount.
      assert (Hdiv : 0 < amount / token_price)
        by (apply Z.div_str_pos; lia).
      assert (Hdle : amount / token_price <= amount).
      { apply Z.div_le_upper_bound; [lia|]. nia. }
      set (s'' := set_projects _ s').
      set (p'' := Project.set_status ACTIVE p).
      assert (Hheld : first (holding_of (user_id inv) (Project.id p''))
                        (holdings s'') = None).
      { subst s'' p''. db_simpl. rewrite Hh. cbn [Project.id Project.set_status].
        rewrite Hid. unfold first.
        destruct (find _ (holdings s)) as [h|] eqn:E; [|reflexivity].
        apply find_some in E. destruct E as [Hin E].
        apply holding_of_true in E. destruct E as [_ E].
        rewrite Forall_forall in Hhold. destruct (Hhold h Hin) as [q Hq].
        rewrite E in Hq. unfold pid in Hq. rewrite get_next_id in Hq.
        discriminate Hq. }
      assert (Hlocked : locked (transparency (Project.id p'') s'') = 0).
      { subst s'' p''. unfold transparency. db_simpl. rewrite Hes.
        cbn [Project.id Project.set_status]. rewrite Hid.
        rewrite first_none_app by (apply no_escrow_of_next; exact Hesc).
        cbn. unfold escrow_of. cbn. rewrite Z.eqb_refl. reflexivity. }
      assert (Hnone : tokens_held (user_id inv) (Project.id p'') s'' = 0).
      { unfold tokens_held. now rewrite Hheld. }
      destruct (invest_accepts inv pid amount tx s'' p'' Hinv Hget' eq_refl)
        as [Hyes Hno].
      { subst p''. cbn [Project.token_price Project.set_status].
        now rewrite Htk. }
      { rewrite Hnone. lia. }
      assert (Hinv' : investable (user_id inv) amount p'' s'' <->
                      amount < 2 ^ 63).
      { unfold investable. cbv zeta. rewrite Hlocked, Hnone, Hheld.
        replace (Project.funding_raised p'') with 0
          by (subst p''; cbn; now rewrite Hfr).
        replace (Project.token_price p'') with token_price
          by (subst p''; cbn; now rewrite Htk).
        rewrite !int64_spec. split.
        - intros (_ & _ & _ & Ha & _). lia.
        - intros Ha. repeat split; try lia. intros h Hh'. discriminate Hh'. }
      replace (Project.token_price p'') with token_price in Hyes
        by (subst p''; cbn; now rewrite Htk).
      split.
      * intros Ha. apply Hyes, Hinv'. exact Ha.
      * intros Ha. apply Hno. rewrite Hinv'. lia.
Qed.

Lemma new_project_awaits_approval_witness :
  ~ In 13 (map c_id (list_projects (snd (handle Demo.proposal Demo.seeded)))).
Proof.
  apply (new_project_awaits_approval (Some Demo.issuer)
           "Nagpur Metro Feeder Lanes" "Road" "Nagpur, Maharashtra"
           "Feeder lanes to the metro stations." 3000000 50 (Py.of_int 12) 24
           [] Demo.seeded (snd (handle Demo.proposal Demo.seeded))
           (ProjectCreated 13 PENDING)).
  vm_compute. reflexivity.
Defined.

(** X12. A frozen project is closed. After an admin has set the status of a
    project to FROZEN, GET /api/projects/<id> answers 403 for it, an
    investment in it is refused, a purchase of any listing of its tokens is
    refused, both with the database unchanged, the active-listings view
    shows none of its listings and, project keys being unique, the catalog
    does not show it; GET /api/admin/projects/<id>/details still answers the
    admin with the project, now FROZEN. *)
Theorem frozen_project_is_closed (adm : auth_user) (pid : Z) (s s' : db)
    (b : body) :
  NoDup (map Project.id (projects s)) ->
  admin_update_project_status (Some adm) pid "FROZEN" s = (Ok b, s') ->
  project_details pid s' = Refused 403 "Project unavailable" /\
  (forall inv amount tx,
     role inv = "INVESTOR"%string ->
     invest (Some inv) pid amount tx s' =
     (Err 400 "Project is not available for investment", s')) /\
  (forall auth lid tx l,
     get MarketplaceListing.id lid (listings s') = Some l ->
     MarketplaceListing.project_id l = pid ->
     is_ok (fst (buy_listing auth lid tx s')) = false /\
     snd (buy_listing auth lid tx s') = s') /\
  (forall v, In v (view_rows s') -> v_project_id v <> pid) /\
  ~ In pid (map c_id (list_projects s')) /\
  (exists p ms,
     admin_project_details (Some adm) pid s' = Json (p, ms) /\
     Project.id p = pid /\ Project.status p = FROZEN).
Proof.
  intros Hn H.
  destruct (status_ok_admin _ _ _ _ _ _ H)
    as (au & st & p & Hau & Hadm & Hparse & Hp & _ & Hps).
  injection Hau as <-.
  cbn in Hparse. injection Hparse as <-.
  assert (Hget : get Project.id pid (projects s') =
                 Some (Project.set_status FROZEN p)).
  { rewrite Hps. now apply get_update_first_same. }
  split; [|split; [|split; [|split; [|split]]]].
  - unfold project_details. now rewrite Hget.
  - intros inv amount tx Hrole.
    apply (invest_closed _ _ _ _ _ _ Hrole Hget). discriminate.
  - intros auth lid tx l Hl Hlp.
    destruct (buy_listing auth lid tx s') as [resp s''] eqn:Hbuy. cbn [fst snd].
    destruct resp as [b'|code msg].
    + destruct (buy_ok_listing _ _ _ _ _ _ Hbuy) as (bu & l' & -> & Hl').
      rewrite Hl in Hl'. injection Hl' as <-.
      destruct (buy_ok_tables _ _ _ _ _ _ _ Hbuy Hl)
        as (_ & _ & (q & Hq & Hact) & _).
      rewrite Hlp, Hget in Hq. injection Hq as <-. discriminate Hact.
    + split; [reflexivity|].
      exact (buy_listing_rejects _ _ _ _ _ _ Hbuy eq_refl).
  - intros v Hv Hpid.
    destruct (view_rows_active_project s' v Hv) as (q & Hq & Hact).
    rewrite Hpid, Hget in Hq. injection Hq as <-. discriminate Hact.
  - rewrite list_projects_in. intros (q & Hin & Hq & Hact).
    assert (Hn' : NoDup (map Project.id (projects s'))).
    { rewrite Hps, map_update_first; [exact Hn|reflexivity]. }
    pose proof (get_unique Project.id _ _ Hn' Hin) as Hq'.
    rewrite Hq, Hget in Hq'. injection Hq' as <-. discriminate Hact.
  - unfold admin_project_details. rewrite Hadm, Hget. cbn [String.eqb negb].
    do 2 eexists. split; [reflexivity|].
    split; [exact (get_key _ _ _ _ Hp)|reflexivity].
Qed.

Lemma frozen_project_is_closed_witness :
  project_details 1
    (snd (handle (SetStatus (Some Demo.admin) 1 "FROZEN") Demo.evening)) =
  Refused 403 "Project unavailable".
Proof.
  apply (frozen_project_is_closed Demo.admin 1 Demo.evening
           (snd (handle (SetStatus (Some Demo.admin) 1 "FROZEN") Demo.evening))
           (StatusUpdated FROZEN)).
  - vm_compute. repeat (constructor; [cbn; intuition discriminate|]).
    constructor.
  - vm_compute. reflexivity.
Defined.

(** ** Partial releases *)

(** Below [2 ^ 53] a release is the floor of the percent of the balance. *)
Lemma release_of_floor L pct :
  0 <= L -> 0 <= pct <= 100 -> L * pct < 2 ^ 53 ->
  release_of L pct = Some (L * pct / 100).
Proof.
  intros HL Hp Hr. unfold release_of.
  assert (Hn : 0 <= L * pct) by (apply Z.mul_nonneg_nonneg; lia).
  destruct (int_truediv_100_floor (L * pct) (conj Hn Hr)) as (x & -> & ->).
  assert (Hle : L * pct / 100 <= L) by (apply Z.div_le_upper_bound; nia).
  destruct (L * pct / 100 >? L) eqn:E; [|reflexivity].
  rewrite Z.gtb_ltb in E. apply Z.ltb_lt in E. lia.
Qed.

(** X13. A milestone below 100% never empties the escrow. When a proof is
    accepted for a milestone of percent [pct < 100] of a project whose
    escrow holds [L > 0] (with [L * pct] below [2 ^ 53]), the escrow holds
    [L - floor(L * pct / 100)] afterwards if the milestone was pending and
    [L] if it was completed already, a positive balance in both cases: the
    percent applies to what is still locked, so no sequence of milestones
    below 100% releases all of it. *)
Theorem partial_release_keeps_funds (auth : option auth_user) (mid : Z)
    (url : string) (s s' : db) (b : body) (m : Milestone.t) (p : Project.t)
    (e : Escrow.t) :
  get Milestone.id mid (milestones s) = Some m ->
  get Project.id (Milestone.project_id m) (projects s) = Some p ->
  first (escrow_of (Project.id p)) (escrows s) = Some e ->
  0 < Escrow.total_locked e ->
  0 <= Milestone.escrow_release_percent m < 100 ->
  Escrow.total_locked e * Milestone.escrow_release_percent m < 2 ^ 53 ->
  issuer_submit_milestone_proof auth mid url s = (Ok b, s') ->
  let L := Escrow.total_locked e in
  let pct := Milestone.escrow_release_percent m in
  locked (transparency (Project.id p) s') =
    match Milestone.status m with
    | MS_PENDING => L - L * pct / 100
    | COMPLETED => L
    end /\
  0 < locked (transparency (Project.id p) s').
Proof.
  intros Hm Hp He HL Hpct Hrange H L pct.
  assert (Hfloor : L * pct / 100 < L).
  { apply Z.div_lt_upper_bound; [lia|]. subst L pct. nia. }
  destruct (submit_ok_escrows _ _ _ _ _ _ H)
    as [[-> ->]|(au & m0 & p0 & r & _ & _ & Hm0 & Hpend & Hp0 & _ & _ & _
                 & Hes)].
  - assert (Hst : Milestone.status m = COMPLETED).
    { unfold issuer_submit_milestone_proof in H. rewrite Hm, Hp in H.
      destruct auth as [au|]; [|discriminate H].
      destruct (negb _); [discriminate H|].
      destruct (negb _); [discriminate H|].
      destruct (url =? "")%string; [discriminate H|].
      destruct (Milestone.status m) eqn:Est; [|reflexivity].
      exfalso. cbv zeta in H. db_simpl in H. rewrite He in H.
      destruct (match Py.int_truediv _ 100 with
                | Some x => Py.to_int x
                | None => None
                end); [|discriminate H].
      branch H. }
    rewrite Hst. unfold transparency. rewrite He. cbn. fold L. lia.
  - rewrite Hm in Hm0. injection Hm0 as <-.
    rewrite Hp in Hp0. injection Hp0 as <-.
    rewrite He in Hes. destruct Hes as [Hr Hes].
    fold L pct in Hr. rewrite release_of_floor in Hr by (subst L pct; lia).
    injection Hr as <-. rewrite Hpend.
    rewrite (transparency_update _
               (fun x => Escrow.set_total_released
                           (Escrow.total_released e + L * pct / 100)
                           (Escrow.set_total_locked (L - L * pct / 100) x))
               _ _ _ _ He eq_refl Hes).
    rewrite Z.eqb_refl. cbn. lia.
Qed.

Lemma partial_release_keeps_funds_witness :
  locked
    (transparency 1
       (snd (handle (SubmitProof (Some Demo.issuer) 3 "/uploads/p3.pdf")
               Demo.seeded))) =
    1250000 - 1250000 * 20 / 100 /\
  0 < locked
        (transparency 1
           (snd (handle (SubmitProof (Some Demo.issuer) 3 "/uploads/p3.pdf")
                   Demo.seeded))).
Proof.
  apply (partial_release_keeps_funds (Some Demo.issuer) 3 "/uploads/p3.pdf"
           Demo.seeded
           (snd (handle (SubmitProof (Some Demo.issuer) 3 "/uploads/p3.pdf")
                   Demo.seeded))
           (Released 250000 "/uploads/p3.pdf")
           (Milestone.mk 3 1 "25% Completion Proof" 20 MS_PENDING "")
           (Project.mk 1 (Some 2) "Raipur Smart Road Phase-2" "Road"
              "Raipur, Chhattisgarh"
              "Upgrading 12km road with smart streetlights, drainage and safety upgrades."
              5000000 1250000 100 (binary64 6473924464345088 (-49)) 24
              "MEDIUM" 58 ACTIVE)
           (Escrow.mk 1 1 1250000 0)).
  - reflexivity.
  - reflexivity.
  - reflexivity.
  - reflexivity.
  - split; [discriminate|reflexivity].
  - reflexivity.
  - vm_compute. reflexivity.
Defined.

(** ** Portfolios *)

(** X14. An investment shows in the investor's portfolio. After a
    successful investment that issued [tokens] tokens of a project, the
    investor's portfolio has a row for that project whose token count is
    what the investor held of it before plus [tokens], at the project's
    token price. *)
Theorem invest_shows_in_portfolio (au : auth_user) (pid amount : Z)
    (tx : string) (s s' : db) (tokens : Z) :
  invest (Some au) pid amount tx s = (Ok (Invested tx tokens), s') ->
  exists row p,
    In row (portfolio_rows au s') /\
    get Project.id pid (projects s) = Some p /\
    pf_project_id row = pid /\
    pf_tokens row = tokens_held (user_id au) pid s + tokens /\
    pf_token_price row = Project.token_price p /\
    tokens = amount / Project.token_price p.
Proof.
  intros H.
  destruct (invest_ok_project _ _ _ _ _ _ _ H) as (au' & p & [= <-] & Hget).
  destruct (invest_ok_guards _ _ _ _ _ _ _ _ H Hget)
    as (_ & _ & _ & _ & [= Htok]).
  destruct (invest_ok_tables _ _ _ _ _ _ _ _ H Hget)
    as (_ & _ & _ & Hps & _ & Hh & _).
  pose proof (get_key _ _ _ _ Hget) as Hid. rewrite Hid in Hh.
  assert (Hget' : get Project.id pid (projects s') =
                  Some (Project.set_funding_raised
                          (Project.funding_raised p + amount) p)).
  { rewrite Hps. now apply get_update_first_same. }
  assert (Hrow : exists h,
            In h (holdings s') /\ TokenHolding.user_id h = user_id au /\
            TokenHolding.project_id h = pid /\
            TokenHolding.token_count h =
              tokens_held (user_id au) pid s + tokens).
  { unfold tokens_held.
    destruct (first (holding_of (user_id au) pid) (holdings s)) as [h|] eqn:Eh;
      destruct Hh as (avg & _ & Hh).
    - pose proof (proj2 (first_some _ _ _ Eh)) as Hof.
      apply holding_of_true in Hof. destruct Hof as [Hu Hp].
      destruct (update_first_modifies _
                  (fun r => TokenHolding.set_avg_buy_price avg
                              (TokenHolding.set_token_count
                                 (TokenHolding.token_count h
                                  + amount / Project.token_price p) r))
                  _ _ Eh) as (pre & post & _ & Hs').
      rewrite <- Hh in Hs'. eexists. split.
      + rewrite Hs'. apply in_or_app. right. left. reflexivity.
      + cbn. rewrite Htok. auto.
    - eexists. split.
      + rewrite Hh. apply in_or_app. right. left. reflexivity.
      + cbn. rewrite Htok. repeat split. }
  destruct Hrow as (h & Hin & Hu & Hp & Hc).
  eexists _, p. split.
  - unfold portfolio_rows, portfolio. apply in_flat_map. exists h. split.
    + apply filter_In. split; [exact Hin|]. now apply Z.eqb_eq.
    + rewrite Hp, Hget'. left. reflexivity.
  - cbn. rewrite Hid. repeat (split; [reflexivity || assumption|]).
    exact Htok.
Qed.

Lemma invest_shows_in_portfolio_witness :
  exists row p,
    In row
      (portfolio_rows Demo.investor
         (snd (handle (Invest (Some Demo.investor) 1 250 "0xa1")
                 Demo.seeded))) /\
    get Project.id 1 (projects Demo.seeded) = Some p /\
    pf_project_id row = 1 /\
    pf_tokens row = tokens_held 3 1 Demo.seeded + 2 /\
    pf_token_price row = Project.token_price p /\
    2 = 250 / Project.token_price p.
Proof.
  apply (invest_shows_in_portfolio Demo.investor 1 250 "0xa1" Demo.seeded
           (snd (handle (Invest (Some Demo.investor) 1 250 "0xa1")
                   Demo.seeded)) 2).
  vm_compute. reflexivity.
Defined.

(** ** Project lists *)

(** X15. An issuer sees exactly their own projects, newest first. For a
    caller with the role ISSUER, GET /api/issuer/projects answers with the
    rows of the projects whose [issuer_id] is the caller, each once and no
    other, by descending [id], whatever the order of the table. *)
Theorem issuer_projects_own_newest_first (au : auth_user) (s : db) :
  role au = "ISSUER"%string ->
  exists ps,
    issuer_projects (Some au) s = Json (map issuer_row_of ps) /\
    Permutation ps (filter (issued_by (user_id au)) (projects s)) /\
    StronglySorted (fun a b => Project.id b <= Project.id a) ps /\
    forall p, In p ps <->
              In p (projects s) /\ Project.issuer_id p = Some (user_id au).
Proof.
  intros Hrole. apply String.eqb_eq in Hrole.
  exists (order_by_desc Project.id
            (filter (issued_by (user_id au)) (projects s))).
  split; [|split; [|split]].
  - unfold issuer_projects. now rewrite Hrole.
  - apply order_by_desc_perm.
  - apply order_by_desc_sorted.
  - intros p. split.
    + intros Hin.
      apply (Permutation_in _ (order_by_desc_perm Project.id _)) in Hin.
      apply filter_In in Hin. destruct Hin as [Hin Hby].
      split; [exact Hin|]. unfold issued_by in Hby.
      destruct (Project.issuer_id p) as [i|]; [|discriminate Hby].
      apply Z.eqb_eq in Hby. now subst i.
    + intros [Hin Hby].
      apply (Permutation_in _
               (Permutation_sym (order_by_desc_perm Project.id _))).
      apply filter_In. split; [exact Hin|]. unfold issued_by.
      rewrite Hby. apply Z.eqb_refl.
Qed.

Lemma issuer_projects_own_newest_first_witness :
  exists ps,
    issuer_projects (Some Demo.issuer) Demo.evening =
      Json (map issuer_row_of ps) /\
    Permutation ps (filter (issued_by 2) (projects Demo.evening)) /\
    StronglySorted (fun a b => Project.id b <= Project.id a) ps /\
    forall p, In p ps <->
              In p (projects Demo.evening) /\ Project.issuer_id p = Some 2.
Proof.
  apply (issuer_projects_own_newest_first Demo.issuer Demo.evening).
  reflexivity.
Defined.

Lemma parse_status_name (status : string) (st : project_status) :
  (project_status_name st =? status)%string =
  match parse_status status with
  | Some st' => project_status_eqb st st'
  | None => false
  end.
Proof.
  unfold parse_status.
  destruct (status =? "ACTIVE")%string eqn:Ea.
  { apply String.eqb_eq in Ea. subst status. now destruct st. }
  destruct (status =? "FROZEN")%string eqn:Ef.
  { apply String.eqb_eq in Ef. subst status. now destruct st. }
  destruct (status =? "PENDING")%string eqn:Ep.
  { apply String.eqb_eq in Ep. subst status. now destruct st. }
  rewrite String.eqb_sym in Ea, Ef, Ep. now destruct st.
Qed.

(** X16. The admin's project list filters by status name. For a caller
    with the role ADMIN, GET /api/admin/projects answers with all projects
    when no status is named, with the projects of that status when the name
    is one of ACTIVE, FROZEN and PENDING, and with the empty list, not an
    error, for any other name (the status update route rejects such a name
    with 400); the rows are by descending [id]. *)
Theorem admin_list_projects_filter (au : auth_user) (status : string)
    (s : db) :
  role au = "ADMIN"%string ->
  exists ps,
    admin_list_projects (Some au) status s = Json (map admin_row_of ps) /\
    StronglySorted (fun a b => Project.id b <= Project.id a) ps /\
    Permutation ps
      (if (status =? "")%string then projects s
       else match parse_status status with
            | Some st =>
                filter (fun p => project_status_eqb (Project.status p) st)
                  (projects s)
            | None => []
            end).
Proof.
  intros Hrole. apply String.eqb_eq in Hrole.
  unfold admin_list_projects. rewrite Hrole. cbn [negb]. cbv zeta.
  eexists. split; [reflexivity|]. split; [apply order_by_desc_sorted|].
  rewrite order_by_desc_perm.
  destruct (status =? "")%string; [reflexivity|].
  erewrite filter_ext; [|intros p; apply parse_status_name].
  destruct (parse_status status) as [st|]; [reflexivity|].
  induction (projects s); cbn; [reflexivity|assumption].
Qed.

Lemma admin_list_projects_filter_witness :
  exists ps,
    admin_list_projects (Some Demo.admin) "CLOSED" Demo.evening =
      Json (map admin_row_of ps) /\
    StronglySorted (fun a b => Project.id b <= Project.id a) ps /\
    Permutation ps [].
Proof.
  apply (admin_list_projects_filter Demo.admin "CLOSED" Demo.evening).
  reflexivity.
Defined.

(** ** The milestones of a new project *)

Lemma fold_add_milestone_rows pid given : forall rows,
  exists new,
    fold_left (add_milestone pid) given rows = rows ++ new /\
    map (fun m => (Milestone.title m, Milestone.escrow_release_percent m)) new
      = given /\
    Forall (fun m => Milestone.project_id m = pid /\
                     Milestone.status m = MS_PENDING /\
                     Milestone.proof_url m = ""%string) new /\
    Forall (fun m => next_id Milestone.id rows <= Milestone.id m) new /\
    StronglySorted (fun a b => Milestone.id a < Milestone.id b) new.
Proof.
  induction given as [|[title pct] given IH]; intros rows.
  - exists []. rewrite app_nil_r. repeat split; constructor.
  - cbn [fold_left]. unfold add_milestone at 2. cbn [fst snd].
    set (r := Milestone.mk (next_id Milestone.id rows) pid title pct
                MS_PENDING "").
    destruct (IH (rows ++ [r])) as (new & -> & Hmap & Hall & Hge & Hs).
    exists (r :: new). rewrite <- app_assoc. split; [reflexivity|].
    assert (Hlt : Milestone.id r < next_id Milestone.id (rows ++ [r])).
    { apply next_id_gt. apply in_or_app. right. now left. }
    split; [cbn; now rewrite Hmap|]. split; [|split].
    + constructor; [repeat split|exact Hall].
    + constructor; [cbn; lia|].
      eapply Forall_impl; [|exact Hge]. cbv beta. intros m Hm.
      cbn [Milestone.id r] in Hlt. subst r. cbn [Milestone.id] in Hlt. lia.
    + constructor; [exact Hs|].
      eapply Forall_impl; [|exact Hge]. cbv beta. intros m Hm. lia.
Qed.

(** X17. The milestones of a new project are those the request named, or
    the five defaults. After a successful creation (the milestones of the
    database belonging to projects of the catalog), the milestone list of
    the new project is, in order, the default schedule when the request
    names no milestone, and otherwise the named milestones that have a
    title and a positive percent; each is PENDING without a proof. A
    request whose milestones are all invalid creates a project without any
    milestone: the defaults are not applied. *)
Theorem created_project_milestones (auth : option auth_user)
    (title category location description : string)
    (funding_target token_price : Z) (roi_percent : Py.float)
    (tenure_months : Z) (ms : list (string * Z)) (s s' : db) (b : body) :
  Forall (fun m => in_catalog (Milestone.project_id m) s) (milestones s) ->
  issuer_create_project auth title category location description
    funding_target token_price roi_percent tenure_months ms s = (Ok b, s') ->
  let pid := next_id Project.id (projects s) in
  let given :=
    match ms with
    | [] => default_ms
    | _ :: _ => filter (fun m => negb (fst m =? "")%string && (0 <? snd m)) ms
    end in
  map (fun v => (m_title v, m_escrow_release_percent v))
    (project_milestones pid s') = given /\
  Forall (fun v => m_status v = MS_PENDING /\ m_proof_url v = ""%string)
    (project_milestones pid s') /\
  StronglySorted (fun a b => m_id a < m_id b) (project_milestones pid s').
Proof.
  intros Hcat H pid given.
  pose proof (create_ok_milestones _ _ _ _ _ _ _ _ _ _ _ _ _ H) as Hms.
  fold pid given in Hms.
  destruct (fold_add_milestone_rows pid given (milestones s))
    as (new & Hnew & Hmap & Hall & _ & Hs).
  rewrite Hnew in Hms.
  assert (Hof : milestones_of pid s' = new).
  { unfold milestones_of. rewrite Hms, filter_app.
    assert (Hold : filter (fun m => Milestone.project_id m =? pid)
                     (milestones s) = []).
    { clear - Hcat. revert Hcat.
      induction (milestones s) as [|m rows IHr]; intros Hcat; [reflexivity|].
      inversion Hcat as [|? ? [p Hp] Hrest]; subst. cbn [filter].
      destruct (Milestone.project_id m =? pid) eqn:E; [|now apply IHr].
      apply Z.eqb_eq in E. rewrite E in Hp. unfold pid in Hp.
      rewrite get_next_id in Hp. discriminate Hp. }
    assert (Hfn : filter (fun m => Milestone.project_id m =? pid) new = new).
    { clear - Hall. induction new as [|m new IHn]; [reflexivity|].
      inversion Hall as [|? ? [Hp _] Hrest]. cbn [filter].
      apply Z.eqb_eq in Hp. rewrite Hp. now rewrite IHn. }
    rewrite Hold, Hfn. cbn [app]. now apply order_by_asc_id. }
  unfold project_milestones. rewrite Hof. split; [|split].
  - rewrite map_map. exact Hmap.
  - apply Forall_map. eapply Forall_impl; [|exact Hall].
    cbv beta. intros m (_ & Hst & Hurl). split; assumption.
  - clear - Hs. induction Hs as [|m new Hs IH Hm]; cbn [map]; constructor.
    + exact IH.
    + apply Forall_map. exact Hm.
Qed.

Lemma created_project_milestones_witness :
  map (fun v => (m_title v, m_escrow_release_percent v))
    (project_milestones 13 (snd (handle Demo.proposal Demo.seeded))) =
  default_ms.
Proof.
  apply (created_project_milestones (Some Demo.issuer)
           "Nagpur Metro Feeder Lanes" "Road" "Nagpur, Maharashtra"
           "Feeder lanes to the metro stations." 3000000 50 (Py.of_int 12) 24
           [] Demo.seeded (snd (handle Demo.proposal Demo.seeded))
           (ProjectCreated 13 PENDING)).
  - vm_compute. repeat (constructor; [eexists; reflexivity|]). constructor.
  - vm_compute. reflexivity.
Defined.

(** ** Binary64 quotients against the literal 0.95

    The quotient of two integers below [2 ^ 53] has a significand of 53 or
    54 digits before rounding; it is shifted by at most one digit and
    rounded to nearest, ties to even. Against [0.95], whose significand
    8556839292003942 is even and whose exponent is -53, the rounded
    quotient compares as the exact quotient compares against 19/20, as
    long as the denominator is below [2 ^ 52]. *)

(** Where the remainder [r] of a division by [d] lies in a unit. *)
Lemma new_location_spec d r :
  new_location d r =
  if r =? 0 then loc_Exact
  else loc_Inexact (if Z.even d then 2 * r ?= d
                    else match 2 * r + 1 ?= d with Gt => Gt | _ => Lt end).
Proof.
  unfold new_location.
  destruct (Z.even d); unfold new_location_even, new_location_odd;
    destruct (r =? 0); reflexivity.
Qed.

Lemma new_location_cases d r :
  0 <= r ->
  (r = 0 /\ new_location d r = loc_Exact) \/
  (0 < r /\ 2 * r < d /\ new_location d r = loc_Inexact Lt) \/
  (0 < r /\ 2 * r = d /\ new_location d r = loc_Inexact Eq) \/
  (0 < r /\ d < 2 * r /\ new_location d r = loc_Inexact Gt).
Proof.
  intros Hr. rewrite new_location_spec.
  destruct (Z.eqb_spec r 0) as [->|Hn]; [now left|right].
  destruct (Z.even d) eqn:Ev.
  - destruct (Z.compare_spec (2 * r) d) as [H|H|H]; [right; left|left|right; right];
      repeat split; auto; lia.
  - assert (Hne : 2 * r <> d).
    { intros <-. rewrite Z.even_mul in Ev. discriminate Ev. }
    destruct (Z.compare_spec (2 * r + 1) d) as [H|H|H];
      [left|left|right; right]; repeat split; auto; lia.
Qed.

Lemma round_nearest_even_bounds m l :
  m <= round_nearest_even m l <= m + 1.
Proof. destruct (round_nearest_even_cases m l) as [->| ->]; lia. Qed.

(** One digit shifted out of a positive significand. *)
Lemma shr_1_spec q loc :
  0 < q ->
  shr_1 (shr_record_of_loc q loc) =
  Build_shr_record (Z.div2 q) (Z.odd q)
    (match loc with loc_Exact => false | loc_Inexact _ => true end).
Proof.
  intros Hq. destruct q as [|p|p]; try lia.
  destruct p as [p'|p'|]; destruct loc as [|[]]; reflexivity.
Qed.

(** The literal against a finite positive value. *)
Lemma ltb_lit_0_95 M E :
  SFltb lit_0_95 (S754_finite false M E) =
  if E <? -53 then false
  else if -53 <? E then true
  else 8556839292003942 <? Z.pos M.
Proof.
  unfold SFltb, SFcompare, lit_0_95, binary64.
  destruct (Z.compare_spec (-53) E) as [H|H|H].
  - subst E. cbn [Z.ltb Z.compare Pos.compare Pos.compare_cont].
    change (PosDef.Pos.compare_cont Eq 8556839292003942 M)
      with (Pos.compare 8556839292003942 M).
    unfold Z.ltb. cbn [Z.compare].
    destruct (Pos.compare _ M); reflexivity.
  - destruct (E <? -53) eqn:E1; [apply Z.ltb_lt in E1; lia|].
    destruct (-53 <? E) eqn:E2; [reflexivity|apply Z.ltb_ge in E2; lia].
  - destruct (E <? -53) eqn:E1; [reflexivity|apply Z.ltb_ge in E1; lia].
Qed.

(** Rounding once the significand has 53 digits: the rounded significand
    stays, or a round-up carries into [2 ^ 53] and the exponent grows. *)
Lemma round_aux_shape q e loc mrs e1 :
  shr_fexp Py.prec Py.emax q e loc = (mrs, e1) ->
  2 ^ 52 <= shr_m mrs < 2 ^ 53 -> -1074 <= e1 <= 960 ->
  exists M E,
    binary_round_aux Py.prec Py.emax false q e loc = S754_finite false M E /\
    ((Z.pos M = round_nearest_even (shr_m mrs) (loc_of_shr_record mrs) /\
      E = e1 /\ Z.pos M < 2 ^ 53) \/
     (round_nearest_even (shr_m mrs) (loc_of_shr_record mrs) = 2 ^ 53 /\
      Z.pos M = 2 ^ 52 /\ E = e1 + 1)).
Proof.
  intros Hs Hq He.
  pose proof (round_nearest_even_bounds (shr_m mrs) (loc_of_shr_record mrs))
    as Hb.
  set (R := round_nearest_even (shr_m mrs) (loc_of_shr_record mrs)) in *.
  destruct (Z.eq_dec R (2 ^ 53)) as [Hc|Hc].
  - exists (Z.to_pos (2 ^ 52)), (e1 + 1). split.
    + unfold binary_round_aux. rewrite Hs. fold R. rewrite Hc.
      rewrite (shr_fexp_1 (2 ^ 53) e1 loc_Exact eq_refl ltac:(lia)).
      cbn [shr_m shr_1 shr_record_of_loc Z.pow Z.pow_pos Pos.iter Z.mul
           Pos.mul Z.to_pos].
      unfold Py.emax, Py.prec.
      destruct (e1 + 1 <=? 1024 - 53) eqn:E; [reflexivity|].
      apply Z.leb_gt in E. lia.
    + right. split; [exact Hc|split; [|reflexivity]]. rewrite Z2Pos.id; lia.
  - destruct R as [|p|p] eqn:Ep; try lia.
    exists p, e1. split.
    + apply (round_aux_step _ _ _ _ _ p Hs).
      * exact Ep.
      * apply Zdigits2_unique; lia.
      * lia.
    + left. repeat split; lia.
Qed.

Lemma spike_after_round M E R e1 :
  (Z.pos M = R /\ E = e1 /\ Z.pos M < 2 ^ 53) \/
  (R = 2 ^ 53 /\ Z.pos M = 2 ^ 52 /\ E = e1 + 1) ->
  SFltb lit_0_95 (S754_finite false M E) =
  if e1 <? -53 then false
  else if -53 <? e1 then true
  else 8556839292003942 <? R.
Proof.
  intros H. rewrite ltb_lit_0_95.
  change (2 ^ 53) with 9007199254740992 in H.
  change (2 ^ 52) with 4503599627370496 in H.
  destruct H as [(-> & -> & _)|(-> & HM & ->)]; [reflexivity|].
  rewrite HM.
  destruct (Z.ltb_spec (e1 + 1) (-53)), (Z.ltb_spec e1 (-53)),
    (Z.ltb_spec (-53) (e1 + 1)), (Z.ltb_spec (-53) e1);
    try lia; reflexivity.
Qed.

(** Arithmetic of the three decisive quotients. *)
Lemma spike_53_eq n d r :
  0 < d < 2 ^ 52 -> 0 <= r < d ->
  n * 2 ^ 53 = d * 8556839292003942 + r ->
  (d < 2 * r <-> 19 * d < 20 * n).
Proof.
  change (2 ^ 52) with 4503599627370496.
  change (2 ^ 53) with 9007199254740992. intros Hd Hr H. lia.
Qed.

Lemma spike_54_even n d r :
  0 < d < 2 ^ 52 -> 0 <= r < d ->
  n * 2 ^ 54 = d * (2 * 8556839292003942) + r ->
  ~ 19 * d < 20 * n.
Proof.
  change (2 ^ 52) with 4503599627370496.
  change (2 ^ 54) with 18014398509481984. intros Hd Hr H. lia.
Qed.

Lemma spike_54_odd n d r :
  0 < d < 2 ^ 52 -> 0 <= r < d ->
  n * 2 ^ 54 = d * (2 * 8556839292003942 + 1) + r ->
  (r <> 0 <-> 19 * d < 20 * n).
Proof.
  change (2 ^ 52) with 4503599627370496.
  change (2 ^ 54) with 18014398509481984. intros Hd Hr H. lia.
Qed.

(** The rounded quotient of [n] by [d], from the integer quotient [q] and
    remainder [r] of [n * 2 ^ (53 + d2 - d1)] by [d], where [d1] and [d2]
    count the digits of [n] and [d]. *)
Lemma spike_quotient n d d1 d2 q r :
  0 < d < 2 ^ 52 ->
  1 <= d1 <= 53 -> 1 <= d2 <= 52 ->
  2 ^ (d1 - 1) <= n < 2 ^ d1 -> 2 ^ (d2 - 1) <= d < 2 ^ d2 ->
  n * 2 ^ (53 + d2 - d1) = d * q + r -> 0 <= r < d ->
  exists M E,
    binary_round_aux Py.prec Py.emax false q (d1 - d2 - 53)
      (new_location d r) = S754_finite false M E /\
    SFltb lit_0_95 (S754_finite false M E) = (19 * d <? 20 * n).
Proof.
  intros Hd Hd1 Hd2 Hn Hdd Hqr Hr.
  assert (Hp1 : 2 ^ d1 = 2 * 2 ^ (d1 - 1)).
  { rewrite <- Z.pow_succ_r by lia. f_equal. lia. }
  assert (Hp2 : 2 ^ d2 = 2 * 2 ^ (d2 - 1)).
  { rewrite <- Z.pow_succ_r by lia. f_equal. lia. }
  assert (HAT : 2 ^ (d1 - 1) * 2 ^ (53 + d2 - d1) = 2 ^ 53 * 2 ^ (d2 - 1)).
  { rewrite <- !Z.pow_add_r by lia. f_equal. lia. }
  assert (HT : 0 < 2 ^ (53 + d2 - d1)) by (apply Z.pow_pos_nonneg; lia).
  assert (HA : 0 < 2 ^ (d1 - 1)) by (apply Z.pow_pos_nonneg; lia).
  assert (HB : 0 < 2 ^ (d2 - 1)) by (apply Z.pow_pos_nonneg; lia).
  set (T := 2 ^ (53 + d2 - d1)) in *.
  set (A := 2 ^ (d1 - 1)) in *. set (B := 2 ^ (d2 - 1)) in *.
  assert (HnT : A * T <= n * T) by (apply Z.mul_le_mono_nonneg_r; lia).
  assert (HnT' : n * T <= (2 * A - 1) * T)
    by (apply Z.mul_le_mono_nonneg_r; lia).
  change (2 ^ 52) with 4503599627370496 in *.
  change (2 ^ 53) with 9007199254740992 in *.
  assert (Hq : 4503599627370496 <= q < 18014398509481984).
  { split.
    - destruct (Z.lt_ge_cases q 4503599627370496) as [H|H]; [exfalso|exact H].
      assert (d * q <= d * 4503599627370495)
        by (apply Z.mul_le_mono_nonneg_l; lia). lia.
    - destruct (Z.lt_ge_cases q 18014398509481984) as [H|H]; [exact H|exfalso].
      assert (d * 18014398509481984 <= d * q)
        by (apply Z.mul_le_mono_nonneg_l; lia). lia. }
  (* the truth of the comparison, by the digits of [n] and [d] *)
  assert (Hbig : d2 < d1 -> 19 * d < 20 * n).
  { intros H. assert (2 ^ d2 <= A)
      by (unfold A; apply Z.pow_le_mono_r; lia). lia. }
  assert (Hpow : forall j, 0 <= j -> 53 + d2 - d1 = 53 + j -> 
                 T = 9007199254740992 * 2 ^ j).
  { intros j Hj E. unfold T. rewrite E, Z.pow_add_r by lia. reflexivity. }
  destruct (Z.lt_ge_cases q 9007199254740992) as [H53|H54].
  - (* 53 digits *)
    assert (Hdg : Zdigits2 q = 53)
      by (apply Zdigits2_unique; [lia|]; 
          change (2 ^ (53 - 1)) with 4503599627370496;
          change (2 ^ 53) with 9007199254740992; lia).
    pose proof (shr_fexp_0 q (d1 - d2 - 53) (new_location d r) Hdg
                  ltac:(lia)) as Hs.
    destruct (round_aux_shape _ _ _ _ _ Hs) as (M & E & HM & Hsh).
    { rewrite shr_m_of_loc. change (2 ^ 52) with 4503599627370496.
      change (2 ^ 53) with 9007199254740992. lia. }
    { lia. }
    rewrite shr_m_of_loc, loc_of_shr_of_loc in Hsh.
    exists M, E. split; [exact HM|].
    rewrite (spike_after_round _ _ _ _ Hsh).
    pose proof (round_nearest_even_bounds q (new_location d r)) as Hb.
    destruct (Z.ltb_spec (d1 - d2 - 53) (-53)) as [Hk|Hk].
    + (* the denominator has more digits *)
      assert (HT2 : 2 * 9007199254740992 <= T).
      { rewrite (Hpow (d2 - d1) ltac:(lia) ltac:(lia)).
        assert (2 ^ 1 <= 2 ^ (d2 - d1)) by (apply Z.pow_le_mono_r; lia).
        change (2 ^ 1) with 2 in *. lia. }
      assert (n * (2 * 9007199254740992) <= n * T)
        by (apply Z.mul_le_mono_nonneg_l; lia).
      assert (d * q <= d * 9007199254740991)
        by (apply Z.mul_le_mono_nonneg_l; lia).
      destruct (Z.ltb_spec (19 * d) (20 * n)); [lia|reflexivity].
    + destruct (Z.ltb_spec (-53) (d1 - d2 - 53)) as [Hk'|Hk'].
      * destruct (Z.ltb_spec (19 * d) (20 * n)); [reflexivity|].
        pose proof (Hbig ltac:(lia)). lia.
      * (* as many digits: the significands decide *)
        assert (ET : T = 9007199254740992).
        { rewrite (Hpow 0 ltac:(lia) ltac:(lia)). reflexivity. }
        rewrite ET in Hqr.
        destruct (Z.lt_total q 8556839292003942) as [Hlt|[Heq|Hgt]].
        -- assert (d * q <= d * 8556839292003941)
             by (apply Z.mul_le_mono_nonneg_l; lia).
           destruct (Z.ltb_spec 8556839292003942
                       (round_nearest_even q (new_location d r)));
             destruct (Z.ltb_spec (19 * d) (20 * n)); try reflexivity; lia.
        -- subst q.
           pose proof (spike_53_eq n d r ltac:(lia) Hr Hqr) as Hiff.
           destruct (new_location_cases d r (proj1 Hr))
             as [[H0 ->]|[(H0 & H1 & ->)|[(H0 & H1 & ->)|(H0 & H1 & ->)]]];
             cbn [round_nearest_even];
             change (Z.even 8556839292003942) with true; cbv iota;
             destruct (Z.ltb_spec 8556839292003942 8556839292003942);
             destruct (Z.ltb_spec 8556839292003942 (8556839292003942 + 1));
             destruct (Z.ltb_spec (19 * d) (20 * n)); try reflexivity; lia.
        -- assert (d * 8556839292003943 <= d * q)
             by (apply Z.mul_le_mono_nonneg_l; lia).
           destruct (Z.ltb_spec 8556839292003942
                       (round_nearest_even q (new_location d r)));
             destruct (Z.ltb_spec (19 * d) (20 * n)); try reflexivity; lia.
  - (* 54 digits: one is shifted out *)
    assert (Hdg : Zdigits2 q = 54)
      by (apply Zdigits2_unique; [lia|]; 
          change (2 ^ (54 - 1)) with 9007199254740992;
          change (2 ^ 54) with 18014398509481984; lia).
    pose proof (shr_fexp_1 q (d1 - d2 - 53) (new_location d r) Hdg
                  ltac:(lia)) as Hs.
    rewrite shr_1_spec in Hs by lia.
    pose proof (Z.div2_odd q) as Hq2.
    destruct (round_aux_shape _ _ _ _ _ Hs) as (M & E & HM & Hsh).
    { cbn [shr_m]. change (2 ^ 52) with 4503599627370496.
      change (2 ^ 53) with 9007199254740992.
      destruct (Z.odd q); cbn [Z.b2z] in Hq2; lia. }
    { lia. }
    cbn [shr_m] in Hsh.
    exists M, E. split; [exact HM|].
    rewrite (spike_after_round _ _ _ _ Hsh).
    set (loc' := loc_of_shr_record _) in *.
    pose proof (round_nearest_even_bounds (Z.div2 q) loc') as Hb.
    destruct (Z.ltb_spec (d1 - d2 - 53 + 1) (-53)) as [Hk|Hk].
    + assert (HT2 : 4 * 9007199254740992 <= T).
      { rewrite (Hpow (d2 - d1) ltac:(lia) ltac:(lia)).
        assert (2 ^ 2 <= 2 ^ (d2 - d1)) by (apply Z.pow_le_mono_r; lia).
        change (2 ^ 2) with 4 in *. lia. }
      assert (n * (4 * 9007199254740992) <= n * T)
        by (apply Z.mul_le_mono_nonneg_l; lia).
      assert (d * q <= d * 18014398509481983)
        by (apply Z.mul_le_mono_nonneg_l; lia).
      destruct (Z.ltb_spec (19 * d) (20 * n)); [lia|reflexivity].
    + destruct (Z.ltb_spec (-53) (d1 - d2 - 53 + 1)) as [Hk'|Hk'].
      * destruct (Z.ltb_spec (19 * d) (20 * n)); [reflexivity|exfalso].
        destruct (Z.eq_dec d1 d2) as [Ek|Ek].
        -- assert (ET : T = 9007199254740992).
           { rewrite (Hpow 0 ltac:(lia) ltac:(lia)). reflexivity. }
           rewrite ET in Hqr.
           assert (d * 9007199254740992 <= d * q)
             by (apply Z.mul_le_mono_nonneg_l; lia). lia.
        -- pose proof (Hbig ltac:(lia)). lia.
      * (* one digit more in the denominator *)
        assert (ET : T = 18014398509481984).
        { rewrite (Hpow 1 ltac:(lia) ltac:(lia)). reflexivity. }
        rewrite ET in Hqr.
        destruct (Z.lt_total (Z.div2 q) 8556839292003942)
          as [Hlt|[Heq|Hgt]].
        -- assert (d * q <= d * (2 * 8556839292003942 - 1))
             by (apply Z.mul_le_mono_nonneg_l;
                 [lia|destruct (Z.odd q); cbn [Z.b2z] in Hq2; lia]).
           destruct (Z.ltb_spec 8556839292003942
                       (round_nearest_even (Z.div2 q) loc'));
             destruct (Z.ltb_spec (19 * d) (20 * n)); try reflexivity; lia.
        -- subst loc'. rewrite Heq in *.
           destruct (Z.odd q) eqn:Eo; cbn [Z.b2z] in Hq2.
           ++ assert (Eq' : q = 2 * 8556839292003942 + 1) by lia.
              rewrite Eq' in Hqr.
              pose proof (spike_54_odd n d r ltac:(lia) Hr Hqr) as Hiff.
              destruct (new_location_cases d r (proj1 Hr))
                as [[H0 ->]|[(H0 & H1 & ->)|[(H0 & H1 & ->)|(H0 & H1 & ->)]]];
                cbn [loc_of_shr_record round_nearest_even];
                change (Z.even 8556839292003942) with true; cbv iota;
                destruct (Z.ltb_spec 8556839292003942 8556839292003942);
                destruct (Z.ltb_spec 8556839292003942 (8556839292003942 + 1));
                destruct (Z.ltb_spec (19 * d) (20 * n)); try reflexivity; lia.
           ++ assert (Eq' : q = 2 * 8556839292003942) by lia.
              rewrite Eq' in Hqr.
              pose proof (spike_54_even n d r ltac:(lia) Hr Hqr) as Hiff.
              destruct (new_location d r) as [|c];
                cbn [loc_of_shr_record round_nearest_even];
                destruct (Z.ltb_spec 8556839292003942 8556839292003942);
                destruct (Z.ltb_spec (19 * d) (20 * n)); try reflexivity; lia.
        -- assert (d * (2 * 8556839292003943) <= d * q)
             by (apply Z.mul_le_mono_nonneg_l;
                 [lia|destruct (Z.odd q); cbn [Z.b2z] in Hq2; lia]).
           destruct (Z.ltb_spec 8556839292003942
                       (round_nearest_even (Z.div2 q) loc'));
             destruct (Z.ltb_spec (19 * d) (20 * n)); try reflexivity; lia.
Qed.

(** [n / d > 0.95] on two [int]s is decided as on the exact quotient. *)
Lemma int_truediv_spike n d :
  0 <= n < 2 ^ 53 -> 0 < d < 2 ^ 52 ->
  exists x, Py.int_truediv n d = Some x /\
    match x with S754_infinity _ => False | _ => True end /\
    SFltb lit_0_95 x = (19 * d <? 20 * n).
Proof.
  intros Hn Hd. unfold Py.int_truediv.
  destruct (Z.eqb_spec d 0) as [H0|_]; [lia|].
  eexists. split; [reflexivity|].
  destruct d as [|t|t]; try lia.
  destruct n as [|p|p]; try lia.
  - split; [exact I|]. cbn [Py.exact SFdiv xorb].
    destruct (Z.ltb_spec (19 * Z.pos t) (20 * 0)); [lia|reflexivity].
  - destruct (Zdigits2_spec (Z.pos p) ltac:(lia)) as [Hp1 Hp].
    destruct (Zdigits2_spec (Z.pos t) ltac:(lia)) as [Ht1 Ht].
    pose proof (Zdigits2_le (Z.pos p) 53 ltac:(lia) ltac:(lia) (proj2 Hn))
      as Hp53.
    pose proof (Zdigits2_le (Z.pos t) 52 ltac:(lia) ltac:(lia) (proj2 Hd))
      as Ht52.
    cbn [Py.exact SFdiv xorb]. unfold SFdiv_core_binary.
    set (d1 := Zdigits2 (Z.pos p)) in *. set (d2 := Zdigits2 (Z.pos t)) in *.
    replace (Z.min (fexp Py.prec Py.emax (d1 + 0 - (d2 + 0))) (0 - 0))
      with (d1 - d2 - 53) by (unfold fexp, emin, Py.prec, Py.emax; lia).
    replace (0 - 0 - (d1 - d2 - 53)) with (53 + d2 - d1) by lia.
    destruct (53 + d2 - d1) as [|s|s] eqn:Es; try lia. rewrite <- Es.
    rewrite Z.shiftl_mul_pow2 by lia.
    pose proof (Z.div_eucl_eq (Z.pos p * 2 ^ (53 + d2 - d1)) (Z.pos t)
                  ltac:(lia)) as Hqr.
    pose proof (Z.mod_pos_bound (Z.pos p * 2 ^ (53 + d2 - d1)) (Z.pos t)
                  ltac:(lia)) as Hr.
    unfold Z.modulo in Hr.
    destruct (Z.div_eucl (Z.pos p * 2 ^ (53 + d2 - d1)) (Z.pos t)) as [q r].
    destruct (spike_quotient (Z.pos p) (Z.pos t) d1 d2 q r Hd
                ltac:(lia) ltac:(lia) Hp Ht Hqr Hr) as (M & E & -> & HE).
    split; [exact I|exact HE].
Qed.

Lemma funding_spike_exact p :
  0 <= Project.funding_raised p < 2 ^ 53 ->
  Project.funding_target p < 2 ^ 52 ->
  funding_spike p =
  Some ((0 <? Project.funding_target p) &&
        (95 * Project.funding_target p <? 100 * Project.funding_raised p)).
Proof.
  intros Hn Hd. unfold funding_spike. rewrite Z.gtb_ltb.
  destruct (Z.ltb_spec 0 (Project.funding_target p)) as [H0|H0];
    [|reflexivity].
  destruct (int_truediv_spike _ _ Hn (conj H0 Hd)) as (x & -> & Hx & ->).
  cbn [andb].
  replace (95 * Project.funding_target p <? 100 * Project.funding_raised p)
    with (19 * Project.funding_target p <? 20 * Project.funding_raised p).
  - destruct x; [reflexivity|contradiction|reflexivity|reflexivity].
  - destruct (Z.ltb_spec (19 * Project.funding_target p)
                (20 * Project.funding_raised p));
      destruct (Z.ltb_spec (95 * Project.funding_target p)
                  (100 * Project.funding_raised p)); try reflexivity; lia.
Qed.

Lemma collect_alerts_exact ps :
  Forall (fun p => 0 <= Project.funding_raised p < 2 ^ 53 /\
                   Project.funding_target p < 2 ^ 52) ps ->
  Forall (fun p => is_null (Project.roi_percent p) = false) ps ->
  collect_alerts ps =
  Some (flat_map
          (fun p =>
             (if Py.leb (Py.of_int 14) (Project.roi_percent p)
              then [high_roi_alert p] else []) ++
             (if (0 <? Project.funding_target p) &&
                 (95 * Project.funding_target p <?
                  100 * Project.funding_raised p)
              then [funding_spike_alert p] else []))
          ps).
Proof.
  induction 1 as [|p ps [Hn Hd] _ IH]; intros Hroi; [reflexivity|].
  inversion Hroi as [|? ? Hp Hps]; subst.
  change (collect_alerts (p :: ps))
    with (match alerts_of p, collect_alerts ps with
          | Some a, Some more => Some (a ++ more)
          | _, _ => None
          end).
  rewrite (IH Hps). unfold alerts_of.
  rewrite Hp, (funding_spike_exact p Hn Hd).
  reflexivity.
Qed.

Lemma collect_alerts_null ps :
  Exists (fun p => is_null (Project.roi_percent p) = true) ps ->
  collect_alerts ps = None.
Proof.
  induction 1 as [p ps Hp|p ps _ IH].
  - cbn [collect_alerts]. unfold alerts_of. now rewrite Hp.
  - cbn [collect_alerts]. rewrite IH. now destruct (alerts_of p).
Qed.

(** X18. The fraud alerts are exact. For an admin, as long as every project
    has raised a non-negative amount below 2^53 against a target below
    2^52: when no project has a NULL roi_percent, GET
    /api/admin/fraud-alerts lists, project by project in key order, a
    HIGH_ROI_ALERT when roi_percent >= 14 and then a FUNDING_SPIKE exactly
    when the target is positive and
    100 * funding_raised > 95 * funding_target (the binary64 quotient
    compared with the literal 0.95 decides as the exact fraction does);
    when a project has a NULL roi_percent, which is how the database
    stores the NaN a project can be created with, the request is answered
    500. *)
Theorem fraud_alerts_exact (au : auth_user) (s : db) :
  role au = "ADMIN"%string ->
  Forall (fun p => 0 <= Project.funding_raised p < 2 ^ 53 /\
                   Project.funding_target p < 2 ^ 52) (projects s) ->
  (Forall (fun p => is_null (Project.roi_percent p) = false) (projects s) ->
   admin_fraud_alerts (Some au) s =
   Json (flat_map
           (fun p =>
              (if Py.leb (Py.of_int 14) (Project.roi_percent p)
               then [high_roi_alert p] else []) ++
              (if (0 <? Project.funding_target p) &&
                  (95 * Project.funding_target p <?
                   100 * Project.funding_raised p)
               then [funding_spike_alert p] else []))
           (projects s))) /\
  (Exists (fun p => is_null (Project.roi_percent p) = true) (projects s) ->
   admin_fraud_alerts (Some au) s = Refused 500 "Internal Server Error").
Proof.
  intros Hrole Hall. unfold admin_fraud_alerts. rewrite Hrole.
  split.
  - intros Hroi. now rewrite (collect_alerts_exact _ Hall Hroi).
  - intros Hnull. now rewrite (collect_alerts_null _ Hnull).
Qed.

Lemma fraud_alerts_exact_witness :
  admin_fraud_alerts (Some Demo.admin)
    (snd (handle (Invest (Some Demo.investor) 13 2850000 "0xa3")
            Demo.evening)) =
  Json [mkalert HIGH_ROI_ALERT 10 "Chennai Flood-Resilient Underpass Upgrade"
          "Unusually high ROI detected (possible risk)" "HIGH";
        mkalert FUNDING_SPIKE 13 "Nagpur Metro Feeder Lanes"
          "Project nearing full funding rapidly" "MEDIUM"].
Proof.
  set (s := snd (handle _ Demo.evening)).
  destruct (fraud_alerts_exact Demo.admin s eq_refl) as [H _].
  { subst s. set (ps := projects _). vm_compute in ps. subst ps.
    repeat (constructor; [cbn; lia|]). constructor. }
  rewrite H.
  - vm_compute. reflexivity.
  - subst s. set (ps := projects _). vm_compute in ps. subst ps.
    repeat (constructor; [reflexivity|]). constructor.
Defined.



(** ** Requests the database refuses

    Four requests that end in an uncaught exception: the release of an
    escrow whose released total would pass 2^63 - 1; a purchase whose
    price, 10 tokens at 2^62, does not fit the transaction's [amount]; the
    creation of a project with a milestone percent of 2^63, which leaves
    the project committed without escrow and without milestones; and the
    fraud alerts after a project was created with a [roi_percent] that is
    not a number. *)

Example release_overflow :
  issuer_submit_milestone_proof Sample.issuer 1 "/uploads/c.pdf" spent_escrow =
  (Err 500 "Internal Server Error", spent_escrow).
Proof. vm_compute. reflexivity. Qed.

Example purchase_overflow :
  let s1 := run [ListTokens Sample.investor 1 10 (2 ^ 62)] Sample.market0 in
  option_map MarketplaceListing.price_per_token
    (get MarketplaceListing.id 1 (listings s1)) = Some (2 ^ 62) /\
  buy_listing Sample.second 1 "0xb6" s1 =
  (Err 500 "Internal Server Error", s1).
Proof. split; vm_compute; reflexivity. Qed.

Example creation_half_committed :
  let r := handle (CreateProject Sample.issuer "Ring Road" "Road" "Durg"
                     "Bypass" 1000000 100 (Py.of_int 12) 24
                     [("Survey"%string, 2 ^ 63)]) Sample.s0 in
  fst r = Err 500 "Internal Server Error" /\
  map Project.id (projects (snd r)) = [1; 2; 3] /\
  transparency 3 (snd r) = mkescrow_view 0 0 /\
  escrows (snd r) = escrows Sample.s0 /\
  milestones (snd r) = milestones Sample.s0.
Proof. repeat split; vm_compute; reflexivity. Qed.

Example alerts_on_null_roi :
  let r := handle (CreateProject Sample.issuer "Ring Road" "Road" "Durg"
                     "Bypass" 1000000 100 S754_nan 24 []) Sample.s0 in
  fst r = Ok (ProjectCreated 3 PENDING) /\
  admin_fraud_alerts Sample.admin (snd r) =
  Refused 500 "Internal Server Error".
Proof. split; vm_compute; reflexivity. Qed.
